(** * scalyr_agent/builtin_monitors/linux_process_metrics.py

    A shallow embedding of the per-process metrics monitor: the readers
    of the /proc statistic files ([BaseReader] and the classes derived
    from it) and the [ProcessMonitor] that binds them to a process id.

    Python objects are records, methods are computations in a state and
    exception monad over the object and the operating system, and every
    effect that leaves the program (opening, reading and closing files,
    signals, logger calls) is recorded in a log of events. *)

From Stdlib Require Import ZArith QArith Qabs Lia Bool String Ascii DecimalString.
From Stdlib Require Import Floats.SpecFloat.
From stdpp Require Import base option list strings gmap.
From Stdlib Require DecimalPos.

Local Open Scope string_scope.
Local Open Scope list_scope.
Local Open Scope Z_scope.

(* ===================================================================== *)
(** * Python builtins on [str] and [int] *)
(* ===================================================================== *)

Module Py.

(** [c.isspace()] for a byte: blank, \t, \n, \v, \f and \r. *)
Definition is_space (c : ascii) : bool :=
  let n := nat_of_ascii c in
  (Nat.eqb n 32 || (Nat.leb 9 n && Nat.leb n 13))%bool.

Definition is_digit (c : ascii) : bool :=
  let n := nat_of_ascii c in (Nat.leb 48 n && Nat.leb n 57)%bool.

Definition digit_val (c : ascii) : Z := Z.of_nat (nat_of_ascii c) - 48.

Definition snoc (s : string) (c : ascii) : string := s +:+ String c "".

Definition is_empty (s : string) : bool :=
  match s with EmptyString => true | String _ _ => false end.

(** [s.split()]: the maximal runs of non-blank characters, in order.
    [cur] is the run being read. *)
Fixpoint split_from (cur s : string) : list string :=
  match s with
  | EmptyString => if is_empty cur then [] else [cur]
  | String c s' =>
      if is_space c
      then (if is_empty cur then split_from "" s' else cur :: split_from "" s')
      else split_from (snoc cur c) s'
  end.

Definition split (s : string) : list string := split_from "" s.

(** The lines of a text file as iteration and [readlines()] give them:
    each line keeps its terminating newline. *)
Fixpoint lines_from (cur s : string) : list string :=
  match s with
  | EmptyString => if is_empty cur then [] else [cur]
  | String c s' =>
      if Ascii.eqb c "010"%char
      then snoc cur c :: lines_from "" s'
      else lines_from (snoc cur c) s'
  end.

Definition lines (s : string) : list string := lines_from "" s.

(** [s.find(sub)]: the least index at which [sub] occurs, or -1. *)
Fixpoint find_from (i : Z) (sub s : string) : Z :=
  if String.prefix sub s then i
  else match s with
       | EmptyString => -1
       | String _ s' => find_from (i + 1) sub s'
       end.

Definition find (s sub : string) : Z := find_from 0 sub s.

Fixpoint drop (n : nat) (s : string) : string :=
  match n, s with
  | O, _ => s
  | S n', String _ s' => drop n' s'
  | S _, EmptyString => EmptyString
  end.

Fixpoint take (n : nat) (s : string) : string :=
  match n, s with
  | S n', String c s' => String c (take n' s')
  | _, _ => EmptyString
  end.

(** The position a slice bound denotes: negative bounds count from the
    end, and every bound is clipped to the string. *)
Definition slice_index (i : Z) (s : string) : nat :=
  let n := Z.of_nat (String.length s) in
  Z.to_nat (if i <? 0 then Z.max 0 (n + i) else Z.min i n).

(** [s[i:]] and [s[:i]]. *)
Definition slice_from (i : Z) (s : string) : string := drop (slice_index i s) s.
Definition slice_to (i : Z) (s : string) : string := take (slice_index i s) s.

Fixpoint lstrip (s : string) : string :=
  match s with
  | String c s' => if is_space c then lstrip s' else s
  | EmptyString => EmptyString
  end.

Definition rstrip (s : string) : string := String.rev (lstrip (String.rev s)).

(** [s.strip()]. *)
Definition strip (s : string) : string := rstrip (lstrip s).

(** The value of a non-empty string of decimal digits. *)
Fixpoint digits_from (acc : Z) (s : string) : option Z :=
  match s with
  | EmptyString => Some acc
  | String c s' =>
      if is_digit c then digits_from (10 * acc + digit_val c) s' else None
  end.

Definition digits (s : string) : option Z :=
  match s with
  | EmptyString => None
  | String _ _ => digits_from 0 s
  end.

(** [int(s)] in base ten: blanks around the literal are dropped, one
    sign is allowed.  [None] is [ValueError]. *)
Definition int (s : string) : option Z :=
  match strip s with
  | String "-" d => Z.opp <$> digits d
  | String "+" d => digits d
  | d => digits d
  end.

(** [str(n)] and the [%d] conversion of an integer. *)
Definition str_of_int (n : Z) : string := NilZero.string_of_int (Z.to_int n).

End Py.

(* ===================================================================== *)
(** * Exceptions and results *)
(* ===================================================================== *)

Inductive exn : Type :=
| IOError (errno : Z)
| OSError (errno : Z)
| IndexError
| ValueError
| TypeError
| ZeroDivisionError
| OverflowError
| BadMonitorConfiguration (field : string)
| OtherError (name : string).

Inductive result (A : Type) : Type :=
| Ok (a : A)
| Raise (e : exn).
Arguments Ok {A} a.
Arguments Raise {A} e.

(* ===================================================================== *)
(** * Python floats *)
(* ===================================================================== *)

(** A float is an IEEE 754 double, as the specification of
    floating-point arithmetic of the standard library has it; every
    operation rounds to nearest, ties to even. *)
Module PyFloat.

Definition float : Type := spec_float.

Definition prec : Z := 53.
Definition emax : Z := 1024.

(** The float literal [n.0] of a small integer [n]. *)
Definition literal (n : Z) : float := binary_normalize prec emax n 0 false.

(** The coercion of an [int] operand; an integer beyond the range of
    the doubles is an [OverflowError]. *)
Definition of_int (n : Z) : result float :=
  match binary_normalize prec emax n 0 false with
  | S754_infinity _ => Raise OverflowError
  | x => Ok x
  end.

Definition mul (x y : float) : float := SFmul prec emax x y.

(** [x / y] *)
Definition div (x y : float) : result float :=
  match y with
  | S754_zero _ => Raise ZeroDivisionError
  | _ => Ok (SFdiv prec emax x y)
  end.

(** [int(x)]: the integer part, rounding toward zero. *)
Definition to_int (x : float) : result Z :=
  match x with
  | S754_zero _ => Ok 0
  | S754_finite s m e =>
      let a := match e with
               | Zneg p => Z.shiftr (Zpos m) (Zpos p)
               | _ => Z.shiftl (Zpos m) e
               end in
      Ok (if s then - a else a)
  | S754_infinity _ => Raise OverflowError
  | S754_nan => Raise ValueError
  end.

Fixpoint span_digits (s : string) : string * string :=
  match s with
  | String c s' =>
      if Py.is_digit c
      then let '(d, r) := span_digits s' in (String c d, r)
      else (EmptyString, s)
  | EmptyString => (EmptyString, EmptyString)
  end.

Definition signed_digits (s : string) : option Z :=
  match s with
  | String "-" d => Z.opp <$> Py.digits d
  | String "+" d => Py.digits d
  | d => Py.digits d
  end.

Definition lower_char (c : ascii) : ascii :=
  let n := nat_of_ascii c in
  if (Nat.leb 65 n && Nat.leb n 90)%bool then ascii_of_nat (n + 32) else c.

Fixpoint lower (s : string) : string :=
  match s with
  | EmptyString => EmptyString
  | String c s' => String (lower_char c) (lower s')
  end.

(** The double nearest to [m * 10^e], for [m] not negative. *)
Definition scale10 (neg : bool) (m e : Z) : float :=
  match m with
  | Zpos p =>
      match e with
      | Zneg k =>
          SFdiv prec emax (S754_finite neg p 0) (S754_finite false (Pos.pow 10 k) 0)
      | _ => binary_normalize prec emax (if neg then - (m * 10 ^ e) else m * 10 ^ e) 0 false
      end
  | _ => S754_zero neg
  end.

(** [float(s)]: blanks around the literal are dropped; the literal is a
    sign, then [inf], [infinity] or [nan] in any case, or digits with an
    optional fraction and an optional exponent.  [None] is
    [ValueError]. *)
Definition of_string (s : string) : option float :=
  let s := Py.strip s in
  let '(neg, s) :=
    match s with
    | String "-" r => (true, r)
    | String "+" r => (false, r)
    | _ => (false, s)
    end in
  if (String.eqb (lower s) "inf" || String.eqb (lower s) "infinity")%bool
  then Some (S754_infinity neg)
  else if String.eqb (lower s) "nan" then Some S754_nan
  else
    let '(ip, s) := span_digits s in
    let '(fp, s) :=
      match s with
      | String "." r => span_digits r
      | _ => (EmptyString, s)
      end in
    if (Py.is_empty ip && Py.is_empty fp)%bool then None
    else
      m ← Py.digits_from 0 (ip +:+ fp);
      e ← match s with
           | EmptyString => Some 0
           | String c r =>
               if (Ascii.eqb c "e" || Ascii.eqb c "E")%bool
               then signed_digits r else None
           end;
      Some (scale10 neg m (e - Z.of_nat (String.length fp))).

End PyFloat.

(* ===================================================================== *)
(** * The monad of methods *)
(* ===================================================================== *)

(** A method is a function of the state it runs in that returns or raises
    and leaves a state behind in both cases. *)
Definition M (St A : Type) : Type := St -> result A * St.

Definition ret {St A} (a : A) : M St A := fun s => (Ok a, s).
Definition raise {St A} (e : exn) : M St A := fun s => (Raise e, s).

Definition bind {St A B} (m : M St A) (k : A -> M St B) : M St B :=
  fun s => match m s with
           | (Ok a, s') => k a s'
           | (Raise e, s') => (Raise e, s')
           end.

#[global] Instance M_ret {St} : MRet (M St) := fun _ a => ret a.
#[global] Instance M_bind {St} : MBind (M St) := fun _ _ k m => bind m k.
#[global] Instance M_fmap {St} : FMap (M St) :=
  fun _ _ f m => bind m (fun a => ret (f a)).

Definition get {St} : M St St := fun s => (Ok s, s).
Definition modify {St} (f : St -> St) : M St unit := fun s => (Ok tt, f s).

(** A value or the exception of a pure builtin. *)
Definition lift_result {St A} (r : result A) : M St A := fun s => (r, s).

Definition or_raise {St A} (e : exn) (o : option A) : M St A :=
  match o with Some a => ret a | None => raise e end.

(** [try: body except ...: handler].  [handler e] is [None] when no
    except clause matches [e], which then propagates. *)
Definition try_except {St A} (body : M St A) (handler : exn -> option (M St A))
  : M St A :=
  fun s => match body s with
           | (Ok a, s') => (Ok a, s')
           | (Raise e, s') =>
               match handler e with
               | Some h => h s'
               | None => (Raise e, s')
               end
           end.

(** [try: body finally: cleanup].  An exception of the cleanup replaces
    the outcome of the body. *)
Definition try_finally {St A} (body : M St A) (cleanup : M St unit) : M St A :=
  fun s => match body s with
           | (r, s') =>
               match cleanup s' with
               | (Ok _, s'') => (r, s'')
               | (Raise e, s'') => (Raise e, s'')
               end
           end.

(** [seq[i]]; out of range is [IndexError]. *)
Definition index {St A} (l : list A) (i : nat) : M St A :=
  or_raise IndexError (l !! i).

(** [for x in l: body x]. *)
Fixpoint for_each {St A} (l : list A) (body : A -> M St unit) : M St unit :=
  match l with
  | [] => ret tt
  | x :: l' => bind (body x) (fun _ => for_each l' body)
  end.

(** [pattern % n] for an integer [n]: the conversions [%d] and [%ld]
    print [n] in decimal and [%%] prints a percent sign.  A pattern
    without a conversion, or with a second one, is a [TypeError]; the
    other conversion characters, which no reader uses, are rejected with
    [ValueError]. *)
Fixpoint format_from (used : bool) (n : Z) (pattern : string) : result string :=
  let emit (p : string) (r : result string) :=
    match r with Ok s => Ok (p +:+ s) | Raise e => Raise e end in
  let conv (rest : result string) :=
    if used then Raise TypeError else emit (Py.str_of_int n) rest in
  match pattern with
  | EmptyString => if used then Ok EmptyString else Raise TypeError
  | String "%" (String "%" r) => emit "%" (format_from used n r)
  | String "%" (String "d" r) => conv (format_from true n r)
  | String "%" (String "l" (String "d" r)) => conv (format_from true n r)
  | String "%" _ => Raise ValueError
  | String c r => emit (String c EmptyString) (format_from used n r)
  end.

Definition format (pattern : string) (n : Z) : result string :=
  format_from false n pattern.

(* ===================================================================== *)
(** * The operating system and the logger *)
(* ===================================================================== *)

(** An open file object. *)
Definition handle : Type := nat.

(** The value of a metric. *)
Inductive value : Type :=
| VInt (n : Z)
| VFloat (x : PyFloat.float).

(** What the program does to its surroundings, in order. *)
Inductive event : Type :=
| EvOpen (path : string)
| EvSeek (h : handle)
| EvRead (h : handle)
| EvClose (h : handle)
| EvKill (pid : Z)
| EvSpawnPs
| EvWait
| EvError (message : string)
| EvEmit (metric_name : string) (metric_value : value) (extra : gmap string string).

(** The answers of the platform to the calls of the program. *)
Record Platform : Type := {
  (** the successive readings of [int(time.time())] *)
  os_time : nat -> Z;
  (** [open(path, "r")] *)
  os_open : string -> result handle;
  (** [f.seek(0)] *)
  os_seek : handle -> result unit;
  (** the contents of [f] read from the start *)
  os_read : handle -> result string;
  (** [f.close()] *)
  os_close : handle -> result unit;
  (** [os.kill(pid, 0)] *)
  os_kill : Z -> result unit;
  (** [os.getpid()] *)
  os_getpid : Z;
  (** [os.sysconf(os.sysconf_names['SC_CLK_TCK'])] *)
  os_clk_tck : Z;
  (** the standard output of [ps ax -o pid,command], or the exception
      of [Popen] *)
  os_ps : result (list string);
  (** [re.search(pattern, text) is not None] *)
  os_re_search : string -> string -> result bool
}.

Record World : Type := {
  w_os : Platform;
  (** how many times the clock was read *)
  w_tick : nat;
  (** the events so far, oldest first *)
  w_log : list event
}.

Definition with_log (l : list event) (w : World) : World :=
  {| w_os := w_os w; w_tick := w_tick w; w_log := l |}.

Definition with_tick (n : nat) (w : World) : World :=
  {| w_os := w_os w; w_tick := n; w_log := w_log w |}.

Module Sys.

Definition log (e : event) : M World unit :=
  modify (fun w => with_log (w_log w ++ [e]) w).

Definition ask {A} (f : Platform -> result A) : M World A :=
  fun w => (f (w_os w), w).

Definition time : M World Z :=
  fun w => (Ok (os_time (w_os w) (w_tick w)), with_tick (S (w_tick w)) w).

Definition open (path : string) : M World handle :=
  log (EvOpen path);; ask (fun os => os_open os path).

Definition seek (h : handle) : M World unit :=
  log (EvSeek h);; ask (fun os => os_seek os h).

Definition read (h : handle) : M World string :=
  log (EvRead h);; ask (fun os => os_read os h).

(** [f.readlines()] and the iteration over [f]. *)
Definition readlines (h : handle) : M World (list string) :=
  Py.lines <$> read h.

(** [f.readline()]: the first line, or the empty string at the end. *)
Definition readline (h : handle) : M World string :=
  (fun s => default EmptyString (head (Py.lines s))) <$> read h.

Definition close (h : handle) : M World unit :=
  log (EvClose h);; ask (fun os => os_close os h).

Definition kill (pid : Z) : M World unit :=
  log (EvKill pid);; ask (fun os => os_kill os pid).

Definition getpid : M World Z := ask (fun os => Ok (os_getpid os)).

Definition sysconf_clk_tck : M World Z := ask (fun os => Ok (os_clk_tck os)).

Definition spawn_ps : M World (list string) :=
  log EvSpawnPs;; ask os_ps.

Definition wait : M World unit := log EvWait.

Definition re_search (pattern text : string) : M World bool :=
  ask (fun os => os_re_search os pattern text).

(** [logger.error(message)] *)
Definition logger_error (message : string) : M World unit :=
  log (EvError message).

(** [logger.emit_value(name, value, extra)] *)
Definition emit_value (name : string) (v : value) (extra : gmap string string)
  : M World unit :=
  log (EvEmit name v extra).

End Sys.

(** A method of an object [O] runs on the object and the world. *)
Definition self {O} : M (O * World) O := fun s => (Ok (fst s), s).

Definition update {O} (f : O -> O) : M (O * World) unit :=
  fun s => (Ok tt, (f (fst s), snd s)).

Definition world {O A} (m : M World A) : M (O * World) A :=
  fun s => match m (snd s) with (r, w) => (r, (fst s, w)) end.

(* ===================================================================== *)
(** * Readers *)
(* ===================================================================== *)

(** The class of a reader object, which selects its [gather_sample]. *)
Inductive reader_class : Type :=
| BaseReader
| StatReader
| StatusReader
| IoReader.

(** The fields of a reader.  [_jiffies_per_sec] and [_boot_time_ms] are
    the fields [StatReader] adds; the other classes leave them alone. *)
Record Reader : Type := {
  class_of : reader_class;
  _pid : Z;
  _id : string;
  _file_pattern : string;
  _file : option handle;
  _timestamp : option Z;
  _failed : bool;
  _jiffies_per_sec : Z;
  _boot_time_ms : option Z
}.

Definition with_file (f : option handle) (r : Reader) : Reader :=
  {| class_of := class_of r; _pid := _pid r; _id := _id r;
     _file_pattern := _file_pattern r; _file := f;
     _timestamp := _timestamp r; _failed := _failed r;
     _jiffies_per_sec := _jiffies_per_sec r; _boot_time_ms := _boot_time_ms r |}.

Definition with_timestamp (t : option Z) (r : Reader) : Reader :=
  {| class_of := class_of r; _pid := _pid r; _id := _id r;
     _file_pattern := _file_pattern r; _file := _file r;
     _timestamp := t; _failed := _failed r;
     _jiffies_per_sec := _jiffies_per_sec r; _boot_time_ms := _boot_time_ms r |}.

Definition with_failed (b : bool) (r : Reader) : Reader :=
  {| class_of := class_of r; _pid := _pid r; _id := _id r;
     _file_pattern := _file_pattern r; _file := _file r;
     _timestamp := _timestamp r; _failed := b;
     _jiffies_per_sec := _jiffies_per_sec r; _boot_time_ms := _boot_time_ms r |}.

Definition with_boot_time_ms (b : option Z) (r : Reader) : Reader :=
  {| class_of := class_of r; _pid := _pid r; _id := _id r;
     _file_pattern := _file_pattern r; _file := _file r;
     _timestamp := _timestamp r; _failed := _failed r;
     _jiffies_per_sec := _jiffies_per_sec r; _boot_time_ms := b |}.

(** [BaseReader.__init__] *)
Definition new_reader (c : reader_class) (pid : Z) (monitor_id file_pattern : string)
  : Reader :=
  {| class_of := c; _pid := pid; _id := monitor_id;
     _file_pattern := file_pattern; _file := None;
     _timestamp := None; _failed := false;
     _jiffies_per_sec := 0; _boot_time_ms := None |}.

(** [StatReader.__init__] *)
Definition new_StatReader (pid : Z) (monitor_id : string) : M World Reader :=
  hz ← Sys.sysconf_clk_tck;
  let r := new_reader StatReader pid monitor_id "/proc/%ld/stat" in
  ret {| class_of := class_of r; _pid := _pid r; _id := _id r;
         _file_pattern := _file_pattern r; _file := _file r;
         _timestamp := _timestamp r; _failed := _failed r;
         _jiffies_per_sec := hz; _boot_time_ms := None |}.

(** [StatusReader.__init__] *)
Definition new_StatusReader (pid : Z) (monitor_id : string) : Reader :=
  new_reader StatusReader pid monitor_id "/proc/%ld/status".

(** [IoReader.__init__] *)
Definition new_IoReader (pid : Z) (monitor_id : string) : Reader :=
  new_reader IoReader pid monitor_id "/proc/%ld/io".

Definition RSt : Type := Reader * World.

(** [BaseReader.print_sample] *)
Definition print_sample (metric_name : string) (metric_value : value)
    (type_value : option string) : M RSt unit :=
  r ← self;
  let extra : gmap string string := {[ "app" := _id r ]} in
  let extra :=
    match type_value with
    | Some t => <[ "type" := t ]> extra
    | None => extra
    end in
  world (Sys.emit_value metric_name metric_value extra).

(** ** StatReader *)

(** [int((jiffies * scale) / self._jiffies_per_sec)] for a float [scale] *)
Definition calculate_time (scale : PyFloat.float) (jiffies : Z) : M RSt Z :=
  r ← self;
  ticks ← lift_result (PyFloat.of_int jiffies);
  rate ← lift_result (PyFloat.of_int (_jiffies_per_sec r));
  quotient ← lift_result (PyFloat.div (PyFloat.mul ticks scale) rate);
  lift_result (PyFloat.to_int quotient).

(** [StatReader.__calculate_time_cs] *)
Definition calculate_time_cs (jiffies : Z) : M RSt Z :=
  calculate_time (PyFloat.literal 100) jiffies.

(** [StatReader.calculate_time_ms] *)
Definition calculate_time_ms (jiffies : Z) : M RSt Z :=
  calculate_time (PyFloat.literal 1000) jiffies.

(** [StatReader.__get_uptime_ms] *)
Definition get_uptime_ms : M RSt Z :=
  r ← self;
  match _boot_time_ms r with
  | None =>
      uptime_file ← world (Sys.open "/proc/uptime");
      try_finally
        (now ← world Sys.time;
         line ← world (Sys.readline uptime_file);
         up ← index (Py.split line) 0;
         up ← or_raise ValueError (PyFloat.of_string up);
         up ← lift_result (PyFloat.to_int (PyFloat.mul up (PyFloat.literal 1000)));
         update (with_boot_time_ms (Some (now * 1000 - up))))
        (world (Sys.close uptime_file))
  | Some _ => ret tt
  end;;
  now ← world Sys.time;
  r ← self;
  boot ← or_raise TypeError (_boot_time_ms r);
  ret (now * 1000 - boot).

(** [StatReader.gather_sample] *)
Definition stat_gather_sample (stat_file : handle) : M RSt unit :=
  all_lines ← world (Sys.readlines stat_file);
  line ← index all_lines 0;
  let line := Py.slice_from (Py.find line ") " + 2) line in
  let fields := Py.split line in
  f ← index fields 11;
  n ← or_raise ValueError (Py.int f);
  t ← calculate_time_cs n;
  print_sample "app.cpu" (VInt t) (Some "user");;
  f ← index fields 12;
  n ← or_raise ValueError (Py.int f);
  t ← calculate_time_cs n;
  print_sample "app.cpu" (VInt t) (Some "system");;
  up ← get_uptime_ms;
  f ← index fields 19;
  n ← or_raise ValueError (Py.int f);
  t ← calculate_time_ms n;
  print_sample "app.uptime" (VInt (up - t)) None;;
  f ← index fields 16;
  x ← or_raise ValueError (PyFloat.of_string f);
  print_sample "app.nice" (VFloat x) None;;
  f ← index fields 17;
  n ← or_raise ValueError (Py.int f);
  print_sample "app.threads" (VInt n) None.

(** ** StatusReader *)

(** A character of the class [\w]. *)
Definition is_word (c : ascii) : bool :=
  let n := nat_of_ascii c in
  (Py.is_digit c || (Nat.leb 65 n && Nat.leb n 90)
   || (Nat.leb 97 n && Nat.leb n 122) || Nat.eqb n 95)%bool.

Fixpoint span (p : ascii -> bool) (s : string) : string * string :=
  match s with
  | String c s' =>
      if p c then let '(a, b) := span p s' in (String c a, b)
      else (EmptyString, s)
  | EmptyString => (EmptyString, EmptyString)
  end.

(** [re.search('^(\w+):\s*(\d+)', line)]: the two groups of the match.
    Every quantifier is followed by a character outside its class, so
    the greedy match is the only one. *)
Definition status_search (line : string) : option (string * string) :=
  let '(name, rest) := span is_word line in
  if Py.is_empty name then None
  else match rest with
       | String ":" rest =>
           let '(_, rest) := span Py.is_space rest in
           let '(num, _) := span Py.is_digit rest in
           if Py.is_empty num then None else Some (name, num)
       | _ => None
       end.

(** [StatusReader.gather_sample] *)
Definition status_gather_sample (stat_file : handle) : M RSt unit :=
  all_lines ← world (Sys.readlines stat_file);
  for_each all_lines (fun line =>
    match status_search line with
    | None => ret tt
    | Some (field_name, digits) =>
        int_value ← or_raise ValueError (Py.int digits);
        if String.eqb field_name "VmSize" then
          print_sample "app.mem.bytes" (VInt (int_value * 1024)) (Some "vmsize")
        else if String.eqb field_name "VmPeak" then
          print_sample "app.mem.bytes" (VInt (int_value * 1024)) (Some "peak_vmsize")
        else if String.eqb field_name "VmRSS" then
          print_sample "app.mem.bytes" (VInt (int_value * 1024)) (Some "resident")
        else if String.eqb field_name "VmHWM" then
          print_sample "app.mem.bytes" (VInt (int_value * 1024)) (Some "peak_resident")
        else ret tt
    end).

(** ** IoReader *)

(** The body of the loop of [IoReader.gather_sample] on the line [x]. *)
Definition io_line (x : string) : M RSt unit :=
  let fields := Py.split x in
  let sample (metric_name type_value : string) : M RSt unit :=
    f ← index fields 1;
    n ← or_raise ValueError (Py.int f);
    print_sample metric_name (VInt n) (Some type_value) in
  key ← index fields 0;
  if String.eqb key "rchar:" then sample "app.disk.bytes" "read"
  else if String.eqb key "syscr:" then sample "app.disk.requests" "read"
  else if String.eqb key "wchar:" then sample "app.disk.bytes" "write"
  else if String.eqb key "syscw:" then sample "app.disk.requests" "write"
  else ret tt.

(** [IoReader.gather_sample] *)
Definition io_gather_sample (stat_file : handle) : M RSt unit :=
  all_lines ← world (Sys.readlines stat_file);
  for_each all_lines io_line.

(** ** BaseReader *)

(** [self.gather_sample(my_file)], by the class of [self]. *)
Definition gather_sample (my_file : handle) : M RSt unit :=
  r ← self;
  match class_of r with
  | BaseReader => ret tt
  | StatReader => stat_gather_sample my_file
  | StatusReader => status_gather_sample my_file
  | IoReader => io_gather_sample my_file
  end.

Definition permission_message (filename : string) : string :=
  "The agent does not have permission to read " +:+ filename
  +:+ ".  Maybe you should run it as root.".

Definition unsupported_message (filename : string) : string :=
  "The agent cannot read " +:+ filename
  +:+ ".  Your system may not support that proc file type".

(** [BaseReader.run_single_cycle] *)
Definition run_single_cycle : M RSt unit :=
  now ← world Sys.time;
  update (with_timestamp (Some now));;
  r ← self;
  if _failed r then ret tt
  else
    filename ← lift_result (format (_file_pattern r) (_pid r));
    match _file r with
    | None =>
        try_except
          (f ← world (Sys.open filename);
           update (with_file (Some f)))
          (fun e =>
             match e with
             | IOError errno =>
                 Some (if errno =? 13 then
                         world (Sys.logger_error (permission_message filename));;
                         update (with_failed true)
                       else if errno =? 2 then
                         world (Sys.logger_error (unsupported_message filename));;
                         update (with_failed true)
                       else raise e)
             | _ => None
             end)
    | Some _ => ret tt
    end;;
    r ← self;
    match _file r with
    | Some f => world (Sys.seek f);; gather_sample f
    | None => ret tt
    end.

(** [BaseReader.close] *)
Definition close : M RSt unit :=
  try_finally
    (update (with_failed true);;
     r ← self;
     match _file r with
     | Some f => world (Sys.close f)
     | None => ret tt
     end;;
     update (with_failed false))
    (update (with_file None)).

(* ===================================================================== *)
(** * ProcessMonitor *)
(* ===================================================================== *)

(** A value of the monitor's configuration. *)
Inductive json : Type :=
| JStr (s : string)
| JInt (n : Z).

(** [convert_to=str] *)
Definition convert_to_str (v : json) : string :=
  match v with
  | JStr s => s
  | JInt n => Py.str_of_int n
  end.

(** Modelled from the spec: [MonitorConfig.get] of the agent's
    configuration library, which this module calls and does not define.
    The field is looked up and converted to a string; an absent field
    yields the default [None], and is a configuration error when the field
    is required ("required identity missing"). *)
Definition config_get (config : gmap string json) (field : string)
    (required_field : bool) : result (option string) :=
  match config !! field with
  | Some v => Ok (Some (convert_to_str v))
  | None =>
      if required_field then Raise (BadMonitorConfiguration field)
      else Ok None
  end.

Record ProcessMonitor : Type := {
  __pid : option Z;
  __gathers : list Reader;
  __id : string;
  __commandline_matcher : option string;
  __target_pid : option string
}.

Definition with_process (pid : option Z) (gathers : list Reader)
    (m : ProcessMonitor) : ProcessMonitor :=
  {| __pid := pid; __gathers := gathers; __id := __id m;
     __commandline_matcher := __commandline_matcher m;
     __target_pid := __target_pid m |}.

Definition with_gathers (gathers : list Reader) (m : ProcessMonitor)
  : ProcessMonitor :=
  with_process (__pid m) gathers m.

(** [ProcessMonitor._initialize], as a function of [self._config].  The
    exception carries the field it blames, not the text of its message. *)
Definition _initialize (config : gmap string json) : result ProcessMonitor :=
  match config_get config "id" true with
  | Raise e => Raise e
  | Ok None => Raise (BadMonitorConfiguration "id")
  | Ok (Some id) =>
      match config_get config "commandline" false with
      | Raise e => Raise e
      | Ok commandline_matcher =>
          match config_get config "pid" false with
          | Raise e => Raise e
          | Ok target_pid =>
              match commandline_matcher, target_pid with
              | None, None =>
                  Raise (BadMonitorConfiguration "commandline")
              | _, _ =>
                  Ok {| __pid := None; __gathers := [];
                        __id := id;
                        __commandline_matcher := commandline_matcher;
                        __target_pid := target_pid |}
              end
          end
      end
  end.

Definition MSt : Type := ProcessMonitor * World.

(** [for gather in self.__gathers: gather.method()].  The readers are
    objects of the monitor: what a call does to a reader stays done when
    a later call raises. *)
Fixpoint run_readers (method : M RSt unit) (gathers : list Reader) (w : World)
  : result unit * (list Reader * World) :=
  match gathers with
  | [] => (Ok tt, ([], w))
  | r :: rest =>
      match method (r, w) with
      | (Ok _, (r', w')) =>
          match run_readers method rest w' with
          | (res, (rest', w'')) => (res, (r' :: rest', w''))
          end
      | (Raise e, (r', w')) => (Raise e, (r' :: rest, w'))
      end
  end.

Definition each_gather (method : M RSt unit) : M MSt unit :=
  fun s =>
    match run_readers method (__gathers (fst s)) (snd s) with
    | (res, (gathers, w)) => (res, (with_gathers gathers (fst s), w))
    end.

Definition append_gather (r : Reader) : M MSt unit :=
  update (fun m => with_gathers (__gathers m ++ [r]) m).

(** [ProcessMonitor.__set_process] *)
Definition set_process (pid : option Z) : M MSt unit :=
  m ← self;
  match __pid m with
  | Some _ => each_gather close
  | None => ret tt
  end;;
  update (with_process pid []);;
  match pid with
  | Some p =>
      m ← self;
      r ← world (new_StatReader p (__id m));
      append_gather r;;
      append_gather (new_StatusReader p (__id m));;
      append_gather (new_IoReader p (__id m))
  | None => ret tt
  end.

(** The loop of [__select_process] over the lines of [ps]. *)
Fixpoint match_commandline (matcher : string) (output : list string)
  : M MSt (option Z) :=
  match output with
  | [] => ret None
  | line :: rest =>
      let line := Py.strip line in
      if 0 <? Py.find line " " then
        pid ← or_raise ValueError (Py.int (Py.slice_to (Py.find line " ") line));
        let line := Py.slice_from (Py.find line " " + 1) line in
        found ← world (Sys.re_search matcher line);
        if found : bool then ret (Some pid) else match_commandline matcher rest
      else match_commandline matcher rest
  end.

(** [ProcessMonitor.__select_process] *)
Definition select_process : M MSt (option Z) :=
  m ← self;
  match __commandline_matcher m with
  | Some matcher =>
      output ← world Sys.spawn_ps;
      try_finally
        (match_commandline matcher (tail output))
        (world Sys.wait)
  | None =>
      try_except
        (pid ← match __target_pid m with
               | Some target =>
                   if String.eqb target "$$" then world Sys.getpid
                   else or_raise ValueError (Py.int target)
               | None => raise TypeError
               end;
         world (Sys.kill pid);;
         ret (Some pid))
        (fun e =>
           match e with
           | OSError _ => Some (ret None)
           | _ => None
           end)
  end.

(** [ProcessMonitor.__is_running] *)
Definition is_running : M MSt bool :=
  m ← self;
  try_except
    (pid ← or_raise TypeError (__pid m);
     world (Sys.kill pid);;
     ret true)
    (fun e =>
       match e with
       | OSError errno => Some (ret (negb (errno =? 3)))
       | _ => None
       end).

(** [ProcessMonitor.gather_sample] *)
Definition monitor_gather_sample : M MSt unit :=
  m ← self;
  match __pid m with
  | Some _ =>
      running ← is_running;
      if running : bool then ret tt else set_process None
  | None => ret tt
  end;;
  m ← self;
  match __pid m with
  | None =>
      pid ← select_process;
      set_process pid
  | Some _ => ret tt
  end;;
  each_gather run_single_cycle.

(* ===================================================================== *)
(** * Scenarios *)
(* ===================================================================== *)

(** A platform on which process 42 runs and reads as a /proc entry
    would: the inputs of the worked examples below. *)
Module Scenario.

Definition stat_text : string :=
  "42 (my proc) S 1 42 42 0 -1 4194304 100 0 0 0 250 130 0 0 20 0 7 0 5000 1000000 200
".

Definition io_text : string :=
  "rchar: 500
syscr: 2
wchar: 100
syscw: 1
read_bytes: 0
".

(** An io file cut after a key, and one with an empty line. *)
Definition cut_io_text : string :=
  "rchar:
".

Definition gap_io_text : string :=
  "rchar: 500

syscr: 2
".

Definition platform : Platform := {|
  os_time := fun n => 1000 + Z.of_nat n;
  os_open := fun path =>
    if String.eqb path "/proc/42/stat" then Ok 1%nat
    else if String.eqb path "/proc/uptime" then Ok 2%nat
    else if String.eqb path "/proc/42/io" then Ok 3%nat
    else if String.eqb path "/proc/1/stat" then Raise (IOError 13)
    else Raise (IOError 2);
  os_seek := fun _ => Ok tt;
  os_read := fun h =>
    match h with
    | 1%nat => Ok stat_text
    | 2%nat => Ok "350.25 100.0"
    | 3%nat => Ok io_text
    | 4%nat => Ok cut_io_text
    | 5%nat => Ok gap_io_text
    | _ => Raise (IOError 5)
    end;
  os_close := fun _ => Ok tt;
  os_kill := fun pid =>
    if pid =? 42 then Ok tt
    else if pid =? 1 then Raise (OSError 1)
    else Raise (OSError 3);
  os_getpid := 42;
  os_clk_tck := 100;
  os_ps := Ok ["  PID COMMAND"; "    1 /sbin/init"; "   42 java tomcat"];
  os_re_search := fun _ text => Ok (String.eqb text "java tomcat")
|}.

Definition world0 : World := {| w_os := platform; w_tick := 0; w_log := [] |}.

(** A [StatReader] of process 42 on a machine with [hz] ticks per second. *)
Definition stat_reader (hz : Z) : Reader :=
  {| class_of := StatReader; _pid := 42; _id := "tomcat";
     _file_pattern := "/proc/%ld/stat"; _file := None;
     _timestamp := None; _failed := false;
     _jiffies_per_sec := hz; _boot_time_ms := None |}.

End Scenario.

(* ===================================================================== *)
(** * The vocabulary of the statements *)
(* ===================================================================== *)

(** [n] is [round(q)]: an integer nearest to [q], whichever way a tie is
    broken. *)
Definition rounds_to (q : Q) (n : Z) : Prop :=
  (Qabs (inject_Z n - q) <= 1 # 2)%Q.

(** The exponent of the last digit of a double of magnitude [e]. *)
Abbreviation fexp64 := (fexp 53 1024).

(** The last step of [binary_round_aux]: the rounded mantissa is brought
    back to 53 digits. *)
Definition finish (sx : bool) (mant e : Z) : spec_float :=
  let '(mrs, e') := shr_fexp 53 1024 mant e loc_Exact in
  match shr_m mrs with
  | Z0 => S754_zero sx
  | Zpos m => if e' <=? 1024 - 53 then S754_finite sx m e' else S754_infinity sx
  | Zneg _ => S754_nan
  end.

(** A float in normal form that holds the integer [n] with the sign [s]. *)
Definition normal (x : spec_float) (s : bool) (n : Z) : Prop :=
  exists m e,
    x = S754_finite s m e
    /\ Zpos (digits2_pos m) = 53
    /\ -52 <= e <= 0
    /\ Zpos m = n * 2 ^ (- e).

(** The location of a value that lay at [l] between [2 * m + bit] and
    its successor, seen from [m]. *)
Definition halve_location (bit : bool) (l : location) : location :=
  match bit, l with
  | false, loc_Exact => loc_Exact
  | false, _ => loc_Inexact Lt
  | true, loc_Exact => loc_Inexact Eq
  | true, _ => loc_Inexact Gt
  end.

(** The integer a finite float truncates to. *)
Definition trunc_value (m e : Z) : Z :=
  if e <? 0 then m / 2 ^ (- e) else m * 2 ^ e.

(** What [calculate_time] returns or raises, as a function of the
    tick count and of the clock rate of the reader. *)
Definition conversion (scale : PyFloat.float) (jiffies jiffies_per_sec : Z)
  : result Z :=
  match PyFloat.of_int jiffies with
  | Raise e => Raise e
  | Ok ticks =>
      match PyFloat.of_int jiffies_per_sec with
      | Raise e => Raise e
      | Ok rate =>
          match PyFloat.div (PyFloat.mul ticks scale) rate with
          | Raise e => Raise e
          | Ok quotient => PyFloat.to_int quotient
          end
      end
  end.

(** The clock reading a cycle started in [w] stores. *)
Definition cycle_time (w : World) : Z := os_time (w_os w) (w_tick w).

(** The world after the clock was read once. *)
Definition ticked (w : World) : World := with_tick (S (w_tick w)) w.

(** The world after the events [evs]. *)
Definition logged (evs : list event) (w : World) : World :=
  with_log (w_log w ++ evs) w.

(** The calls made to a reader over its life: each runs on the platform
    as it is at that moment, and the reader outlives the exceptions its
    methods raise. *)
Inductive reader_call : Type :=
| CallRunSingleCycle
| CallClose.

Definition with_os (os : Platform) (w : World) : World :=
  {| w_os := os; w_tick := w_tick w; w_log := w_log w |}.

Definition call_method (c : reader_call) : M RSt unit :=
  match c with
  | CallRunSingleCycle => run_single_cycle
  | CallClose => close
  end.

Fixpoint run_calls (calls : list (reader_call * Platform)) (s : RSt) : RSt :=
  match calls with
  | [] => s
  | (c, os) :: rest =>
      run_calls rest (snd (call_method c (fst s, with_os os (snd s))))
  end.

(** Repeated cycles, each on its own platform. *)
Definition run_cycles (platforms : list Platform) (s : RSt) : RSt :=
  run_calls (map (fun os => (CallRunSingleCycle, os)) platforms) s.

(** The reader of process 1 after a first cycle that was denied the
    permission to open /proc/1/stat. *)
Definition denied_reader : RSt :=
  snd (run_single_cycle
         (new_reader BaseReader 1 "init" "/proc/%ld/stat", Scenario.world0)).

(** The state a cycle leaves when the open call is refused for a cause
    the reader takes as permanent. *)
Definition disabled_by (filename message : string) (r : Reader) (w : World) : RSt :=
  (with_failed true (with_timestamp (Some (cycle_time w)) r),
   logged [EvOpen filename; EvError message] (ticked w)).

(** The condition the specification calls misconfigured: neither target
    given, or both. *)
Definition misconfigured (config : gmap string json) : Prop :=
  (config !! "commandline" = None /\ config !! "pid" = None)
  \/ (is_Some (config !! "commandline") /\ is_Some (config !! "pid")).

Definition both_targets : gmap string json :=
  {[ "id" := JStr "tomcat"; "commandline" := JStr "java.*tomcat"; "pid" := JInt 42 ]}.

(** A monitor bound to process 1, which the agent may not signal. *)
Definition bound_to_init : ProcessMonitor :=
  {| __pid := Some 1;
     __gathers := [new_reader StatusReader 1 "init" "/proc/%ld/status"];
     __id := "init"; __commandline_matcher := None; __target_pid := Some "1" |}.

(** The process id an explicit target denotes when it is matched in the
    world [w]: the agent's own for the sentinel, the [int] of the text
    otherwise. *)
Definition resolve_target (target : string) (w : World) : option Z :=
  if String.eqb target "$$" then Some (os_getpid (w_os w)) else Py.int target.

(** A monitor of the agent's own process, and one of process 1. *)
Definition monitor_of (target : string) : ProcessMonitor :=
  {| __pid := None; __gathers := []; __id := "agent";
     __commandline_matcher := None; __target_pid := Some target |}.

(** A line without a token: empty, or blanks only. *)
Fixpoint all_space (s : string) : bool :=
  match s with
  | EmptyString => true
  | String c s' => (Py.is_space c && all_space s')%bool
  end.

(** The metric name and type tag of the four keys the parser selects. *)
Definition io_key (key : string) : option (string * string) :=
  if String.eqb key "rchar:" then Some ("app.disk.bytes", "read")
  else if String.eqb key "syscr:" then Some ("app.disk.requests", "read")
  else if String.eqb key "wchar:" then Some ("app.disk.bytes", "write")
  else if String.eqb key "syscw:" then Some ("app.disk.requests", "write")
  else None.

(** The line starts with one of the four keys. *)
Definition io_selected (line : string) : bool :=
  match Py.split line with
  | key :: _ => bool_decide (is_Some (io_key key))
  | [] => false
  end.

(** The metric of a line for the monitor [id]: that of its key, with the
    integer of the second token as the value. *)
Definition io_sample (id line : string) : option event :=
  match Py.split line with
  | key :: v :: _ =>
      match io_key key, Py.int v with
      | Some (metric_name, type_value), Some n =>
          Some (EvEmit metric_name (VInt n) (<[ "type" := type_value ]> {[ "app" := id ]}))
      | _, _ => None
      end
  | _ => None
  end.

(** A line the parser passes without an exception: it has a first
    token, and if that is one of the four keys it has a second token
    that is an integer literal. *)
Definition io_line_ok (line : string) : Prop :=
  match Py.split line with
  | [] => False
  | key :: rest =>
      io_key key = None
      \/ exists v rest', rest = v :: rest' /\ is_Some (Py.int v)
  end.

Definition io_reader : Reader := new_IoReader 42 "tomcat".

(** The check of [io_line_ok] as a program. *)
Definition io_line_okb (line : string) : bool :=
  match Py.split line with
  | [] => false
  | key :: rest =>
      match io_key key, rest with
      | None, _ => true
      | Some _, v :: _ => bool_decide (is_Some (Py.int v))
      | Some _, [] => false
      end
  end.

(** [line] is [pre], then [sub], then [rest], and [sub] occurs nowhere
    earlier in [line]. *)
Definition first_occurrence (sub pre line rest : string) : Prop :=
  line = pre +:+ sub +:+ rest
  /\ forall p r, line = p +:+ sub +:+ r -> (String.length pre <= String.length p)%nat.

(** The event of [print_sample] for the monitor [id]. *)
Definition sample (id metric_name : string) (v : value) (type_value : option string)
  : event :=
  EvEmit metric_name v
    (match type_value with
     | Some t => <[ "type" := t ]> {[ "app" := id ]}
     | None => {[ "app" := id ]}
     end).

(** [keeps R m]: whatever the world, and whether [m] returns or raises,
    the object [m] leaves is related by [R] to the object it started
    on.  For a reflexive and transitive [R] the property goes through
    the combinators of the monad. *)
Definition keeps {O A} (R : O -> O -> Prop) (m : M (O * World) A) : Prop :=
  forall o w, R o (fst (snd (m (o, w)))).

(** The readers [r] and [r'] differ in the cached boot time at most. *)
Definition same_but_boot_time (r r' : Reader) : Prop :=
  exists b, r' = with_boot_time_ms b r.

(** The readers [r] and [r'] are the same object at two moments: same
    class, process id, monitor id, path pattern, clock rate and time of
    the last collection. *)
Definition same_binding (r r' : Reader) : Prop :=
  class_of r' = class_of r
  /\ _pid r' = _pid r
  /\ _id r' = _id r
  /\ _file_pattern r' = _file_pattern r
  /\ _jiffies_per_sec r' = _jiffies_per_sec r
  /\ _timestamp r' = _timestamp r.

(** The readers [r] and [r'] are the same object, the time of the last
    collection apart. *)
Definition same_reader (r r' : Reader) : Prop :=
  class_of r' = class_of r
  /\ _pid r' = _pid r
  /\ _id r' = _id r
  /\ _file_pattern r' = _file_pattern r
  /\ _jiffies_per_sec r' = _jiffies_per_sec r.

(* ===================================================================== *)
(** * The vocabulary of traces and invariants *)
(* ===================================================================== *)

(** [preserves R m]: the state [m] leaves, whether it returns or raises,
    is related by [R] to the state it started in. *)
Definition preserves {St A} (R : St -> St -> Prop) (m : M St A) : Prop :=
  forall s, R s (snd (m s)).

(** The world [w'] is [w] on the same platform after more events, each
    of them in [P]. *)
Definition appends (P : event -> Prop) (w w' : World) : Prop :=
  w_os w' = w_os w
  /\ exists evs, w_log w' = w_log w ++ evs /\ Forall P evs.

(** What a reader of the monitor [id] does to its surroundings: file
    operations, error messages, and metrics that carry [id] in their
    [app] field.  It sends no signal and starts no process. *)
Definition reader_event (id : string) (e : event) : Prop :=
  match e with
  | EvEmit _ _ extra => extra !! "app" = Some id
  | EvKill _ | EvSpawnPs | EvWait => False
  | _ => True
  end.

(** A method of a reader of the monitor [id] leaves a reader of that
    monitor and adds events of such a reader only. *)
Definition reader_trace (id : string) (s s' : RSt) : Prop :=
  _id (fst s) = id ->
  _id (fst s') = id /\ appends (reader_event id) (snd s) (snd s').

(** A reader that gave up holds no file. *)
Definition idle_when_failed (r : Reader) : Prop :=
  _failed r = true -> _file r = None.

(** The readers [r] and [r'] hold the same file and agree on having
    failed. *)
Definition same_handle (r r' : Reader) : Prop :=
  _file r' = _file r /\ _failed r' = _failed r.

(** Every character of [s] is in the class [p]. *)
Fixpoint all_chars (p : ascii -> bool) (s : string) : bool :=
  match s with
  | EmptyString => true
  | String c s' => (p c && all_chars p s')%bool
  end.

(** [s] starts with a character of the class [p]. *)
Definition starts_with (p : ascii -> bool) (s : string) : bool :=
  match s with
  | String c _ => p c
  | EmptyString => false
  end.

(** The type tag of the four fields the status parser selects. *)
Definition status_key (field_name : string) : option string :=
  if String.eqb field_name "VmSize" then Some "vmsize"
  else if String.eqb field_name "VmPeak" then Some "peak_vmsize"
  else if String.eqb field_name "VmRSS" then Some "resident"
  else if String.eqb field_name "VmHWM" then Some "peak_resident"
  else None.

(** The metric of a line of the status file for the monitor [id]: the
    number after a selected field, taken as kilobytes. *)
Definition status_sample (id line : string) : option event :=
  match status_search line with
  | Some (field_name, digits) =>
      match status_key field_name, Py.int digits with
      | Some type_value, Some n =>
          Some (sample id "app.mem.bytes" (VInt (n * 1024)) (Some type_value))
      | _, _ => None
      end
  | None => None
  end.

(** A platform on which every file reads as [text]. *)
Definition reading (text : string) : Platform :=
  {| os_time := os_time Scenario.platform;
     os_open := os_open Scenario.platform;
     os_seek := os_seek Scenario.platform;
     os_read := fun _ => Ok text;
     os_close := os_close Scenario.platform;
     os_kill := os_kill Scenario.platform;
     os_getpid := os_getpid Scenario.platform;
     os_clk_tck := os_clk_tck Scenario.platform;
     os_ps := os_ps Scenario.platform;
     os_re_search := os_re_search Scenario.platform |}.

Definition status_text : string :=
  "Name:   java
VmPeak:     2048 kB
VmSize:     1024 kB
VmRSS:       256 kB
Threads:        7
".

(** A reader after a [close] that returned. *)
Definition closed (r : Reader) : Reader :=
  with_file None (with_failed false (with_failed true r)).

(** The files the readers hold, in the order of the readers. *)
Definition open_handles (gathers : list Reader) : list handle :=
  omap _file gathers.

(** The readers [__set_process] builds for the process [pid] of the
    monitor [id]: none without a process, else one of each enabled
    class, new and bound to the process. *)
Definition readers_for (pid : option Z) (id : string) (os : Platform) : list Reader :=
  match pid with
  | None => []
  | Some p =>
      [ {| class_of := StatReader; _pid := p; _id := id;
           _file_pattern := "/proc/%ld/stat"; _file := None;
           _timestamp := None; _failed := false;
           _jiffies_per_sec := os_clk_tck os; _boot_time_ms := None |};
        new_StatusReader p id;
        new_IoReader p id ]
  end.

(** The readers of a monitor belong to its binding: a monitor without a
    process has none, and a bound monitor has a StatReader, a
    StatusReader and an IoReader of its process and of its id. *)
Definition bound_readers (m : ProcessMonitor) : Prop :=
  match __pid m with
  | None => __gathers m = []
  | Some p =>
      map class_of (__gathers m) = [StatReader; StatusReader; IoReader]
      /\ Forall (fun r => _pid r = p /\ _id r = __id m) (__gathers m)
  end.

(** A metric of the monitor [id] carries [id] in its [app] field. *)
Definition tagged (id : string) (e : event) : Prop :=
  match e with
  | EvEmit _ _ extra => extra !! "app" = Some id
  | _ => True
  end.

(** The configuration of a monitor: its id and its target. *)
Definition same_config (m m' : ProcessMonitor) : Prop :=
  __id m' = __id m
  /\ __commandline_matcher m' = __commandline_matcher m
  /\ __target_pid m' = __target_pid m.

(** What a method of the monitor keeps: the configuration, readers
    that belong to the binding, and metrics that carry the id. *)
Definition monitor_trace (s s' : MSt) : Prop :=
  bound_readers (fst s) ->
  bound_readers (fst s')
  /\ same_config (fst s) (fst s')
  /\ appends (tagged (__id (fst s))) (snd s) (snd s').

(** Repeated calls of [gather_sample] of the monitor, each on its own
    platform; the monitor outlives the exceptions of a call. *)
Fixpoint run_monitor_cycles (platforms : list Platform) (s : MSt) : MSt :=
  match platforms with
  | [] => s
  | os :: rest =>
      run_monitor_cycles rest (snd (monitor_gather_sample (fst s, with_os os (snd s))))
  end.

(** An event that is no metric. *)
Definition no_metric (e : event) : Prop :=
  match e with
  | EvEmit _ _ _ => False
  | _ => True
  end.

(** A monitor bound to process 42 whose StatReader and IoReader hold
    their files, and a platform on which the second of them does not
    close. *)
Definition tomcat_monitor : ProcessMonitor :=
  {| __pid := Some 42;
     __gathers := [with_file (Some 1%nat) (Scenario.stat_reader 100);
                   new_StatusReader 42 "tomcat";
                   with_file (Some 3%nat) io_reader];
     __id := "tomcat"; __commandline_matcher := None; __target_pid := Some "42" |}.

Definition stuck_handle : Platform :=
  {| os_time := os_time Scenario.platform;
     os_open := os_open Scenario.platform;
     os_seek := os_seek Scenario.platform;
     os_read := os_read Scenario.platform;
     os_close := fun h => if Nat.eqb h 3 then Raise (IOError 5) else Ok tt;
     os_kill := os_kill Scenario.platform;
     os_getpid := os_getpid Scenario.platform;
     os_clk_tck := os_clk_tck Scenario.platform;
     os_ps := os_ps Scenario.platform;
     os_re_search := os_re_search Scenario.platform |}.

(** A monitor bound to process 7, which the scenario platform does not
    know. *)
Definition gone_monitor : ProcessMonitor :=
  {| __pid := Some 7;
     __gathers := readers_for (Some 7) "gone" Scenario.platform;
     __id := "gone"; __commandline_matcher := None; __target_pid := Some "7" |}.

(** A line of the process table that shows the process [fst row] with
    the command line [snd row]: the process id, one blank and the
    command, between blanks that [strip()] removes. *)
Definition ps_row (row : Z * string) (line : string) : Prop :=
  Py.strip line = Py.str_of_int (fst row) +:+ " " +:+ snd row.

(** A monitor that looks for its process by the command line. *)
Definition pattern_monitor : ProcessMonitor :=
  {| __pid := None; __gathers := []; __id := "tomcat";
     __commandline_matcher := Some "java.*tomcat"; __target_pid := None |}.

(** A platform whose process table has a row without a process id. *)
Definition odd_table : Platform :=
  {| os_time := os_time Scenario.platform;
     os_open := os_open Scenario.platform;
     os_seek := os_seek Scenario.platform;
     os_read := os_read Scenario.platform;
     os_close := os_close Scenario.platform;
     os_kill := os_kill Scenario.platform;
     os_getpid := os_getpid Scenario.platform;
     os_clk_tck := os_clk_tck Scenario.platform;
     os_ps := Ok ["  PID COMMAND"; "  n/a [kthreadd]"];
     os_re_search := os_re_search Scenario.platform |}.

(* ===================================================================== *)
(** * SockStatReader *)
(* ===================================================================== *)

(** The class is defined by the module and switched off: the monitor
    builds no reader of it.  Its [gather_sample] is a method of a
    reader all the same. *)

(** The match of [(\w+): inuse (\d+)] that starts at the head of [s].
    The first group ends where the word characters end, since a colon
    must follow, and the second takes every digit. *)
Definition sockstat_match (s : string) : option (string * string) :=
  let '(name, rest) := span is_word s in
  if Py.is_empty name then None
  else if String.prefix ": inuse " rest then
    let '(num, _) := span Py.is_digit (Py.drop 8 rest) in
    if Py.is_empty num then None else Some (name, num)
  else None.

(** [re.search('(\w+): inuse (\d+)', line)]: the groups of the match
    that starts first. *)
Fixpoint sockstat_search (line : string) : option (string * string) :=
  match sockstat_match line with
  | Some groups => Some groups
  | None =>
      match line with
      | String _ rest => sockstat_search rest
      | EmptyString => None
      end
  end.

(** [SockStatReader.gather_sample] *)
Definition sockstat_gather_sample (stat_file : handle) : M RSt unit :=
  all_lines ← world (Sys.readlines stat_file);
  for_each all_lines (fun line =>
    match sockstat_search line with
    | Some (name, digits) =>
        n ← or_raise ValueError (Py.int digits);
        print_sample "app.net.sockets_in_use" (VInt n) (Some (PyFloat.lower name))
    | None => ret tt
    end).

(** The metric of a line of the sockstat file for the monitor [id]. *)
Definition sockstat_sample (id line : string) : option event :=
  match sockstat_search line with
  | Some (name, digits) =>
      match Py.int digits with
      | Some n =>
          Some (sample id "app.net.sockets_in_use" (VInt n) (Some (PyFloat.lower name)))
      | None => None
      end
  | None => None
  end.

Definition sockstat_text : string :=
  "sockets: used 224
TCP: inuse 5 orphan 0 tw 0 alloc 8 mem 1
UDP: inuse 3 mem 2
FRAG: inuse 0 memory 0
".

(* ===================================================================== *)
(** * scalyr_agent/builtin_monitors/apache_monitor.py *)
(* ===================================================================== *)

(** The parser of the status page of [ApacheMonitor] and the emission
    of its metrics.  The request of the page itself goes through
    [urllib2] and is no part of the model: [gather_sample] is taken from
    the point where [_get_status] has returned. *)
Module Apache.

(** [data.splitlines()] of a byte string: a line ends at \n, at \r or
    at \r\n, and the line end is dropped.  [cur] is the line being
    read. *)
Fixpoint splitlines_from (cur s : string) : list string :=
  match s with
  | EmptyString => if Py.is_empty cur then [] else [cur]
  | String c s' =>
      if Ascii.eqb c "010"%char then cur :: splitlines_from "" s'
      else if Ascii.eqb c "013"%char then
        match s' with
        | String "010"%char s'' => cur :: splitlines_from "" s''
        | _ => cur :: splitlines_from "" s'
        end
      else splitlines_from (Py.snoc cur c) s'
  end.

Definition splitlines (s : string) : list string := splitlines_from "" s.

(** The dict [fields] of [_parse_data], as the source lists it: the
    text a line starts with and the name its value is stored under. *)
Definition fields : list (string * string) :=
  [ ("Total Accesses:", "total_accesses");
    ("Total kBytes:", "total_kbytes_sent");
    ("Uptime:", "uptime");
    ("ReqPerSec:", "request_per_sec");
    ("BytesPerSec:", "bytes_per_sec");
    ("BytesPerReq:", "bytes_per_req");
    ("BusyWorkers:", "busy_workers");
    ("IdleWorkers:", "idle_workers");
    ("ConnsTotal:", "connections_total");
    ("ConnsAsyncWriting:", "async_connections_writing");
    ("ConnsAsyncKeepAlive:", "async_connections_keep_alive");
    ("ConnsAsyncClosing:", "async_connections_closing") ].

(** [while len(lines[i]) == 0: i = i + 1]: the lines from the first
    one that is not empty.  The loop has no bound: past the last line,
    [lines[i]] is an IndexError. *)
Fixpoint skip_blank (lines : list string) : result (list string) :=
  match lines with
  | [] => Raise IndexError
  | line :: rest => if Py.is_empty line then skip_blank rest else Ok lines
  end.

(** [for key in fields: if lines[i].startswith(key): ...] on one line.
    Python fixes no order on the keys of a dict; [order] is the order
    in which the loop meets them. *)
Fixpoint scan_keys (order : list (string * string)) (line : string)
    (acc : gmap string string) : result (gmap string string) :=
  match order with
  | [] => Ok acc
  | (key, name) :: rest =>
      if String.prefix key line then
        match Py.split line !! 1%nat with
        | Some v => scan_keys rest line (<[ name := v ]> acc)
        | None => Raise IndexError
        end
      else scan_keys rest line acc
  end.

(** [while i < len(lines): ...; i = i + 1] *)
Fixpoint scan_lines (order : list (string * string)) (lines : list string)
    (acc : gmap string string) : result (gmap string string) :=
  match lines with
  | [] => Ok acc
  | line :: rest =>
      match scan_keys order line acc with
      | Ok acc' => scan_lines order rest acc'
      | Raise e => Raise e
      end
  end.

(** [ApacheMonitor._parse_data], the keys of [fields] met in [order]. *)
Definition _parse_data_in (order : list (string * string)) (data : string)
  : result (gmap string string) :=
  match skip_blank (splitlines data) with
  | Ok lines => scan_lines order lines ∅
  | Raise e => Raise e
  end.

(** [ApacheMonitor._parse_data], the keys met as the source lists
    them. *)
Definition _parse_data (data : string) : result (gmap string string) :=
  _parse_data_in fields data.

(** The dict [samplesToEmit] of [gather_sample], as the source lists
    it. *)
Definition samplesToEmit : list (string * string) :=
  [ ("busy_workers", "apache.workers.active");
    ("idle_workers", "apache.workers.idle");
    ("connections_total", "apache.connections.active");
    ("async_connections_writing", "apache.connections.writing");
    ("async_connections_keep_alive", "apache.connections.idle");
    ("async_connections_closing", "apache.connections.closing") ].

(** [ApacheMonitor.gather_sample] from the point where [_get_status]
    has returned [data], the keys of [samplesToEmit] met in [order]. *)
Definition gather_sample_in (order : list (string * string))
    (data : option (gmap string string)) : M World unit :=
  match data with
  | None => Sys.logger_error "No data returned."
  | Some data =>
      for_each order (fun '(key, name) =>
        match data !! key with
        | Some v =>
            n ← or_raise ValueError (Py.int v);
            Sys.emit_value name (VInt n) ∅
        | None => ret tt
        end)
  end.

Definition gather_sample (data : option (gmap string string)) : M World unit :=
  gather_sample_in samplesToEmit data.

(** A status page as [mod_status] prints it with [?auto]. *)
Definition page : string :=
  "Total Accesses: 16
Total kBytes: 11
Uptime: 2043
ReqPerSec: .0078
BusyWorkers: 3
IdleWorkers: 5
ConnsTotal: 2
Scoreboard: _W__K...
".

End Apache.

(** A character that ends a line. *)
Definition is_line_end (c : ascii) : bool :=
  (Ascii.eqb c "010"%char || Ascii.eqb c "013"%char)%bool.

(** The line starts with the key of the entry. *)
Definition starts_with_key (line : string) (entry : string * string) : bool :=
  String.prefix (fst entry) line.

(** The entries of [fields] are told apart by their keys, and no key
    is the start of another: a check by computation. *)
Definition keys_apart (entries : list (string * string)) : bool :=
  forallb (fun a =>
    forallb (fun b =>
      implb (String.prefix (fst a) (fst b))
            (String.eqb (fst a) (fst b) && String.eqb (snd a) (snd b)))
      entries)
    entries.

(** The metric [gather_sample] emits for an entry of [samplesToEmit]:
    the integer stored under its key, if there is one. *)
Definition apache_sample (data : gmap string string) (entry : string * string)
  : option event :=
  match data !! fst entry with
  | Some v =>
      match Py.int v with
      | Some n => Some (EvEmit (snd entry) (VInt n) ∅)
      | None => None
      end
  | None => None
  end.

(** What [_parse_data] makes of the page above. *)
Definition page_data : gmap string string :=
  match Apache._parse_data Apache.page with
  | Ok data => data
  | Raise _ => ∅
  end.

(* ===================================================================== *)
(** * Arithmetic on doubles *)
(* ===================================================================== *)

(** The number of binary digits of a positive number. *)
Lemma digits2_size (p : positive) : digits2_pos p = Pos.size p.
Proof. induction p; simpl; congruence. Qed.

Lemma digits2_bounds (p : positive) :
  2 ^ (Zpos (digits2_pos p) - 1) <= Zpos p < 2 ^ Zpos (digits2_pos p).
Proof.
  rewrite digits2_size. split.
  - assert (Hle : Zpos (2 ^ Pos.size p) <= Zpos p~0) by exact (Pos.size_le p).
    rewrite Pos2Z.inj_pow in Hle.
    replace (Zpos (Pos.size p)) with ((Zpos (Pos.size p) - 1) + 1) in Hle by lia.
    rewrite Z.pow_add_r in Hle by lia. lia.
  - assert (Hgt : Zpos p < Zpos (2 ^ Pos.size p)) by exact (Pos.size_gt p).
    rewrite Pos2Z.inj_pow in Hgt. exact Hgt.
Qed.

Lemma digits2_unique (p : positive) (k : Z) :
  2 ^ (k - 1) <= Zpos p < 2 ^ k -> Zpos (digits2_pos p) = k.
Proof.
  intros [Hlo Hhi]. pose proof (digits2_bounds p) as [Dlo Dhi].
  set (d := Zpos (digits2_pos p)) in *.
  assert (0 < k).
  { destruct (Z.ltb_spec 0 k); [assumption|].
    assert (2 ^ k <= 1).
    { destruct (Z.eq_dec k 0) as [->|]; [simpl; lia|].
      rewrite Z.pow_neg_r by lia. lia. }
    lia. }
  destruct (Z.lt_trichotomy d k) as [H1|[H1|H1]]; [|assumption|].
  - assert (2 ^ d <= 2 ^ (k - 1)) by (apply Z.pow_le_mono_r; lia). lia.
  - assert (2 ^ k <= 2 ^ (d - 1)) by (apply Z.pow_le_mono_r; lia). lia.
Qed.

Lemma iter_xO (m k : positive) : Zpos (Pos.iter xO m k) = Zpos m * 2 ^ Zpos k.
Proof.
  induction k as [|k IH] using Pos.peano_ind.
  - simpl. lia.
  - rewrite Pos.iter_succ, Pos2Z.inj_succ, Z.pow_succ_r by lia.
    rewrite Pos2Z.inj_xO, IH. lia.
Qed.

Lemma iter_pos_nat {A} (f : A -> A) (p : positive) :
  forall x, SpecFloat.iter_pos f p x = Nat.iter (Pos.to_nat p) f x.
Proof.
  induction p as [p IH|p IH|]; intros x.
  - change (SpecFloat.iter_pos f p~1 x)
      with (SpecFloat.iter_pos f p (SpecFloat.iter_pos f p (f x))).
    rewrite !IH, Pos2Nat.inj_xI.
    replace (S (2 * Pos.to_nat p)) with (Pos.to_nat p + (Pos.to_nat p + 1))%nat by lia.
    rewrite !Nat.iter_add. reflexivity.
  - change (SpecFloat.iter_pos f p~0 x)
      with (SpecFloat.iter_pos f p (SpecFloat.iter_pos f p x)).
    rewrite !IH, Pos2Nat.inj_xO.
    replace (2 * Pos.to_nat p)%nat with (Pos.to_nat p + Pos.to_nat p)%nat by lia.
    rewrite Nat.iter_add. reflexivity.
  - reflexivity.
Qed.

Lemma shr_1_even (m : Z) :
  0 <= m ->
  shr_1 {| shr_m := 2 * m; shr_r := false; shr_s := false |}
  = {| shr_m := m; shr_r := false; shr_s := false |}.
Proof. destruct m; try lia; reflexivity. Qed.

Lemma shr_exact (k : nat) :
  forall m, 0 <= m ->
    Nat.iter k shr_1 {| shr_m := m * 2 ^ Z.of_nat k; shr_r := false; shr_s := false |}
    = {| shr_m := m; shr_r := false; shr_s := false |}.
Proof.
  induction k as [|k IH]; intros m Hm.
  - simpl. f_equal. lia.
  - rewrite Nat.iter_succ_r.
    replace (m * 2 ^ Z.of_nat (S k)) with (2 * (m * 2 ^ Z.of_nat k))
      by (rewrite Nat2Z.inj_succ, Z.pow_succ_r by lia; lia).
    rewrite shr_1_even by (apply Z.mul_nonneg_nonneg; [lia | apply Z.pow_nonneg; lia]).
    apply IH. exact Hm.
Qed.

Lemma fexp64_normal (e : Z) : -1021 <= e -> fexp64 e = e - 53.
Proof. intros H. unfold fexp, emin. lia. Qed.

Lemma binary_round_aux_finish (sx : bool) (mx ex : Z) (lx : location) :
  binary_round_aux 53 1024 sx mx ex lx
  = let '(mrs, e) := shr_fexp 53 1024 mx ex lx in
    finish sx (round_nearest_even (shr_m mrs) (loc_of_shr_record mrs)) e.
Proof. reflexivity. Qed.

Lemma shr_fexp_53 (m : positive) (e : Z) (l : location) :
  Zpos (digits2_pos m) = 53 -> -1074 <= e ->
  shr_fexp 53 1024 (Zpos m) e l = (shr_record_of_loc (Zpos m) l, e).
Proof.
  intros Hd He. unfold shr_fexp. simpl Zdigits2. rewrite Hd.
  rewrite fexp64_normal by lia.
  replace (53 + e - 53 - e) with 0 by lia. reflexivity.
Qed.

Lemma shr_fexp_54 (m : positive) (e : Z) (l : location) :
  Zpos (digits2_pos m) = 54 -> -1075 <= e ->
  shr_fexp 53 1024 (Zpos m) e l = (shr_1 (shr_record_of_loc (Zpos m) l), e + 1).
Proof.
  intros Hd He. unfold shr_fexp. simpl Zdigits2. rewrite Hd.
  rewrite fexp64_normal by lia.
  replace (54 + e - 53 - e) with 1 by lia. reflexivity.
Qed.

Lemma finish_spec (sx : bool) (mant e : Z) :
  2 ^ 52 <= mant <= 2 ^ 53 -> -1074 <= e <= 970 ->
  exists mF eF,
    finish sx mant e = S754_finite sx mF eF
    /\ e <= eF <= e + 1
    /\ Zpos mF * 2 ^ (eF - e) = mant
    /\ (mant < 2 ^ 53 -> Zpos mF = mant /\ eF = e).
Proof.
  intros Hm He. destruct mant as [|m|m]; try lia.
  destruct (Z.eq_dec (Zpos m) (2 ^ 53)) as [E|N].
  - assert (Hd : Zpos (digits2_pos m) = 54).
    { apply digits2_unique. rewrite E. change (54 - 1) with 53. lia. }
    unfold finish. rewrite (shr_fexp_54 m e loc_Exact Hd) by lia.
    rewrite E. change (2 ^ 53) with (2 * 2 ^ 52).
    unfold shr_record_of_loc. rewrite shr_1_even by lia.
    unfold shr_m. change (2 ^ 52) with (Zpos 4503599627370496).
    change (1024 - 53) with 971.
    destruct (Z.leb_spec (e + 1) 971); [|lia].
    eexists _, (e + 1). split; [reflexivity|].
    replace (e + 1 - e) with 1 by lia. split; [lia|]. split; [reflexivity|lia].
  - assert (Hd : Zpos (digits2_pos m) = 53).
    { apply digits2_unique. change (53 - 1) with 52. lia. }
    unfold finish. rewrite (shr_fexp_53 m e loc_Exact Hd) by lia.
    unfold shr_record_of_loc, shr_m. change (1024 - 53) with 971.
    destruct (Z.leb_spec e 971); [|lia].
    exists m, e. split; [reflexivity|].
    replace (e - e) with 0 by lia. rewrite Z.pow_0_r.
    split; [lia|]. split; [lia|]. split; lia.
Qed.

Lemma normal_round (s : bool) (p : positive) :
  Zpos p < 2 ^ 53 ->
  normal (binary_round 53 1024 s p 0) s (Zpos p).
Proof.
  intros Hp. pose proof (digits2_bounds p) as [Dlo Dhi].
  set (d := Zpos (digits2_pos p)) in *.
  assert (Hd : 1 <= d <= 53).
  { split; [unfold d; lia|].
    destruct (Z.leb_spec d 53); [assumption|].
    assert (2 ^ 53 <= 2 ^ (d - 1)) by (apply Z.pow_le_mono_r; lia). lia. }
  unfold binary_round. fold d.
  assert (Hal : exists mz, shl_align p 0 (fexp64 (d + 0)) = (mz, d - 53)
                           /\ Zpos mz = Zpos p * 2 ^ (53 - d)).
  { unfold shl_align. rewrite fexp64_normal by lia.
    replace (d + 0 - 53 - 0) with (d - 53) by lia.
    destruct (d - 53) as [|k|k] eqn:E; try lia.
    - exists p. replace d with 53 by lia. simpl. split; [reflexivity|lia].
    - exists (Pos.iter xO p k). rewrite iter_xO.
      replace (d + 0 - 53) with (Zneg k) by lia.
      split; [reflexivity|]. f_equal. f_equal. lia. }
  destruct Hal as (mz & -> & Hmz).
  assert (Hdz : Zpos (digits2_pos mz) = 53).
  { apply digits2_unique. rewrite Hmz.
    replace (2 ^ (53 - 1)) with (2 ^ (d - 1) * 2 ^ (53 - d))
      by (rewrite <- Z.pow_add_r by lia; f_equal; lia).
    replace (2 ^ 53) with (2 ^ d * 2 ^ (53 - d))
      by (rewrite <- Z.pow_add_r by lia; f_equal; lia).
    assert (0 < 2 ^ (53 - d)) by (apply Z.pow_pos_nonneg; lia).
    split; [apply Z.mul_le_mono_nonneg_r; lia | apply Z.mul_lt_mono_pos_r; lia]. }
  rewrite binary_round_aux_finish, (shr_fexp_53 mz (d - 53) loc_Exact Hdz) by lia.
  simpl round_nearest_even.
  pose proof (digits2_bounds mz) as [Zlo Zhi]. rewrite Hdz in Zlo, Zhi.
  destruct (finish_spec s (Zpos mz) (d - 53)) as (mF & eF & -> & _ & _ & Hsame);
    [simpl in *; lia | lia |].
  destruct (Hsame Zhi) as [HmF HeF].
  exists mF, eF. split; [reflexivity|].
  assert (mF = mz) by congruence. subst mF. subst eF.
  split; [exact Hdz|]. split; [lia|].
  rewrite Hmz. f_equal. f_equal. lia.
Qed.

Lemma of_int_normal (n : Z) :
  0 < n < 2 ^ 53 ->
  (exists x, PyFloat.of_int n = Ok x /\ normal x false n)
  /\ (exists x, PyFloat.of_int (- n) = Ok x /\ normal x true n)
  /\ normal (PyFloat.literal n) false n.
Proof.
  intros Hn. destruct n as [|p|p]; try lia.
  unfold PyFloat.of_int, PyFloat.literal. simpl binary_normalize.
  pose proof (normal_round false p ltac:(lia)) as Hpos.
  pose proof (normal_round true p ltac:(lia)) as Hneg.
  split; [|split; [|exact Hpos]].
  - destruct Hpos as (m & e & E & H). exists (S754_finite false m e).
    unfold PyFloat.prec, PyFloat.emax. rewrite E. split; [reflexivity|].
    exists m, e. split; [reflexivity | exact H].
  - destruct Hneg as (m & e & E & H). exists (S754_finite true m e).
    unfold PyFloat.prec, PyFloat.emax. rewrite E. split; [reflexivity|].
    exists m, e. split; [reflexivity | exact H].
Qed.

Lemma normal_bounds (x : spec_float) (s : bool) (n : Z) :
  normal x s n -> 0 < n < 2 ^ 53.
Proof.
  intros (m & e & _ & Hd & He & Hm).
  pose proof (digits2_bounds m) as [Dlo Dhi]. rewrite Hd in Dlo, Dhi.
  assert (0 < 2 ^ (- e)) by (apply Z.pow_pos_nonneg; lia).
  assert (1 <= 2 ^ (- e)) by lia.
  split; [nia|].
  destruct (Z.ltb_spec n (2 ^ 53)); [assumption|]. nia.
Qed.

(** The product of two normal floats is exact when it fits 53 bits. *)
Lemma mul_normal (x y : spec_float) (s1 s2 : bool) (a b : Z) :
  normal x s1 a -> normal y s2 b -> a * b < 2 ^ 53 ->
  normal (PyFloat.mul x y) (xorb s1 s2) (a * b).
Proof.
  intros Hx Hy Hab.
  pose proof (normal_bounds _ _ _ Hx) as Ha.
  pose proof (normal_bounds _ _ _ Hy) as Hb.
  destruct Hx as (m1 & e1 & -> & Hd1 & He1 & Hm1).
  destruct Hy as (m2 & e2 & -> & Hd2 & He2 & Hm2).
  unfold PyFloat.mul, SFmul, PyFloat.prec, PyFloat.emax.
  assert (HP : 0 < a * b) by nia.
  destruct (a * b) as [|pp|pp] eqn:EP; try lia.
  pose proof (digits2_bounds pp) as [Plo Phi].
  set (dP := Zpos (digits2_pos pp)) in *.
  assert (HdP : 1 <= dP <= 53).
  { split; [unfold dP; lia|].
    destruct (Z.leb_spec dP 53); [assumption|].
    assert (2 ^ 53 <= 2 ^ (dP - 1)) by (apply Z.pow_le_mono_r; lia). lia. }
  (* the 53-digit mantissa of the product and the shift that reaches it *)
  set (M := Zpos pp * 2 ^ (53 - dP)).
  set (k := dP - 53 - (e1 + e2)).
  assert (HM : 2 ^ 52 <= M < 2 ^ 53).
  { unfold M.
    replace (2 ^ 52) with (2 ^ (dP - 1) * 2 ^ (53 - dP))
      by (rewrite <- Z.pow_add_r by lia; f_equal; lia).
    replace (2 ^ 53) with (2 ^ dP * 2 ^ (53 - dP))
      by (rewrite <- Z.pow_add_r by lia; f_equal; lia).
    assert (0 < 2 ^ (53 - dP)) by (apply Z.pow_pos_nonneg; lia).
    split; [apply Z.mul_le_mono_nonneg_r; lia | apply Z.mul_lt_mono_pos_r; lia]. }
  pose proof (digits2_bounds m1) as [L1 U1]. rewrite Hd1 in L1, U1.
  pose proof (digits2_bounds m2) as [L2 U2]. rewrite Hd2 in L2, U2.
  assert (H12 : Zpos m1 * Zpos m2 = Zpos pp * 2 ^ (- (e1 + e2))).
  { rewrite Hm1, Hm2, <- EP.
    replace (- (e1 + e2)) with (- e1 + - e2) by lia.
    rewrite Z.pow_add_r by lia. ring. }
  assert (Hk : 52 <= k).
  { assert (2 ^ 104 <= Zpos m1 * Zpos m2)
      by (change (2 ^ 104) with (2 ^ 52 * 2 ^ 52); nia).
    assert (0 < 2 ^ (- (e1 + e2))) by (apply Z.pow_pos_nonneg; lia).
    assert (Zpos pp * 2 ^ (- (e1 + e2)) < 2 ^ dP * 2 ^ (- (e1 + e2)))
      by (apply Z.mul_lt_mono_pos_r; lia).
    rewrite <- Z.pow_add_r in H1 by lia.
    assert (2 ^ 104 < 2 ^ (dP + - (e1 + e2))) by lia.
    apply Z.pow_lt_mono_r_iff in H2; lia. }
  assert (Hprod : Zpos (m1 * m2) = M * 2 ^ k).
  { rewrite Pos2Z.inj_mul, H12. unfold M.
    rewrite <- Z.mul_assoc, <- Z.pow_add_r by lia.
    f_equal. f_equal. unfold k. lia. }
  assert (Hdig : Zpos (digits2_pos (m1 * m2)) = 53 + k).
  { apply digits2_unique. rewrite Hprod.
    replace (53 + k - 1) with (52 + k) by lia.
    rewrite !Z.pow_add_r by lia.
    assert (0 < 2 ^ k) by (apply Z.pow_pos_nonneg; lia).
    split; [apply Z.mul_le_mono_nonneg_r; lia | apply Z.mul_lt_mono_pos_r; lia]. }
  rewrite binary_round_aux_finish.
  assert (Hshr : shr_fexp 53 1024 (Zpos (m1 * m2)) (e1 + e2) loc_Exact
                 = ({| shr_m := M; shr_r := false; shr_s := false |}, dP - 53)).
  { unfold shr_fexp. simpl Zdigits2. rewrite Hdig.
    rewrite fexp64_normal by (unfold k; lia).
    replace (53 + k + (e1 + e2) - 53 - (e1 + e2)) with k by lia.
    unfold shr. destruct k as [|kp|kp] eqn:Ek; try lia.
    rewrite iter_pos_nat. simpl shr_record_of_loc. rewrite Hprod.
    replace (Zpos kp) with (Z.of_nat (Pos.to_nat kp)) at 1 by lia.
    rewrite shr_exact by lia.
    f_equal. unfold k in Ek. lia. }
  rewrite Hshr. simpl round_nearest_even.
  destruct (finish_spec (xorb s1 s2) M (dP - 53)) as (mF & eF & -> & _ & _ & Hsame);
    [lia | lia |].
  destruct (Hsame (proj2 HM)) as [HmF HeF]. subst eF.
  exists mF, (dP - 53). split; [reflexivity|].
  split; [apply digits2_unique; rewrite HmF; simpl; lia|].
  split; [lia|].
  rewrite HmF. unfold M. f_equal. f_equal. lia.
Qed.

Lemma cross_div (x a b c : Z) :
  0 < b -> 0 < c -> x * b = a * c -> x / c = a / b.
Proof.
  intros Hb Hc H.
  rewrite <- (Z.div_mul_cancel_r x c b) by lia.
  rewrite H, (Z.mul_comm c b), Z.div_mul_cancel_r by lia. reflexivity.
Qed.

(** Rounding the quotient [X / Y] to nearest and dropping [K] more
    digits gives the integer part of [a / b] when [a] is below 2^53. *)
Lemma round_then_trunc (a b X Y K qd mant : Z) :
  0 < a < 2 ^ 53 -> 0 < b -> 0 < Y -> 0 < K ->
  X * b = a * (Y * K) ->
  qd = X / Y ->
  2 ^ 52 <= qd ->
  (mant = qd \/ (mant = qd + 1 /\ Y <= 2 * (X mod Y))) ->
  mant / K = a / b.
Proof.
  intros Ha Hb HY HK Hcross Hqd Hbig Hmant.
  assert (Hn : qd / K = a / b).
  { rewrite Hqd, Z.div_div by lia. apply cross_div; [lia | nia | exact Hcross]. }
  destruct Hmant as [->|[-> Hup]]; [exact Hn|].
  set (n := a / b) in *.
  pose proof (Z.div_mod X Y ltac:(lia)) as HXY. rewrite <- Hqd in HXY.
  pose proof (Z.mod_pos_bound X Y HY) as Hr.
  pose proof (Z.div_mod qd K ltac:(lia)) as HqK. rewrite Hn in HqK.
  pose proof (Z.mod_pos_bound qd K HK) as HrK.
  pose proof (Z.div_mod a b ltac:(lia)) as Hab. fold n in Hab.
  pose proof (Z.mod_pos_bound a b Hb) as Hrb.
  (* qd + 1 <= (n + 1) * K, and equality is what has to be excluded *)
  destruct (Z.eq_dec (qd + 1) ((n + 1) * K)) as [Heq|Hne].
  - exfalso.
    assert (H1 : 1 <= (n + 1) * b - a) by nia.
    (* b >= 2 K *)
    assert (H2 : 2 * X * b >= (2 * qd + 1) * Y * b) by nia.
    assert (H3 : 2 * a * K * Y >= (2 * qd + 1) * b * Y) by nia.
    assert (H4 : 2 * a * K >= (2 * qd + 1) * b) by nia.
    assert (H5 : b >= 2 * K * ((n + 1) * b - a)) by nia.
    assert (H6 : b >= 2 * K) by nia.
    (* a >= 2^53 *)
    assert (H7 : qd * Y * b <= X * b) by nia.
    assert (H8 : qd * b * Y <= a * K * Y) by nia.
    assert (H9 : qd * b <= a * K) by nia.
    assert (H10 : 2 ^ 52 * (2 * K) <= a * K) by nia.
    assert (H11 : 2 ^ 53 * K <= a * K) by (change (2 ^ 53) with (2 ^ 52 * 2); nia).
    nia.
  - symmetry. apply Z.div_unique with (r := qd + 1 - K * n); [|lia].
    left. split; [nia|].
    assert (qd + 1 <= (n + 1) * K) by nia. nia.
Qed.

Lemma new_location_spec (m r : Z) :
  0 < m -> 0 <= r < m ->
  new_location m r = if r =? 0 then loc_Exact else loc_Inexact (2 * r ?= m).
Proof.
  intros Hm Hr. unfold new_location, new_location_even, new_location_odd.
  destruct (Z.even m) eqn:Ev; [reflexivity|].
  destruct (r =? 0); [reflexivity|]. f_equal.
  destruct (Z.compare_spec (2 * r + 1) m) as [H|H|H];
    destruct (Z.compare_spec (2 * r) m) as [H'|H'|H']; try reflexivity; try lia.
  rewrite <- H', Z.even_mul in Ev. discriminate.
Qed.

Lemma loc_of_shr_record_of_loc (m : Z) (l : location) :
  loc_of_shr_record (shr_record_of_loc m l) = l.
Proof. destruct l as [|[]]; reflexivity. Qed.

Lemma round_53 (sx : bool) (q : positive) (e : Z) (l : location) :
  Zpos (digits2_pos q) = 53 -> -1074 <= e ->
  binary_round_aux 53 1024 sx (Zpos q) e l
  = finish sx (round_nearest_even (Zpos q) l) e.
Proof.
  intros Hd He. rewrite binary_round_aux_finish, (shr_fexp_53 q e l Hd) by lia.
  rewrite loc_of_shr_record_of_loc. destruct l as [|[]]; reflexivity.
Qed.

Lemma round_54 (sx : bool) (q : positive) (e : Z) (l : location) :
  Zpos (digits2_pos q) = 54 -> -1075 <= e ->
  binary_round_aux 53 1024 sx (Zpos q) e l
  = finish sx (round_nearest_even (Zpos q / 2) (halve_location (Z.odd (Zpos q)) l))
      (e + 1).
Proof.
  intros Hd He. rewrite binary_round_aux_finish, (shr_fexp_54 q e l Hd) by lia.
  destruct q as [p|p|]; [| |discriminate Hd].
  - replace (Zpos p~1 / 2) with (Zpos p)
      by (apply Z.div_unique with (r := 1); [left; lia | lia]).
    destruct l as [|[]]; reflexivity.
  - replace (Zpos p~0 / 2) with (Zpos p)
      by (apply Z.div_unique with (r := 0); [left; lia | lia]).
    destruct l as [|[]]; reflexivity.
Qed.

(** The first step of [binary_round_aux] on a quotient of 53 or 54
    digits: [sh] digits are dropped, and the mantissa left is the
    quotient by [m2 * 2^sh], or the next integer when the remainder is
    at least half. *)
Lemma round_quotient (sx : bool) (q e m2 r : Z) :
  2 ^ 52 <= q < 2 ^ 54 -> 0 < m2 -> 0 <= r < m2 -> -1074 <= e ->
  exists sh mant,
    0 <= sh <= 1
    /\ binary_round_aux 53 1024 sx q e (new_location m2 r) = finish sx mant (e + sh)
    /\ 2 ^ 52 <= (q * m2 + r) / (m2 * 2 ^ sh) < 2 ^ 53
    /\ (mant = (q * m2 + r) / (m2 * 2 ^ sh)
        \/ (mant = (q * m2 + r) / (m2 * 2 ^ sh) + 1
            /\ m2 * 2 ^ sh <= 2 * ((q * m2 + r) mod (m2 * 2 ^ sh)))).
Proof.
  intros Hq Hm2 Hr He. rewrite new_location_spec by lia.
  destruct q as [|qp|qp]; try lia.
  destruct (Z.ltb_spec (Zpos qp) (2 ^ 53)) as [Hlt|Hge].
  - (* 53 digits: nothing is dropped *)
    assert (Hd : Zpos (digits2_pos qp) = 53) by (apply digits2_unique; simpl in *; lia).
    exists 0, (round_nearest_even (Zpos qp)
                 (if r =? 0 then loc_Exact else loc_Inexact (2 * r ?= m2))).
    rewrite (round_53 sx qp e _ Hd) by lia.
    replace (m2 * 2 ^ 0) with m2 by (simpl; lia).
    replace ((Zpos qp * m2 + r) / m2) with (Zpos qp)
      by (apply Z.div_unique with (r := r); [left; lia | lia]).
    replace ((Zpos qp * m2 + r) mod m2) with r
      by (apply Z.mod_unique with (q := Zpos qp); [left; lia | lia]).
    replace (e + 0) with e by lia.
    split; [lia|]. split; [reflexivity|]. split; [lia|].
    destruct (Z.eqb_spec r 0) as [->|Hr0]; [left; reflexivity|].
    destruct (Z.compare_spec (2 * r) m2) as [H|H|H]; unfold round_nearest_even.
    + destruct (Z.even (Zpos qp)); [left; reflexivity | right; split; [reflexivity | lia]].
    + left. reflexivity.
    + right. split; [reflexivity | lia].
  - (* 54 digits: the last one is dropped *)
    assert (Hd : Zpos (digits2_pos qp) = 54) by (apply digits2_unique; simpl in *; lia).
    exists 1, (round_nearest_even (Zpos qp / 2)
                 (halve_location (Z.odd (Zpos qp))
                    (if r =? 0 then loc_Exact else loc_Inexact (2 * r ?= m2)))).
    rewrite (round_54 sx qp e _ Hd) by lia.
    replace (m2 * 2 ^ 1) with (2 * m2) by (rewrite Z.pow_1_r; lia).
    pose proof (Z.div_mod (Zpos qp) 2 ltac:(lia)) as Hq2.
    pose proof (Z.mod_pos_bound (Zpos qp) 2 ltac:(lia)) as Hb2.
    set (h := Zpos qp / 2) in *.
    rewrite Zmod_odd in Hq2, Hb2.
    split; [lia|]. split; [reflexivity|].
    destruct (Z.odd (Zpos qp)) eqn:Eodd.
    + (* odd quotient *)
      replace ((Zpos qp * m2 + r) / (2 * m2)) with h
        by (apply Z.div_unique with (r := m2 + r); [left; lia | lia]).
      replace ((Zpos qp * m2 + r) mod (2 * m2)) with (m2 + r)
        by (apply Z.mod_unique with (q := h); [left; lia | lia]).
      split; [lia|].
      destruct (Z.eqb_spec r 0) as [->|Hr0]; simpl halve_location; unfold round_nearest_even.
      * destruct (Z.even h); [left; reflexivity | right; split; [reflexivity | lia]].
      * destruct (2 * r ?= m2); right; split; try reflexivity; lia.
    + (* even quotient *)
      replace ((Zpos qp * m2 + r) / (2 * m2)) with h
        by (apply Z.div_unique with (r := r); [left; lia | lia]).
      replace ((Zpos qp * m2 + r) mod (2 * m2)) with r
        by (apply Z.mod_unique with (q := h); [left; lia | lia]).
      split; [lia|].
      destruct (Z.eqb_spec r 0) as [->|Hr0]; simpl halve_location; unfold round_nearest_even.
      * left. reflexivity.
      * destruct (2 * r ?= m2); left; reflexivity.
Qed.

Lemma div_core (m1 m2 : positive) (e1 e2 : Z) :
  Zpos (digits2_pos m1) = 53 -> Zpos (digits2_pos m2) = 53 ->
  -52 <= e1 <= 0 -> -52 <= e2 <= 0 ->
  SFdiv_core_binary 53 1024 (Zpos m1) e1 (Zpos m2) e2
  = ((Zpos m1 * 2 ^ 53) / Zpos m2, e1 - e2 - 53,
     new_location (Zpos m2) ((Zpos m1 * 2 ^ 53) mod Zpos m2)).
Proof.
  intros Hd1 Hd2 He1 He2. unfold SFdiv_core_binary. simpl Zdigits2.
  rewrite Hd1, Hd2, fexp64_normal by lia.
  replace (Z.min (53 + e1 - (53 + e2) - 53) (e1 - e2)) with (e1 - e2 - 53) by lia.
  replace (e1 - e2 - (e1 - e2 - 53)) with 53 by lia.
  rewrite Z.shiftl_mul_pow2 by lia.
  unfold Z.div, Z.modulo.
  destruct (Z.div_eucl (Zpos m1 * 2 ^ 53) (Zpos m2)) as [q r]. reflexivity.
Qed.

Lemma to_int_finite (s : bool) (m : positive) (e : Z) :
  PyFloat.to_int (S754_finite s m e)
  = Ok (if s then - trunc_value (Zpos m) e else trunc_value (Zpos m) e).
Proof.
  unfold PyFloat.to_int, trunc_value. destruct e as [|p|p].
  - rewrite Z.shiftl_mul_pow2 by lia. reflexivity.
  - rewrite Z.shiftl_mul_pow2 by lia. reflexivity.
  - rewrite Z.shiftr_div_pow2 by lia. reflexivity.
Qed.

(** Dividing two normal floats and truncating the quotient gives the
    integer part of the exact quotient. *)
Lemma div_trunc (x y : spec_float) (s1 s2 : bool) (a b : Z) :
  normal x s1 a -> normal y s2 b ->
  exists q,
    PyFloat.div x y = Ok q
    /\ PyFloat.to_int q = Ok (if xorb s1 s2 then - (a / b) else a / b).
Proof.
  intros Hx Hy.
  pose proof (normal_bounds _ _ _ Hx) as Ha.
  pose proof (normal_bounds _ _ _ Hy) as Hb.
  destruct Hx as (m1 & e1 & -> & Hd1 & He1 & Hm1).
  destruct Hy as (m2 & e2 & -> & Hd2 & He2 & Hm2).
  pose proof (digits2_bounds m1) as [L1 U1]. rewrite Hd1 in L1, U1.
  pose proof (digits2_bounds m2) as [L2 U2]. rewrite Hd2 in L2, U2.
  unfold PyFloat.div, SFdiv, PyFloat.prec, PyFloat.emax.
  eexists. split; [reflexivity|].
  rewrite (div_core m1 m2 e1 e2) by assumption.
  set (X := Zpos m1 * 2 ^ 53).
  pose proof (Z.div_mod X (Zpos m2) ltac:(lia)) as HX.
  pose proof (Z.mod_pos_bound X (Zpos m2) ltac:(lia)) as Hr.
  set (q := X / Zpos m2) in *. set (r := X mod Zpos m2) in *.
  assert (Hq : 2 ^ 52 <= q < 2 ^ 54).
  { unfold X in HX. change (2 ^ 54) with (2 ^ 53 * 2). change (2 ^ 53) with (2 ^ 52 * 2) in *.
    split; nia. }
  destruct (round_quotient (xorb s1 s2) q (e1 - e2 - 53) (Zpos m2) r)
    as (sh & mant & Hsh & -> & Hqd & Hmant); try lia.
  replace (q * Zpos m2 + r) with X in Hqd, Hmant by lia.
  set (Y := Zpos m2 * 2 ^ sh) in *.
  set (e := e1 - e2 - 53 + sh).
  assert (HY : 0 < Y) by (unfold Y; assert (0 < 2 ^ sh) by (apply Z.pow_pos_nonneg; lia); nia).
  assert (Hmant' : 2 ^ 52 <= mant <= 2 ^ 53) by lia.
  destruct (finish_spec (xorb s1 s2) mant e Hmant') as (mF & eF & -> & HeF & HmF & _);
    [unfold e; lia|].
  rewrite to_int_finite.
  assert (Hval : trunc_value (Zpos mF) eF = a / b); [|rewrite Hval; reflexivity].
  assert (He : e <= 0) by (unfold e; lia).
  set (K := 2 ^ (- e)).
  assert (HK : 0 < K) by (apply Z.pow_pos_nonneg; lia).
  assert (Htr : trunc_value (Zpos mF) eF = mant / K).
  { unfold trunc_value, K. destruct (Z.eq_dec eF e) as [->|Hne].
    - replace (e - e) with 0 in HmF by lia. rewrite Z.pow_0_r, Z.mul_1_r in HmF. rewrite HmF.
      destruct (Z.ltb_spec e 0); [reflexivity|].
      replace e with 0 by lia. simpl. rewrite Z.div_1_r. lia.
    - assert (eF = e + 1) by lia. subst eF.
      replace (e + 1 - e) with 1 in HmF by lia. rewrite Z.pow_1_r in HmF.
      destruct (Z.ltb_spec (e + 1) 0).
      + rewrite <- HmF.
        replace (- e) with (- (e + 1) + 1) by lia.
        rewrite Z.pow_add_r, Z.pow_1_r by lia.
        rewrite Z.div_mul_cancel_r; [reflexivity | | lia].
        apply Z.pow_nonzero; lia.
      + destruct (Z.eq_dec e 0) as [E0|E0].
        * rewrite E0. simpl. rewrite Z.div_1_r. lia.
        * replace (e + 1) with 0 by lia. replace (- e) with 1 by lia.
          rewrite Z.pow_0_r, Z.pow_1_r, <- HmF, Z.div_mul by lia. lia. }
  rewrite Htr.
  apply (round_then_trunc a b X Y K (X / Y) mant); try lia.
  unfold X, Y, K, e. rewrite Hm1, Hm2.
  replace (- (e1 - e2 - 53 + sh)) with (53 + e2 - e1 - sh) by lia.
  replace (a * 2 ^ (- e1) * 2 ^ 53 * b) with (a * b * (2 ^ (- e1) * 2 ^ 53)) by ring.
  replace (a * (b * 2 ^ (- e2) * 2 ^ sh * 2 ^ (53 + e2 - e1 - sh)))
    with (a * b * (2 ^ (- e2) * 2 ^ sh * 2 ^ (53 + e2 - e1 - sh))) by ring.
  f_equal. rewrite <- !Z.pow_add_r by lia. f_equal. lia.
Qed.

(* ===================================================================== *)
(** * Tick conversion *)
(* ===================================================================== *)

(** [calculate_time] reads the clock rate of the reader and nothing
    else, and writes nothing. *)
Lemma calculate_time_conversion (scale : PyFloat.float) (t : Z) (r : Reader) (w : World) :
  calculate_time scale t (r, w) = (conversion scale t (_jiffies_per_sec r), (r, w)).
Proof.
  unfold calculate_time, conversion, mbind, M_bind, bind, self, lift_result.
  simpl fst.
  destruct (PyFloat.of_int t) as [ticks|e]; [|reflexivity].
  destruct (PyFloat.of_int (_jiffies_per_sec r)) as [rate|e]; [|reflexivity].
  destruct (PyFloat.div (PyFloat.mul ticks scale) rate) as [q|e]; reflexivity.
Qed.

Lemma calculate_time_ok (scale : PyFloat.float) (t v : Z) (r : Reader) (w : World) :
  conversion scale t (_jiffies_per_sec r) = Ok v ->
  calculate_time scale t (r, w) = (Ok v, (r, w)).
Proof. intros H. rewrite calculate_time_conversion, H. reflexivity. Qed.

(** The conversion of a tick count whose scaled value fits 53 bits, at
    a clock rate that fits 53 bits, is exact: every float on the way
    holds an integer, or the correctly rounded quotient, and the integer
    part of that quotient is the integer part of the exact one. *)
Lemma calculate_time_exact (scale t : Z) (r : Reader) (w : World) :
  0 < scale < 2 ^ 53 ->
  Z.abs t * scale < 2 ^ 53 ->
  0 < _jiffies_per_sec r < 2 ^ 53 ->
  calculate_time (PyFloat.literal scale) t (r, w)
  = (Ok (Z.quot (t * scale) (_jiffies_per_sec r)), (r, w)).
Proof.
  intros Hsc Ht Hhz.
  destruct (of_int_normal scale Hsc) as (_ & _ & Nscale).
  destruct (of_int_normal _ Hhz) as ((rate & Erate & Nrate) & _ & _).
  unfold calculate_time.
  unfold mbind, M_bind, bind, self, lift_result. simpl fst. rewrite Erate.
  destruct (Z.eq_dec t 0) as [->|Ht0].
  - destruct Nscale as (m & e & -> & _). destruct Nrate as (m' & e' & -> & _).
    reflexivity.
  - assert (Habs : 0 < Z.abs t < 2 ^ 53) by nia.
    destruct (of_int_normal (Z.abs t) Habs)
      as ((xp & Ep & Np) & (xn & En & Nn) & _).
    destruct (Z.ltb_spec t 0) as [Hneg|Hpos].
    + replace t with (- Z.abs t) at 1 by lia. rewrite En.
      pose proof (mul_normal _ _ _ _ _ _ Nn Nscale Ht) as Nmul.
      destruct (div_trunc _ _ _ _ _ _ Nmul Nrate) as (q & -> & ->).
      simpl xorb. do 3 f_equal.
      replace (t * scale) with (- (Z.abs t * scale)) by lia.
      rewrite Z.quot_opp_l by lia. rewrite Z.quot_div_nonneg by nia. reflexivity.
    + replace t with (Z.abs t) at 1 by lia. rewrite Ep.
      pose proof (mul_normal _ _ _ _ _ _ Np Nscale Ht) as Nmul.
      destruct (div_trunc _ _ _ _ _ _ Nmul Nrate) as (q & -> & ->).
      simpl xorb. do 3 f_equal.
      replace (t * scale) with (Z.abs t * scale) by lia.
      rewrite Z.quot_div_nonneg by nia. reflexivity.
Qed.

(** C1, as amended: for every positive number of ticks per second and
    every tick count, both within the 53 bits on which the doubles of
    the source are exact, the conversion to centiseconds is the quotient
    [t * 100 / hz] with its fraction dropped (rounded toward zero, the
    [int(...)] of the source), and the conversion to milliseconds is
    [t * 1000 / hz] with its fraction dropped; neither reads nor writes
    the reader or the world. *)
Theorem calculate_time_truncates (t hz : Z) (r : Reader) (w : World) :
  0 < hz < 2 ^ 53 ->
  Z.abs t * 1000 < 2 ^ 53 ->
  _jiffies_per_sec r = hz ->
  calculate_time_cs t (r, w) = (Ok (Z.quot (t * 100) hz), (r, w))
  /\ calculate_time_ms t (r, w) = (Ok (Z.quot (t * 1000) hz), (r, w)).
Proof.
  intros Hhz Ht <-. split.
  - apply (calculate_time_exact 100); lia.
  - apply (calculate_time_exact 1000); lia.
Qed.

Lemma calculate_time_truncates_witness :
  calculate_time_cs 250 (Scenario.stat_reader 100, Scenario.world0)
  = (Ok 250, (Scenario.stat_reader 100, Scenario.world0))
  /\ calculate_time_ms 5000 (Scenario.stat_reader 100, Scenario.world0)
     = (Ok 50000, (Scenario.stat_reader 100, Scenario.world0)).
Proof.
  split.
  - apply (proj1 (calculate_time_truncates 250 100 (Scenario.stat_reader 100)
                    Scenario.world0 ltac:(simpl; lia) ltac:(simpl; lia) eq_refl)).
  - apply (proj2 (calculate_time_truncates 5000 100 (Scenario.stat_reader 100)
                    Scenario.world0 ltac:(simpl; lia) ltac:(simpl; lia) eq_refl)).
Defined.

(** C1, as stated, fails: two ticks at three ticks per second are
    200/3 = 66.67 centiseconds, which rounds to 67; the reader returns
    66. *)
Lemma calculate_time_cs_not_round :
  calculate_time_cs 2 (Scenario.stat_reader 3, Scenario.world0)
  = (Ok 66, (Scenario.stat_reader 3, Scenario.world0))
  /\ ~ rounds_to (2 * 100 # 3) 66
  /\ rounds_to (2 * 100 # 3) 67.
Proof.
  split; [vm_compute; reflexivity|].
  unfold rounds_to. split.
  - intros H. vm_compute in H. apply H. reflexivity.
  - vm_compute. discriminate.
Qed.

(** Beyond 53 bits the coercion of the tick count already rounds: the
    conversion is no longer the integer part of the exact quotient. *)
Example conversion_beyond_53_bits :
  conversion (PyFloat.literal 100) (2 ^ 53 + 1) 1 = Ok (2 ^ 53 * 100)
  /\ Z.quot ((2 ^ 53 + 1) * 100) 1 = 2 ^ 53 * 100 + 100.
Proof. split; vm_compute; reflexivity. Qed.

(** On non-negative tick counts the conversion is the floor of the
    quotient, hence never above the rounded value. *)
Lemma calculate_time_cs_floor (t hz : Z) (r : Reader) (w : World) :
  0 <= t -> t * 100 < 2 ^ 53 -> 0 < hz < 2 ^ 53 -> _jiffies_per_sec r = hz ->
  calculate_time_cs t (r, w) = (Ok (t * 100 / hz), (r, w)).
Proof.
  intros Ht Hb Hhz <-. unfold calculate_time_cs.
  rewrite (calculate_time_exact 100) by lia.
  rewrite Z.quot_div_nonneg by lia. reflexivity.
Qed.

(* ===================================================================== *)
(** * Running a method step by step *)
(* ===================================================================== *)

Ltac unfold_monad :=
  unfold mbind, M_bind, mret, M_ret, fmap, M_fmap, bind, ret, raise, self,
    update, world, or_raise, index, lift_result, try_except, try_finally,
    modify, get in *.

Lemma bind_ok {St A B} (m : M St A) (k : A -> M St B) (s s' : St) (a : A) :
  m s = (Ok a, s') -> (m ≫= k) s = k a s'.
Proof. intros H. unfold mbind, M_bind, bind. rewrite H. reflexivity. Qed.

Lemma index_ok {St A} (l : list A) (i : nat) (x : A) (s : St) :
  l !! i = Some x -> index l i s = (Ok x, s).
Proof. intros H. unfold index, or_raise. rewrite H. reflexivity. Qed.

Lemma or_raise_ok {St A} (e : exn) (o : option A) (x : A) (s : St) :
  o = Some x -> or_raise e o s = (Ok x, s).
Proof. intros ->. reflexivity. Qed.

Lemma logged_nil (w : World) : logged [] w = w.
Proof. destruct w. unfold logged, with_log. simpl. rewrite app_nil_r. reflexivity. Qed.

Lemma logged_logged (a b : list event) (w : World) :
  logged b (logged a w) = logged (a ++ b) w.
Proof. unfold logged, with_log. simpl. rewrite app_assoc. reflexivity. Qed.

Lemma readlines_ok (h : handle) (text : string) (r : Reader) (w : World) :
  os_read (w_os w) h = Ok text ->
  world (Sys.readlines h) (r, w) = (Ok (Py.lines text), (r, logged [EvRead h] w)).
Proof.
  intros H. unfold Sys.readlines, Sys.read, Sys.ask, Sys.log. unfold_monad.
  simpl. rewrite H. reflexivity.
Qed.

Lemma print_sample_ok (metric_name : string) (v : value) (type_value : option string)
    (r : Reader) (w : World) :
  print_sample metric_name v type_value (r, w)
  = (Ok tt, (r, logged [sample (_id r) metric_name v type_value] w)).
Proof.
  unfold print_sample, sample, Sys.emit_value, Sys.log. unfold_monad. simpl.
  destruct type_value; reflexivity.
Qed.

(* ===================================================================== *)
(** * Frames *)
(* ===================================================================== *)

Section Frames.

Context {O : Type} (R : O -> O -> Prop).
Hypothesis R_refl : forall o, R o o.
Hypothesis R_trans : forall a b c, R a b -> R b c -> R a c.

Lemma keeps_ret {A} (a : A) : keeps R (ret a).
Proof. intros o w. apply R_refl. Qed.

Lemma keeps_mret {A} (a : A) : keeps R (mret a).
Proof. intros o w. apply R_refl. Qed.

Lemma keeps_raise {A} (e : exn) : keeps R (raise (A := A) e).
Proof. intros o w. apply R_refl. Qed.

Lemma keeps_self : keeps R self.
Proof. intros o w. apply R_refl. Qed.

Lemma keeps_world {A} (m : M World A) : keeps R (world m).
Proof. intros o w. unfold world. simpl. destruct (m w). apply R_refl. Qed.

Lemma keeps_or_raise {A} (e : exn) (x : option A) : keeps R (or_raise e x).
Proof. destruct x; [apply keeps_ret | apply keeps_raise]. Qed.

Lemma keeps_index {A} (l : list A) (i : nat) : keeps R (index l i).
Proof. apply keeps_or_raise. Qed.

Lemma keeps_lift_result {A} (x : result A) : keeps R (lift_result x).
Proof. intros o w. apply R_refl. Qed.

Lemma keeps_update (f : O -> O) : (forall o, R o (f o)) -> keeps R (update f).
Proof. intros H o w. apply H. Qed.

Lemma keeps_bind {A B} (m : M (O * World) A) (k : A -> M (O * World) B) :
  keeps R m -> (forall a, keeps R (k a)) -> keeps R (m ≫= k).
Proof.
  intros Hm Hk o w. unfold mbind, M_bind, bind.
  specialize (Hm o w). destruct (m (o, w)) as [[a|e] [o' w']]; simpl in *.
  - eapply R_trans; [exact Hm | apply Hk].
  - exact Hm.
Qed.

Lemma keeps_try_finally {A} (body : M (O * World) A) (cleanup : M (O * World) unit) :
  keeps R body -> keeps R cleanup -> keeps R (try_finally body cleanup).
Proof.
  intros Hb Hc o w. unfold try_finally.
  specialize (Hb o w). destruct (body (o, w)) as [res [o' w']]; simpl in *.
  specialize (Hc o' w'). destruct (cleanup (o', w')) as [[u|e] [o'' w'']];
    simpl in *; eapply R_trans; eauto.
Qed.

Lemma keeps_try_except {A} (body : M (O * World) A)
    (handler : exn -> option (M (O * World) A)) :
  keeps R body ->
  (forall e h, handler e = Some h -> keeps R h) ->
  keeps R (try_except body handler).
Proof.
  intros Hb Hh o w. unfold try_except.
  specialize (Hb o w). destruct (body (o, w)) as [[a|e] [o' w']]; simpl in *.
  - exact Hb.
  - destruct (handler e) as [h|] eqn:E; [|exact Hb].
    eapply R_trans; [exact Hb | apply (Hh e h E)].
Qed.

Lemma keeps_for_each {A} (l : list A) (body : A -> M (O * World) unit) :
  (forall x, keeps R (body x)) -> keeps R (for_each l body).
Proof.
  intros Hb. induction l as [|x l IH]; simpl.
  - apply keeps_ret.
  - apply (keeps_bind (body x) (fun _ => for_each l body)); auto.
Qed.

End Frames.

(** Breaks a frame goal down along the structure of the method. *)
Ltac frame R_refl R_trans :=
  repeat first
    [ apply (keeps_bind _ R_trans); [|intros]
    | apply (keeps_ret _ R_refl)
    | apply (keeps_mret _ R_refl)
    | apply (keeps_raise _ R_refl)
    | apply (keeps_self _ R_refl)
    | apply (keeps_world _ R_refl)
    | apply (keeps_or_raise _ R_refl)
    | apply (keeps_index _ R_refl)
    | apply (keeps_lift_result _ R_refl)
    | apply (keeps_try_finally _ R_trans)
    | apply (keeps_try_except _ R_trans)
    | apply (keeps_for_each _ R_refl R_trans); intros
    | match goal with
      | |- keeps _ (match ?x with _ => _ end) => destruct x
      | |- keeps _ (let '(_, _) := ?x in _) => destruct x
      end ].

(* ===================================================================== *)
(** * Strings *)
(* ===================================================================== *)

Lemma split_from_nil (s : string) :
  forall cur, Py.split_from cur s = [] <-> cur = EmptyString /\ all_space s = true.
Proof.
  induction s as [|c s IH]; intros cur; simpl.
  - destruct cur; simpl; split; try tauto; try discriminate.
    intros [H _]. discriminate H.
  - destruct (Py.is_space c) eqn:Ec; simpl.
    + destruct cur as [|d cur]; simpl.
      * rewrite IH. tauto.
      * split; [discriminate|]. intros [H _]. discriminate H.
    + rewrite IH. split; [|intros [_ H]; discriminate H].
      intros [H _]. destruct cur; discriminate H.
Qed.

(** [fields[0]] is out of range exactly on the lines that are empty or
    hold blanks only. *)
Lemma split_head_none (line : string) :
  Py.split line !! 0%nat = None <-> all_space line = true.
Proof.
  unfold Py.split.
  destruct (Py.split_from "" line) as [|key rest] eqn:E; simpl.
  - apply split_from_nil in E. tauto.
  - split; [discriminate|]. intros H.
    assert (Py.split_from "" line = []) as E' by (apply split_from_nil; auto).
    congruence.
Qed.

Lemma prefix_app (sub s : string) :
  String.prefix sub s = true -> exists r, s = sub +:+ r.
Proof.
  revert s. induction sub as [|c sub IH]; intros s H; simpl in *.
  - exists s. reflexivity.
  - destruct s as [|d s]; simpl in H; [discriminate|].
    destruct (ascii_dec c d) as [->|]; [|discriminate].
    destruct (IH s H) as [r ->]. exists r. reflexivity.
Qed.

Lemma app_prefix (sub r : string) : String.prefix sub (sub +:+ r) = true.
Proof.
  induction sub as [|c sub IH]; simpl; [destruct r; reflexivity|].
  destruct (ascii_dec c c); [exact IH | congruence].
Qed.

Lemma find_from_eq (i : Z) (sub s : string) :
  Py.find_from i sub s
  = if String.prefix sub s then i
    else match s with
         | EmptyString => -1
         | String _ s' => Py.find_from (i + 1) sub s'
         end.
Proof. destruct s; reflexivity. Qed.

Lemma find_from_first (sub pre rest : string) :
  forall i,
    (forall p r, pre +:+ sub +:+ rest = p +:+ sub +:+ r ->
                 (String.length pre <= String.length p)%nat) ->
    Py.find_from i sub (pre +:+ sub +:+ rest) = i + Z.of_nat (String.length pre).
Proof.
  induction pre as [|c pre IH]; intros i Hmin.
  - change (EmptyString +:+ sub +:+ rest) with (sub +:+ rest).
    rewrite find_from_eq, app_prefix. simpl. lia.
  - change (String c pre +:+ sub +:+ rest) with (String c (pre +:+ sub +:+ rest)) in *.
    rewrite find_from_eq.
    destruct (String.prefix sub (String c (pre +:+ sub +:+ rest))) eqn:Ep.
    + apply prefix_app in Ep as [r Hr].
      specialize (Hmin EmptyString r Hr). simpl in Hmin. lia.
    + rewrite IH.
      * simpl String.length. lia.
      * intros p r Hpr.
        specialize (Hmin (String c p) r). simpl in Hmin.
        rewrite Hpr in Hmin. specialize (Hmin eq_refl). lia.
Qed.

(** [find] returns the position of the first occurrence. *)
Lemma find_first_occurrence (sub pre line rest : string) :
  first_occurrence sub pre line rest ->
  Py.find line sub = Z.of_nat (String.length pre).
Proof.
  intros [-> Hmin]. unfold Py.find. rewrite find_from_first by exact Hmin. lia.
Qed.

Lemma length_app (a b : string) :
  String.length (a +:+ b) = (String.length a + String.length b)%nat.
Proof. induction a as [|c a IH]; simpl; [reflexivity | rewrite IH; reflexivity]. Qed.

Lemma drop_app (a b : string) : Py.drop (String.length a) (a +:+ b) = b.
Proof. induction a as [|c a IH]; simpl; [reflexivity | exact IH]. Qed.

Lemma take_app (a b : string) : Py.take (String.length a) (a +:+ b) = a.
Proof.
  induction a as [|c a IH]; [destruct b; reflexivity|].
  change (String c (Py.take (String.length a) (a +:+ b)) = String c a).
  f_equal. exact IH.
Qed.

(** The slice after the first occurrence is what follows it. *)
Lemma slice_after_first_occurrence (sub pre line rest : string) :
  first_occurrence sub pre line rest ->
  Py.slice_from (Py.find line sub + Z.of_nat (String.length sub)) line = rest.
Proof.
  intros H. rewrite (find_first_occurrence _ _ _ _ H). destruct H as [-> _].
  unfold Py.slice_from, Py.slice_index.
  rewrite !length_app.
  destruct (Z.ltb_spec (Z.of_nat (String.length pre) + Z.of_nat (String.length sub)) 0);
    [lia|].
  rewrite Z.min_l by lia.
  replace (Z.to_nat (Z.of_nat (String.length pre) + Z.of_nat (String.length sub)))
    with (String.length (pre +:+ sub)) by (rewrite length_app; lia).
  replace (pre +:+ sub +:+ rest) with ((pre +:+ sub) +:+ rest).
  - apply drop_app.
  - clear. induction pre as [|c pre IH]; [reflexivity|].
    change (String c ((pre +:+ sub) +:+ rest) = String c (pre +:+ sub +:+ rest)).
    f_equal. exact IH.
Qed.

Lemma find_from_found (sub s : string) :
  forall i,
    Py.find_from i sub s <> -1 ->
    exists pre rest,
      s = pre +:+ sub +:+ rest
      /\ Py.find_from i sub s = i + Z.of_nat (String.length pre)
      /\ forall p r, s = p +:+ sub +:+ r -> (String.length pre <= String.length p)%nat.
Proof.
  induction s as [|c s IH]; intros i; rewrite find_from_eq.
  - destruct (String.prefix sub "") eqn:Ep; [|congruence].
    intros _. apply prefix_app in Ep as [r Hr].
    exists EmptyString, r. repeat split; [exact Hr | simpl; lia | simpl; lia].
  - destruct (String.prefix sub (String c s)) eqn:Ep.
    + intros _. apply prefix_app in Ep as [r Hr].
      exists EmptyString, r. repeat split; [exact Hr | simpl; lia | simpl; lia].
    + intros Hne. destruct (IH (i + 1) Hne) as (pre & rest & Hs & Hk & Hmin).
      exists (String c pre), rest. repeat split.
      * rewrite Hs at 1. reflexivity.
      * rewrite Hk. simpl String.length. lia.
      * intros p r Hpr. destruct p as [|d p].
        -- change (String c s = sub +:+ r) in Hpr.
           rewrite Hpr, app_prefix in Ep. discriminate.
        -- change (String c s = String d (p +:+ sub +:+ r)) in Hpr.
           injection Hpr as _ Hpr. specialize (Hmin p r Hpr). simpl. lia.
Qed.

(** Where [find] finds [sub], the first occurrence of [sub] is. *)
Lemma first_occurrence_at_find (sub line : string) :
  Py.find line sub <> -1 ->
  first_occurrence sub
    (Py.take (Z.to_nat (Py.find line sub)) line) line
    (Py.drop (Z.to_nat (Py.find line sub) + String.length sub) line).
Proof.
  unfold Py.find. intros Hne.
  destruct (find_from_found sub line 0 Hne) as (pre & rest & Hs & Hk & Hmin).
  rewrite Hk. replace (Z.to_nat (0 + Z.of_nat (String.length pre)))
    with (String.length pre) by lia.
  assert (Hassoc : pre +:+ sub +:+ rest = (pre +:+ sub) +:+ rest).
  { clear. induction pre as [|c pre IH]; [reflexivity|].
    change (String c (pre +:+ sub +:+ rest) = String c ((pre +:+ sub) +:+ rest)).
    f_equal. exact IH. }
  clear Hk Hne. subst line. rewrite take_app. split.
  - rewrite Hassoc at 2. rewrite <- length_app, drop_app. reflexivity.
  - exact Hmin.
Qed.

(* ===================================================================== *)
(** * What a cycle never changes *)
(* ===================================================================== *)

Lemma same_binding_refl (r : Reader) : same_binding r r.
Proof. unfold same_binding. auto 10. Qed.

Lemma same_binding_trans (a b c : Reader) :
  same_binding a b -> same_binding b c -> same_binding a c.
Proof. unfold same_binding. intuition congruence. Qed.

(** Everything a cycle does after it has stamped the time keeps the
    binding of the reader; so does [close]. *)
Lemma gather_sample_keeps_binding (f : handle) : keeps same_binding (gather_sample f).
Proof.
  unfold gather_sample, stat_gather_sample, status_gather_sample,
    io_gather_sample, io_line, calculate_time_cs, calculate_time_ms,
    calculate_time, get_uptime_ms, print_sample.
  cbv zeta.
  frame same_binding_refl same_binding_trans.
Qed.

Lemma close_keeps_binding : keeps same_binding close.
Proof.
  unfold close.
  frame same_binding_refl same_binding_trans.
Qed.

(** A cycle stamps the reading of the clock on the reader, failed or
    not, returning or raising, and keeps the rest of its binding. *)
Lemma run_single_cycle_stamps (r : Reader) (w : World) :
  same_binding (with_timestamp (Some (cycle_time w)) r)
    (fst (snd (run_single_cycle (r, w)))).
Proof.
  unfold run_single_cycle.
  match goal with
  | |- context [world Sys.time ≫= ?k] =>
      change ((world Sys.time ≫= k) (r, w))
        with (k (cycle_time w) (r, ticked w))
  end.
  cbv beta.
  match goal with
  | |- context [update ?f ≫= ?k] =>
      change ((update f ≫= k) (r, ticked w)) with (k tt (f r, ticked w))
  end.
  cbv beta.
  match goal with
  | |- same_binding ?r1 (fst (snd (?m (?r1, ?w1)))) =>
      cut (keeps same_binding m); [intros H; apply H|]
  end.
  frame same_binding_refl same_binding_trans.
  intros e h He. destruct e; try discriminate He. injection He as <-.
  frame same_binding_refl same_binding_trans.
Qed.

Lemma run_readers_length (method : M RSt unit) (gathers : list Reader) :
  forall w, length (fst (snd (run_readers method gathers w))) = length gathers.
Proof.
  induction gathers as [|r rest IH]; intros w; simpl; [reflexivity|].
  destruct (method (r, w)) as [[[]|e] [r' w']]; simpl; [|reflexivity].
  specialize (IH w').
  destruct (run_readers method rest w') as [res [rest' w'']]. simpl in *.
  congruence.
Qed.

Lemma same_reader_refl (r : Reader) : same_reader r r.
Proof. unfold same_reader. auto 10. Qed.

Lemma run_single_cycle_keeps : keeps same_reader run_single_cycle.
Proof.
  intros r w. destruct (run_single_cycle_stamps r w) as (H1 & H2 & H3 & H4 & H5 & _).
  unfold same_reader. simpl in *. auto 10.
Qed.

(** The loop over the readers relates each reader to itself. *)
Lemma run_readers_keeps (R : Reader -> Reader -> Prop) (method : M RSt unit) :
  (forall r, R r r) ->
  keeps R method ->
  forall gathers w, Forall2 R gathers (fst (snd (run_readers method gathers w))).
Proof.
  intros Hrefl Hm. induction gathers as [|r rest IH]; intros w; simpl.
  - constructor.
  - specialize (Hm r w).
    destruct (method (r, w)) as [[[]|e] [r' w']]; simpl in *.
    + specialize (IH w').
      destruct (run_readers method rest w') as [res [rest' w'']]; simpl in *.
      constructor; assumption.
    + constructor; [assumption|]. clear -Hrefl. induction rest; constructor; auto.
Qed.

Lemma same_but_boot_time_refl (r : Reader) : same_but_boot_time r r.
Proof. exists (_boot_time_ms r). destruct r; reflexivity. Qed.

Lemma same_but_boot_time_trans (a b c : Reader) :
  same_but_boot_time a b -> same_but_boot_time b c -> same_but_boot_time a c.
Proof. intros [x ->] [y ->]. exists y. reflexivity. Qed.

(** [__get_uptime_ms] touches the boot time of the reader and nothing
    else of it. *)
Lemma get_uptime_ms_frame : keeps same_but_boot_time get_uptime_ms.
Proof.
  unfold get_uptime_ms.
  frame same_but_boot_time_refl same_but_boot_time_trans.
  apply keeps_update. intros o. eexists. reflexivity.
Qed.

(* ===================================================================== *)
(** * The cycle of a reader *)
(* ===================================================================== *)

(** A failed reader only stamps the time of the call. *)
Lemma run_single_cycle_failed (r : Reader) (w : World) :
  _failed r = true ->
  run_single_cycle (r, w)
  = (Ok tt, (with_timestamp (Some (cycle_time w)) r, ticked w)).
Proof.
  intros Hf. unfold run_single_cycle, Sys.time. unfold_monad. simpl.
  rewrite Hf. reflexivity.
Qed.

Lemma run_cycles_failed (platforms : list Platform) :
  forall (r : Reader) (w : World),
    _failed r = true ->
    _failed (fst (run_cycles platforms (r, w))) = true
    /\ w_log (snd (run_cycles platforms (r, w))) = w_log w
    /\ _file (fst (run_cycles platforms (r, w))) = _file r.
Proof.
  induction platforms as [|os rest IH]; intros r w Hf; [auto|].
  unfold run_cycles in *. simpl.
  rewrite run_single_cycle_failed by assumption. simpl.
  destruct (IH (with_timestamp (Some (cycle_time (with_os os w))) r)
               (ticked (with_os os w)) Hf) as (H1 & H2 & H3).
  auto.
Qed.

(** What [close] leaves behind. *)
Lemma close_outcome (r : Reader) (w : World) :
  close (r, w)
  = match _file r with
    | None => (Ok tt, (with_file None (with_failed false (with_failed true r)), w))
    | Some f =>
        match os_close (w_os w) f with
        | Ok _ =>
            (Ok tt, (with_file None (with_failed false (with_failed true r)),
                     logged [EvClose f] w))
        | Raise e =>
            (Raise e, (with_file None (with_failed true r), logged [EvClose f] w))
        end
    end.
Proof.
  unfold close, Sys.close, Sys.ask, Sys.log. unfold_monad. simpl.
  destruct (_file r) as [f|]; simpl; [|reflexivity].
  destruct (os_close (w_os w) f); reflexivity.
Qed.

(** C2, as amended: a reader whose failed flag is true keeps it true
    through every sequence of [run_single_cycle] calls, whatever the
    platform does in between; [close] always clears the handle, and
    resets the flag to false whenever it returns normally (the flag is
    left true only when closing the handle raises). *)
Theorem failed_kept_by_cycles_reset_by_close
    (platforms : list Platform) (os : Platform) (r : Reader) (w : World) :
  _failed r = true ->
  let s := run_cycles platforms (r, w) in
  let out := close (fst s, with_os os (snd s)) in
  _failed (fst s) = true
  /\ _file (fst (snd out)) = None
  /\ _failed (fst (snd out))
     = match fst out with Ok _ => false | Raise _ => true end.
Proof.
  intros Hf s out.
  destruct (run_cycles_failed platforms r w Hf) as (H1 & _ & _).
  split; [exact H1|].
  subst out. rewrite close_outcome.
  destruct (_file (fst s)) as [f|]; simpl.
  - destruct (os_close os f); simpl; auto.
  - auto.
Qed.

Lemma failed_kept_by_cycles_reset_by_close_witness :
  _failed (fst (run_cycles [Scenario.platform; Scenario.platform] denied_reader)) = true
  /\ _failed (fst (snd (close (fst (run_cycles [Scenario.platform; Scenario.platform]
                                      denied_reader),
                               with_os Scenario.platform
                                 (snd (run_cycles [Scenario.platform; Scenario.platform]
                                         denied_reader))))))
     = false.
Proof.
  pose proof (failed_kept_by_cycles_reset_by_close
                [Scenario.platform; Scenario.platform] Scenario.platform
                (fst denied_reader) (snd denied_reader) eq_refl) as H.
  cbv zeta in H. destruct H as (H1 & _ & H3).
  change (fst denied_reader, snd denied_reader) with denied_reader in *.
  split; [exact H1 | exact H3].
Defined.

(** C2, as stated, fails: the reader of process 1 fails on its first
    cycle (permission denied), and a call of [close] makes its failed
    flag false again although it is the same reader, bound to the same
    process id. *)
Lemma close_resets_failed :
  _failed (fst denied_reader) = true
  /\ _failed (fst (run_calls [(CallClose, Scenario.platform)] denied_reader)) = false
  /\ _pid (fst (run_calls [(CallClose, Scenario.platform)] denied_reader)) = 1.
Proof. repeat split. Qed.

(** C5: on a reader whose failed flag is true, every later call of
    [run_single_cycle] returns normally, adds no event to the log (no
    file is opened, sought, read or closed, no error is reported and no
    metric is emitted) and leaves the flag true, however often it is
    repeated and whatever the platform would answer. *)
Theorem failed_reader_is_idle
    (platforms : list Platform) (os : Platform) (r : Reader) (w : World) :
  _failed r = true ->
  let s := run_cycles platforms (r, w) in
  let out := run_single_cycle (fst s, with_os os (snd s)) in
  fst out = Ok tt
  /\ w_log (snd (snd out)) = w_log w
  /\ _failed (fst (snd out)) = true.
Proof.
  intros Hf s out.
  destruct (run_cycles_failed platforms r w Hf) as (H1 & H2 & _).
  subst out. rewrite run_single_cycle_failed by exact H1.
  simpl. auto.
Qed.

Lemma failed_reader_is_idle_witness :
  fst (run_single_cycle
         (fst (run_cycles [Scenario.platform] denied_reader),
          with_os Scenario.platform (snd (run_cycles [Scenario.platform] denied_reader))))
  = Ok tt
  /\ w_log (snd (snd (run_single_cycle
         (fst (run_cycles [Scenario.platform] denied_reader),
          with_os Scenario.platform (snd (run_cycles [Scenario.platform] denied_reader))))))
     = w_log (snd denied_reader).
Proof.
  pose proof (failed_reader_is_idle [Scenario.platform] Scenario.platform
                (fst denied_reader) (snd denied_reader) eq_refl) as H.
  cbv zeta in H. destruct H as (H1 & H2 & _).
  change (fst denied_reader, snd denied_reader) with denied_reader in *.
  split; [exact H1 | exact H2].
Defined.

(** C9: every call of [run_single_cycle] overwrites the time of the last
    collection with the reading of the clock, whether the reader has
    failed or not; on a reader whose failed flag is true the call
    returns normally and changes nothing else: the flag, the handle, the
    process id, the monitor id and the path pattern are as before, and
    the log of events is as before, so no metric is emitted. *)
Theorem failed_cycle_frame (r r' : Reader) (w w' : World) (res : result unit) :
  run_single_cycle (r, w) = (res, (r', w')) ->
  _timestamp r' = Some (cycle_time w)
  /\ (_failed r = true ->
      res = Ok tt
      /\ r' = with_timestamp (Some (cycle_time w)) r
      /\ _failed r' = true
      /\ _file r' = _file r
      /\ _pid r' = _pid r
      /\ _id r' = _id r
      /\ _file_pattern r' = _file_pattern r
      /\ w_log w' = w_log w).
Proof.
  intros Hrun. split.
  - pose proof (run_single_cycle_stamps r w) as H. rewrite Hrun in H.
    destruct H as (_ & _ & _ & _ & _ & H). exact H.
  - intros Hf. rewrite run_single_cycle_failed in Hrun by assumption.
    injection Hrun as <- <- <-. simpl. auto 10.
Qed.

Lemma failed_cycle_frame_witness :
  _timestamp (fst (snd (run_single_cycle denied_reader))) = Some 1001
  /\ _failed (fst (snd (run_single_cycle denied_reader))) = true
  /\ w_log (snd (snd (run_single_cycle denied_reader))) = w_log (snd denied_reader).
Proof.
  pose proof (failed_cycle_frame (fst denied_reader)
                (fst (snd (run_single_cycle denied_reader)))
                (snd denied_reader)
                (snd (snd (run_single_cycle denied_reader)))
                (fst (run_single_cycle denied_reader)) eq_refl) as [H1 H2].
  destruct (H2 eq_refl) as (_ & _ & H4 & _ & _ & _ & _ & H9).
  split; [exact H1 | split; [exact H4 | exact H9]].
Defined.

(** C4: on a reader that has not failed and holds no handle, a cycle
    whose open call fails with errno 13 or errno 2 returns normally with
    the failed flag set, having logged the attempt to open and exactly
    one error message and nothing else; a cycle whose open call raises
    anything else raises the same exception, with the failed flag still
    false. *)
Theorem open_failure_classified
    (r : Reader) (w : World) (filename : string) (e : exn) :
  _failed r = false ->
  _file r = None ->
  format (_file_pattern r) (_pid r) = Ok filename ->
  os_open (w_os w) filename = Raise e ->
  (e = IOError 13 ->
     run_single_cycle (r, w)
     = (Ok tt, disabled_by filename (permission_message filename) r w))
  /\ (e = IOError 2 ->
        run_single_cycle (r, w)
        = (Ok tt, disabled_by filename (unsupported_message filename) r w))
  /\ (e <> IOError 13 -> e <> IOError 2 ->
        run_single_cycle (r, w)
        = (Raise e, (with_timestamp (Some (cycle_time w)) r,
                     logged [EvOpen filename] (ticked w)))
        /\ _failed (fst (snd (run_single_cycle (r, w)))) = false).
Proof.
  intros Hf Hfile Hfmt Hopen.
  assert (Hrun : run_single_cycle (r, w)
    = match e with
      | IOError errno =>
          if errno =? 13 then
            (Ok tt, disabled_by filename (permission_message filename) r w)
          else if errno =? 2 then
            (Ok tt, disabled_by filename (unsupported_message filename) r w)
          else (Raise e, (with_timestamp (Some (cycle_time w)) r,
                          logged [EvOpen filename] (ticked w)))
      | _ => (Raise e, (with_timestamp (Some (cycle_time w)) r,
                        logged [EvOpen filename] (ticked w)))
      end).
  { unfold run_single_cycle, Sys.time, Sys.open, Sys.ask, Sys.log,
      Sys.logger_error. unfold_monad. simpl.
    rewrite Hf, Hfmt, Hfile. simpl. rewrite Hopen.
    destruct e as [errno| | | | | | | |]; try reflexivity.
    destruct (errno =? 13) eqn:E13; simpl.
    - unfold disabled_by, logged, ticked. simpl. rewrite ?Hfile.
      rewrite <- app_assoc. reflexivity.
    - destruct (errno =? 2) eqn:E2; simpl.
      + unfold disabled_by, logged, ticked. simpl. rewrite ?Hfile.
        rewrite <- app_assoc. reflexivity.
      + rewrite ?Hfile. reflexivity. }
  repeat split.
  - intros ->. exact Hrun.
  - intros ->. exact Hrun.
  - rewrite Hrun. destruct e as [errno| | | | | | | |]; try reflexivity.
    destruct (errno =? 13) eqn:E13; [apply Z.eqb_eq in E13; congruence|].
    destruct (errno =? 2) eqn:E2; [apply Z.eqb_eq in E2; congruence|].
    reflexivity.
  - rewrite Hrun. destruct e as [errno| | | | | | | |]; simpl; try assumption.
    destruct (errno =? 13) eqn:E13; [apply Z.eqb_eq in E13; congruence|].
    destruct (errno =? 2) eqn:E2; [apply Z.eqb_eq in E2; congruence|].
    simpl. assumption.
Qed.

Lemma open_failure_classified_witness :
  run_single_cycle (new_reader BaseReader 1 "init" "/proc/%ld/stat", Scenario.world0)
  = (Ok tt,
     disabled_by "/proc/1/stat" (permission_message "/proc/1/stat")
       (new_reader BaseReader 1 "init" "/proc/%ld/stat") Scenario.world0).
Proof.
  apply (proj1 (open_failure_classified
                  (new_reader BaseReader 1 "init" "/proc/%ld/stat")
                  Scenario.world0 "/proc/1/stat" (IOError 13)
                  eq_refl eq_refl eq_refl eq_refl) eq_refl).
Defined.

(* ===================================================================== *)
(** * The configuration of the monitor *)
(* ===================================================================== *)

(** C3, as stated, fails: a configuration that gives both a process id
    and a command-line pattern is misconfigured in the words of the
    specification, and the monitor is constructed all the same. *)
Lemma both_targets_accepted :
  misconfigured both_targets
  /\ _initialize both_targets
     = Ok {| __pid := None; __gathers := []; __id := "tomcat";
             __commandline_matcher := Some "java.*tomcat";
             __target_pid := Some "42" |}.
Proof.
  split.
  - right. split; eexists; reflexivity.
  - reflexivity.
Qed.

(** C3, as amended: construction raises the configuration error iff the
    monitor id is absent or neither the process id nor the command-line
    pattern is given; a configuration that gives the id and at least one
    of the two targets, both included, yields an unbound monitor that
    holds the targets as strings. *)
Theorem initialize_raises_iff_no_target (config : gmap string json) :
  ((exists e, _initialize config = Raise e)
   <-> (config !! "id" = None
        \/ (config !! "commandline" = None /\ config !! "pid" = None)))
  /\ (forall e, _initialize config = Raise e -> exists field, e = BadMonitorConfiguration field)
  /\ (forall id, config !! "id" = Some id ->
      is_Some (config !! "commandline") \/ is_Some (config !! "pid") ->
      _initialize config
      = Ok {| __pid := None; __gathers := [];
              __id := convert_to_str id;
              __commandline_matcher := convert_to_str <$> config !! "commandline";
              __target_pid := convert_to_str <$> config !! "pid" |}).
Proof.
  unfold _initialize, config_get.
  destruct (config !! "id") as [id|] eqn:Eid;
    destruct (config !! "commandline") as [c|] eqn:Ec;
    destruct (config !! "pid") as [p|] eqn:Ep; simpl.
  all: repeat split.
  all: try (intros [e He]; discriminate He).
  all: try (intros [H | [H1 H2]]; discriminate).
  all: try (intros _; eauto; fail).
  all: try (intros e He; injection He as <-; eauto; fail).
  all: try (intros e He; discriminate He).
  all: try (intros id' Hid _; injection Hid as <-; reflexivity).
  all: try (intros id' Hid; discriminate Hid).
  all: try (intros id' Hid [[x Hx] | [x Hx]]; discriminate).
Qed.

Lemma initialize_raises_iff_no_target_witness :
  _initialize both_targets
  = Ok {| __pid := None; __gathers := [];
          __id := "tomcat";
          __commandline_matcher := Some "java.*tomcat";
          __target_pid := Some "42" |}.
Proof.
  apply (proj2 (proj2 (initialize_raises_iff_no_target both_targets))
           (JStr "tomcat") eq_refl).
  left. eexists. reflexivity.
Defined.

(* ===================================================================== *)
(** * Liveness and selection of the process *)
(* ===================================================================== *)

(** The loop of the cycles over the readers keeps the binding of the
    monitor: the process id, and reader by reader the object that was
    there, with the time of its last collection updated. *)
Lemma each_gather_keeps_binding (m : ProcessMonitor) (w : World) :
  __pid (fst (snd (each_gather run_single_cycle (m, w)))) = __pid m
  /\ Forall2 same_reader (__gathers m)
       (__gathers (fst (snd (each_gather run_single_cycle (m, w))))).
Proof.
  unfold each_gather. simpl.
  pose proof (run_readers_keeps same_reader run_single_cycle
                same_reader_refl run_single_cycle_keeps (__gathers m) w) as Hall.
  destruct (run_readers run_single_cycle (__gathers m) w) as [res [gathers w']].
  simpl in *. auto.
Qed.

Lemma is_running_kill (m : ProcessMonitor) (w : World) (pid : Z) :
  __pid m = Some pid ->
  is_running (m, w)
  = match os_kill (w_os w) pid with
    | Ok _ => (Ok true, (m, logged [EvKill pid] w))
    | Raise (OSError errno) => (Ok (negb (errno =? 3)), (m, logged [EvKill pid] w))
    | Raise e => (Raise e, (m, logged [EvKill pid] w))
    end.
Proof.
  intros Hpid. unfold is_running, Sys.kill, Sys.ask, Sys.log. unfold_monad.
  simpl. rewrite Hpid. simpl.
  destruct (os_kill (w_os w) pid) as [[]|[]]; reflexivity.
Qed.

(** A cycle of a monitor whose process is found running is the loop over
    the readers it has. *)
Lemma gather_sample_of_running (m : ProcessMonitor) (w w' : World) (pid : Z) :
  __pid m = Some pid ->
  is_running (m, w) = (Ok true, (m, w')) ->
  monitor_gather_sample (m, w) = each_gather run_single_cycle (m, w').
Proof.
  intros Hpid Hrun. unfold monitor_gather_sample.
  unfold mbind at 1 2 3 4 5. unfold M_bind, bind, self. simpl.
  rewrite Hpid. unfold mbind at 1. unfold M_bind, bind.
  rewrite Hrun. simpl. rewrite Hpid. reflexivity.
Qed.

(** C6: for a monitor bound to a process id, the liveness check is true
    when the probe succeeds, false when the probe fails with errno 3 (no
    such process) and true when it fails with any other errno,
    permission denied included; in that last case a collection cycle
    goes straight to the loop over the readers it already has, so the
    monitor stays bound to the same process id and holds the same
    readers, one by one: nothing is unbound and nothing is rebound. *)
Theorem is_running_three_outcomes (m : ProcessMonitor) (w : World) (pid : Z) :
  __pid m = Some pid ->
  (os_kill (w_os w) pid = Ok tt ->
     is_running (m, w) = (Ok true, (m, logged [EvKill pid] w)))
  /\ (os_kill (w_os w) pid = Raise (OSError 3) ->
        is_running (m, w) = (Ok false, (m, logged [EvKill pid] w)))
  /\ (forall errno, errno <> 3 ->
        os_kill (w_os w) pid = Raise (OSError errno) ->
        is_running (m, w) = (Ok true, (m, logged [EvKill pid] w))
        /\ monitor_gather_sample (m, w)
           = each_gather run_single_cycle (m, logged [EvKill pid] w)
        /\ __pid (fst (snd (monitor_gather_sample (m, w)))) = Some pid
        /\ Forall2 same_reader (__gathers m)
             (__gathers (fst (snd (monitor_gather_sample (m, w)))))).
Proof.
  intros Hpid. split; [|split].
  - intros Hk. rewrite (is_running_kill m w pid Hpid), Hk. reflexivity.
  - intros Hk. rewrite (is_running_kill m w pid Hpid), Hk. reflexivity.
  - intros errno Hne Hk.
    assert (Hrun : is_running (m, w) = (Ok true, (m, logged [EvKill pid] w))).
    { rewrite (is_running_kill m w pid Hpid), Hk.
      replace (errno =? 3) with false by (symmetry; apply Z.eqb_neq; assumption).
      reflexivity. }
    pose proof (gather_sample_of_running m w _ pid Hpid Hrun) as Hg.
    split; [exact Hrun|]. split; [exact Hg|]. rewrite Hg.
    destruct (each_gather_keeps_binding m (logged [EvKill pid] w)) as [H1 H2].
    split; [congruence | exact H2].
Qed.

Lemma is_running_three_outcomes_witness :
  is_running (bound_to_init, Scenario.world0)
  = (Ok true, (bound_to_init, logged [EvKill 1] Scenario.world0))
  /\ __pid (fst (snd (monitor_gather_sample (bound_to_init, Scenario.world0)))) = Some 1.
Proof.
  destruct (proj2 (proj2 (is_running_three_outcomes bound_to_init Scenario.world0 1 eq_refl))
              1 ltac:(lia) eq_refl) as (H1 & _ & H3 & _).
  split; [exact H1 | exact H3].
Defined.

Lemma select_process_kill (m : ProcessMonitor) (w : World) (target : string) (pid : Z) :
  __commandline_matcher m = None ->
  __target_pid m = Some target ->
  resolve_target target w = Some pid ->
  select_process (m, w)
  = match os_kill (w_os w) pid with
    | Ok _ => (Ok (Some pid), (m, logged [EvKill pid] w))
    | Raise (OSError _) => (Ok None, (m, logged [EvKill pid] w))
    | Raise e => (Raise e, (m, logged [EvKill pid] w))
    end.
Proof.
  intros Hc Ht Hr. unfold select_process, resolve_target in *.
  unfold Sys.kill, Sys.getpid, Sys.ask, Sys.log. unfold_monad. simpl.
  rewrite Hc, Ht.
  destruct (String.eqb target "$$").
  - injection Hr as <-. simpl.
    destruct (os_kill (w_os w) (os_getpid (w_os w))) as [[]|[]]; reflexivity.
  - rewrite Hr. simpl.
    destruct (os_kill (w_os w) pid) as [[]|[]]; reflexivity.
Qed.

(** C7: in explicit-id mode (no command-line pattern), with a target
    that denotes the process id [pid], selection probes [pid] once and
    returns it iff the probe raises nothing; whenever the probe fails
    with an [OSError], whatever its errno, selection returns none and
    does not raise; and the sentinel [$$] denotes the process id of the
    agent as the platform gives it at the time of the call. *)
Theorem select_process_explicit
    (m : ProcessMonitor) (w : World) (target : string) (pid : Z) :
  __commandline_matcher m = None ->
  __target_pid m = Some target ->
  resolve_target target w = Some pid ->
  (fst (select_process (m, w)) = Ok (Some pid) <-> os_kill (w_os w) pid = Ok tt)
  /\ (forall errno, os_kill (w_os w) pid = Raise (OSError errno) ->
        select_process (m, w) = (Ok None, (m, logged [EvKill pid] w)))
  /\ snd (select_process (m, w)) = (m, logged [EvKill pid] w)
  /\ (target = "$$" -> pid = os_getpid (w_os w)).
Proof.
  intros Hc Ht Hr.
  rewrite (select_process_kill m w target pid Hc Ht Hr).
  split; [|split; [|split]].
  - destruct (os_kill (w_os w) pid) as [[]|[]]; simpl; split;
      intros; try reflexivity; discriminate.
  - intros errno ->. reflexivity.
  - destruct (os_kill (w_os w) pid) as [[]|[]]; reflexivity.
  - intros ->. unfold resolve_target in Hr. simpl in Hr. congruence.
Qed.

Lemma select_process_explicit_witness :
  fst (select_process (monitor_of "$$", Scenario.world0)) = Ok (Some 42)
  /\ select_process (monitor_of "1", Scenario.world0)
     = (Ok None, (monitor_of "1", logged [EvKill 1] Scenario.world0)).
Proof.
  split.
  - apply (proj1 (select_process_explicit (monitor_of "$$") Scenario.world0 "$$" 42
                    eq_refl eq_refl eq_refl)).
    reflexivity.
  - apply (proj1 (proj2 (select_process_explicit (monitor_of "1") Scenario.world0 "1" 1
                           eq_refl eq_refl eq_refl)) 1).
    reflexivity.
Defined.

(* ===================================================================== *)
(** * The io parser *)
(* ===================================================================== *)

Lemma io_line_run (line : string) (r : Reader) (w : World) :
  io_line_ok line ->
  io_line line (r, w)
  = (Ok tt, (r, logged (option_list (io_sample (_id r) line)) w)).
Proof.
  unfold io_line_ok, io_line, io_sample, io_key, print_sample, Sys.emit_value, Sys.log.
  unfold_monad.
  destruct (Py.split line) as [|key rest]; [contradiction|]. simpl.
  intros [Hkey | (v & rest' & -> & [n Hn])].
  - destruct (String.eqb key "rchar:"); [discriminate|].
    destruct (String.eqb key "syscr:"); [discriminate|].
    destruct (String.eqb key "wchar:"); [discriminate|].
    destruct (String.eqb key "syscw:"); [discriminate|].
    destruct rest as [|v rest']; simpl; rewrite logged_nil; reflexivity.
  - simpl. rewrite Hn. simpl.
    destruct (String.eqb key "rchar:"); [reflexivity|].
    destruct (String.eqb key "syscr:"); [reflexivity|].
    destruct (String.eqb key "wchar:"); [reflexivity|].
    destruct (String.eqb key "syscw:"); [reflexivity|].
    simpl. rewrite logged_nil. reflexivity.
Qed.

Lemma io_lines_run (all_lines : list string) :
  forall (r : Reader) (w : World),
    Forall io_line_ok all_lines ->
    for_each all_lines io_line (r, w)
    = (Ok tt, (r, logged (omap (io_sample (_id r)) all_lines) w)).
Proof.
  induction all_lines as [|line rest IH]; intros r w Hok; simpl.
  - rewrite logged_nil. reflexivity.
  - inversion Hok as [|? ? Hline Hrest]; subst.
    unfold bind. rewrite (io_line_run line r w Hline).
    rewrite (IH r _ Hrest), logged_logged.
    destruct (io_sample (_id r) line); reflexivity.
Qed.

Lemma io_line_blank (line : string) (r : Reader) (w : World) :
  all_space line = true ->
  io_line line (r, w) = (Raise IndexError, (r, w)).
Proof.
  intros Hb. apply split_head_none in Hb.
  unfold io_line. unfold_monad. simpl in *. rewrite Hb. reflexivity.
Qed.

Lemma io_lines_blank (good : list string) (blank : string) (rest : list string) :
  forall (r : Reader) (w : World),
    Forall io_line_ok good ->
    all_space blank = true ->
    for_each (good ++ blank :: rest) io_line (r, w)
    = (Raise IndexError, (r, logged (omap (io_sample (_id r)) good) w)).
Proof.
  induction good as [|line good IH]; intros r w Hok Hb; simpl.
  - unfold bind. rewrite (io_line_blank blank r w Hb), logged_nil. reflexivity.
  - inversion Hok as [|? ? Hline Hgood]; subst.
    unfold bind. rewrite (io_line_run line r w Hline).
    rewrite (IH r _ Hgood Hb), logged_logged.
    destruct (io_sample (_id r) line); reflexivity.
Qed.

(** One metric for each selected line. *)
Lemma io_samples_count (id : string) (all_lines : list string) :
  Forall io_line_ok all_lines ->
  length (omap (io_sample id) all_lines)
  = length (filter (fun line => io_selected line = true) all_lines).
Proof.
  induction 1 as [|line rest Hline Hrest IH]; [reflexivity|].
  simpl. rewrite filter_cons.
  unfold io_line_ok, io_sample, io_selected in *.
  destruct (Py.split line) as [|key fields]; [contradiction|].
  destruct Hline as [Hkey | (v & rest' & -> & [n Hn])].
  - rewrite Hkey. rewrite decide_False.
    + destruct fields; exact IH.
    + rewrite bool_decide_eq_true. intros [x Hx]. discriminate.
  - rewrite Hn. destruct (io_key key) as [[metric_name type_value]|] eqn:Ek.
    + rewrite decide_True; [simpl; f_equal; exact IH|].
      rewrite bool_decide_eq_true. eauto.
    + rewrite decide_False; [exact IH|].
      rewrite bool_decide_eq_true. intros [x Hx]. discriminate.
Qed.

Lemma io_gather_sample_read (stat_file : handle) (text : string) (r : Reader) (w : World) :
  os_read (w_os w) stat_file = Ok text ->
  io_gather_sample stat_file (r, w)
  = for_each (Py.lines text) io_line (r, logged [EvRead stat_file] w).
Proof.
  intros Hread. unfold io_gather_sample, Sys.readlines, Sys.read, Sys.ask, Sys.log.
  unfold_monad. simpl. rewrite Hread. reflexivity.
Qed.

(** C10, as amended: [fields[0]] is in range on every line that has a
    token.  On a text in which every line has a token and every line
    that starts with one of the four keys goes on with an integer, the
    parser returns normally, having read the file once and emitted one
    metric per line that starts with one of the four keys, in the order
    of the lines.  On a text whose first line without a token comes after
    such lines only, the parser raises [IndexError] at that line, after
    the metrics of the lines before it. *)
Theorem io_parser_bounds (stat_file : handle) (text : string) (r : Reader) (w : World) :
  os_read (w_os w) stat_file = Ok text ->
  (Forall (fun line => all_space line = false) (Py.lines text) ->
   Forall (fun line => is_Some (Py.split line !! 0%nat)) (Py.lines text))
  /\ (Forall io_line_ok (Py.lines text) ->
      io_gather_sample stat_file (r, w)
      = (Ok tt, (r, logged (EvRead stat_file :: omap (io_sample (_id r)) (Py.lines text)) w))
      /\ length (omap (io_sample (_id r)) (Py.lines text))
         = length (filter (fun line => io_selected line = true) (Py.lines text)))
  /\ (forall good blank rest,
        Py.lines text = good ++ blank :: rest ->
        Forall io_line_ok good ->
        all_space blank = true ->
        io_gather_sample stat_file (r, w)
        = (Raise IndexError,
           (r, logged (EvRead stat_file :: omap (io_sample (_id r)) good) w))).
Proof.
  intros Hread. split; [|split].
  - intros Hall. eapply Forall_impl; [exact Hall|]. intros line Hline. simpl in *.
    destruct (Py.split line !! 0%nat) eqn:E; [eauto|].
    apply split_head_none in E. congruence.
  - intros Hok. split.
    + rewrite (io_gather_sample_read _ _ _ _ Hread).
      rewrite (io_lines_run _ _ _ Hok), logged_logged. reflexivity.
    + apply io_samples_count. exact Hok.
  - intros good blank rest Hlines Hgood Hblank.
    rewrite (io_gather_sample_read _ _ _ _ Hread), Hlines.
    rewrite (io_lines_blank _ _ _ _ _ Hgood Hblank), logged_logged. reflexivity.
Qed.

Lemma io_line_okb_ok (all_lines : list string) :
  forallb io_line_okb all_lines = true -> Forall io_line_ok all_lines.
Proof.
  induction all_lines as [|line rest IH]; simpl; [constructor|].
  intros H. apply andb_prop in H as [Hline Hrest].
  constructor; [|auto].
  unfold io_line_okb, io_line_ok in *.
  destruct (Py.split line) as [|key fields]; [discriminate|].
  destruct (io_key key); [|auto].
  destruct fields as [|v fields']; [discriminate|].
  apply bool_decide_eq_true in Hline. eauto.
Qed.

Lemma io_parser_bounds_witness :
  io_gather_sample 3%nat (io_reader, Scenario.world0)
  = (Ok tt,
     (io_reader,
      logged (EvRead 3%nat :: omap (io_sample "tomcat") (Py.lines Scenario.io_text))
        Scenario.world0))
  /\ io_gather_sample 5%nat (io_reader, Scenario.world0)
     = (Raise IndexError,
        (io_reader,
         logged (EvRead 5%nat :: omap (io_sample "tomcat") ["rchar: 500
"])
           Scenario.world0)).
Proof.
  split.
  - apply (proj1 (proj2 (io_parser_bounds 3%nat Scenario.io_text io_reader
                           Scenario.world0 eq_refl))).
    apply io_line_okb_ok. vm_compute. reflexivity.
  - apply (proj2 (proj2 (io_parser_bounds 5%nat Scenario.gap_io_text io_reader
                           Scenario.world0 eq_refl))
             ["rchar: 500
"] "
" ["syscr: 2
"]).
    + vm_compute. reflexivity.
    + apply io_line_okb_ok. vm_compute. reflexivity.
    + reflexivity.
Defined.

(** The metrics of the scenario of the specification: the text
    [rchar: 500], [syscr: 2], [wchar: 100], [syscw: 1]. *)
Example io_scenario :
  omap (io_sample "tomcat") (Py.lines Scenario.io_text)
  = [EvEmit "app.disk.bytes" (VInt 500) {[ "type" := "read"; "app" := "tomcat" ]};
     EvEmit "app.disk.requests" (VInt 2) {[ "type" := "read"; "app" := "tomcat" ]};
     EvEmit "app.disk.bytes" (VInt 100) {[ "type" := "write"; "app" := "tomcat" ]};
     EvEmit "app.disk.requests" (VInt 1) {[ "type" := "write"; "app" := "tomcat" ]}].
Proof. vm_compute. reflexivity. Qed.

(** C10, as stated, fails: every line of the text [rchar:] has a token,
    and the parser still indexes out of range, at [fields[1]], and emits
    no metric for the line although its first token is one of the four
    keys. *)
Lemma io_key_without_value :
  os_read (w_os Scenario.world0) 4%nat = Ok Scenario.cut_io_text
  /\ Forall (fun line => all_space line = false) (Py.lines Scenario.cut_io_text)
  /\ Forall (fun line => io_selected line = true) (Py.lines Scenario.cut_io_text)
  /\ io_gather_sample 4%nat (io_reader, Scenario.world0)
     = (Raise IndexError, (io_reader, logged [EvRead 4%nat] Scenario.world0)).
Proof.
  split; [reflexivity|]. split; [|split].
  - vm_compute. repeat constructor.
  - vm_compute. repeat constructor.
  - vm_compute. reflexivity.
Qed.

(* ===================================================================== *)
(** * The stat parser *)
(* ===================================================================== *)

(** C8: on a stat record whose first line is [pre ++ ") " ++ rest] with
    no earlier occurrence of [") "], the parser works on the blank
    separated fields of [rest] alone.  When the fields 11, 12, 17 and 19
    are integer literals, field 16 is a float literal, the three tick
    counts convert and the uptime of the system is available, it emits,
    in this order: the centiseconds of the ticks of field 11 as the user
    CPU time, the centiseconds of the ticks of field 12 as the system
    CPU time, the uptime of the process, which is the uptime of the
    system minus the milliseconds of the start-time ticks of field 19,
    the nice value as the float of field 16 and the thread count as the
    integer of field 17. *)
Theorem stat_parser_fields
    (stat_file : handle) (text line pre rest : string)
    (f11 f12 f16 f17 f19 : string)
    (utime stime threads starttime : Z) (nice : PyFloat.float)
    (user_cs system_cs start_ms up : Z)
    (r r' : Reader) (w w' : World) :
  os_read (w_os w) stat_file = Ok text ->
  Py.lines text !! 0%nat = Some line ->
  first_occurrence ") " pre line rest ->
  Py.split rest !! 11%nat = Some f11 -> Py.int f11 = Some utime ->
  Py.split rest !! 12%nat = Some f12 -> Py.int f12 = Some stime ->
  Py.split rest !! 16%nat = Some f16 -> PyFloat.of_string f16 = Some nice ->
  Py.split rest !! 17%nat = Some f17 -> Py.int f17 = Some threads ->
  Py.split rest !! 19%nat = Some f19 -> Py.int f19 = Some starttime ->
  conversion (PyFloat.literal 100) utime (_jiffies_per_sec r) = Ok user_cs ->
  conversion (PyFloat.literal 100) stime (_jiffies_per_sec r) = Ok system_cs ->
  conversion (PyFloat.literal 1000) starttime (_jiffies_per_sec r) = Ok start_ms ->
  get_uptime_ms
    (r, logged [EvRead stat_file;
                sample (_id r) "app.cpu" (VInt user_cs) (Some "user");
                sample (_id r) "app.cpu" (VInt system_cs) (Some "system")] w)
  = (Ok up, (r', w')) ->
  stat_gather_sample stat_file (r, w)
  = (Ok tt,
     (r', logged [sample (_id r) "app.uptime" (VInt (up - start_ms)) None;
                  sample (_id r) "app.nice" (VFloat nice) None;
                  sample (_id r) "app.threads" (VInt threads) None] w')).
Proof.
  intros Hread Hline Hfirst H11 I11 H12 I12 H16 I16 H17 I17 H19 I19 Cu Cs Ct Hup.
  pose proof (get_uptime_ms_frame r
                (logged [EvRead stat_file;
                         sample (_id r) "app.cpu" (VInt user_cs) (Some "user");
                         sample (_id r) "app.cpu" (VInt system_cs) (Some "system")] w))
    as [b Hr'].
  rewrite Hup in Hr'. simpl in Hr'.
  assert (Hid : _id r' = _id r) by (rewrite Hr'; reflexivity).
  assert (Hhz : _jiffies_per_sec r' = _jiffies_per_sec r) by (rewrite Hr'; reflexivity).
  unfold stat_gather_sample, calculate_time_cs, calculate_time_ms.
  rewrite (bind_ok _ _ _ _ _ (readlines_ok _ _ _ _ Hread)).
  rewrite (bind_ok _ _ _ _ _ (index_ok _ _ _ _ Hline)).
  cbv zeta.
  change 2 with (Z.of_nat (String.length ") ")).
  rewrite (slice_after_first_occurrence _ _ _ _ Hfirst).
  (* user CPU time *)
  rewrite (bind_ok _ _ _ _ _ (index_ok _ _ _ _ H11)).
  rewrite (bind_ok _ _ _ _ _ (or_raise_ok _ _ _ _ I11)).
  rewrite (bind_ok _ _ _ _ _ (calculate_time_ok _ _ _ _ _ Cu)).
  rewrite (bind_ok _ _ _ _ _ (print_sample_ok _ _ _ _ _)).
  (* system CPU time *)
  rewrite (bind_ok _ _ _ _ _ (index_ok _ _ _ _ H12)).
  rewrite (bind_ok _ _ _ _ _ (or_raise_ok _ _ _ _ I12)).
  rewrite (bind_ok _ _ _ _ _ (calculate_time_ok _ _ _ _ _ Cs)).
  rewrite (bind_ok _ _ _ _ _ (print_sample_ok _ _ _ _ _)).
  rewrite !logged_logged. simpl app.
  (* uptime *)
  rewrite (bind_ok _ _ _ _ _ Hup).
  rewrite (bind_ok _ _ _ _ _ (index_ok _ _ _ _ H19)).
  rewrite (bind_ok _ _ _ _ _ (or_raise_ok _ _ _ _ I19)).
  rewrite <- Hhz in Ct.
  rewrite (bind_ok _ _ _ _ _ (calculate_time_ok _ _ _ _ _ Ct)).
  rewrite (bind_ok _ _ _ _ _ (print_sample_ok _ _ _ _ _)).
  (* nice and threads *)
  rewrite (bind_ok _ _ _ _ _ (index_ok _ _ _ _ H16)).
  rewrite (bind_ok _ _ _ _ _ (or_raise_ok _ _ _ _ I16)).
  rewrite (bind_ok _ _ _ _ _ (print_sample_ok _ _ _ _ _)).
  rewrite (bind_ok _ _ _ _ _ (index_ok _ _ _ _ H17)).
  rewrite (bind_ok _ _ _ _ _ (or_raise_ok _ _ _ _ I17)).
  rewrite print_sample_ok.
  rewrite !logged_logged, Hid. reflexivity.
Qed.

Lemma stat_parser_fields_witness :
  stat_gather_sample 1%nat (Scenario.stat_reader 100, Scenario.world0)
  = (Ok tt,
     (with_boot_time_ms (Some 649750) (Scenario.stat_reader 100),
      {| w_os := Scenario.platform; w_tick := 2;
         w_log := [EvRead 1%nat;
                   sample "tomcat" "app.cpu" (VInt 250) (Some "user");
                   sample "tomcat" "app.cpu" (VInt 130) (Some "system");
                   EvOpen "/proc/uptime"; EvRead 2%nat; EvClose 2%nat;
                   sample "tomcat" "app.uptime" (VInt 301250) None;
                   sample "tomcat" "app.nice" (VFloat (S754_zero false)) None;
                   sample "tomcat" "app.threads" (VInt 7) None] |})).
Proof.
  apply (stat_parser_fields 1%nat Scenario.stat_text Scenario.stat_text
           (Py.take (Z.to_nat (Py.find Scenario.stat_text ") ")) Scenario.stat_text)
           (Py.drop (Z.to_nat (Py.find Scenario.stat_text ") ") + 2) Scenario.stat_text)
           "250" "130" "0" "7" "5000" 250 130 7 5000 (S754_zero false)
           250 130 50000 351250
           (Scenario.stat_reader 100)
           (with_boot_time_ms (Some 649750) (Scenario.stat_reader 100))
           Scenario.world0
           {| w_os := Scenario.platform; w_tick := 2;
              w_log := [EvRead 1%nat;
                        sample "tomcat" "app.cpu" (VInt 250) (Some "user");
                        sample "tomcat" "app.cpu" (VInt 130) (Some "system");
                        EvOpen "/proc/uptime"; EvRead 2%nat; EvClose 2%nat] |}).
  - reflexivity.
  - vm_compute. reflexivity.
  - apply (first_occurrence_at_find ") " Scenario.stat_text). vm_compute. discriminate.
  - vm_compute. reflexivity.
  - vm_compute. reflexivity.
  - vm_compute. reflexivity.
  - vm_compute. reflexivity.
  - vm_compute. reflexivity.
  - vm_compute. reflexivity.
  - vm_compute. reflexivity.
  - vm_compute. reflexivity.
  - vm_compute. reflexivity.
  - vm_compute. reflexivity.
  - vm_compute. reflexivity.
  - vm_compute. reflexivity.
  - vm_compute. reflexivity.
  - vm_compute. reflexivity.
Defined.

(* ===================================================================== *)
(** * Relations a method preserves *)
(* ===================================================================== *)

Section Preserves.

Context {St : Type} (R : St -> St -> Prop).
Hypothesis R_refl : forall s, R s s.
Hypothesis R_trans : forall a b c, R a b -> R b c -> R a c.

Lemma preserves_ret {A} (a : A) : preserves R (ret a).
Proof. intros s. apply R_refl. Qed.

Lemma preserves_mret {A} (a : A) : preserves R (mret a).
Proof. intros s. apply R_refl. Qed.

Lemma preserves_raise {A} (e : exn) : preserves R (raise (A := A) e).
Proof. intros s. apply R_refl. Qed.

Lemma preserves_lift_result {A} (x : result A) : preserves R (lift_result x).
Proof. intros s. apply R_refl. Qed.

Lemma preserves_or_raise {A} (e : exn) (x : option A) : preserves R (or_raise e x).
Proof. destruct x; [apply preserves_ret | apply preserves_raise]. Qed.

Lemma preserves_index {A} (l : list A) (i : nat) : preserves R (index l i).
Proof. apply preserves_or_raise. Qed.

Lemma preserves_bind {A B} (m : M St A) (k : A -> M St B) :
  preserves R m -> (forall a, preserves R (k a)) -> preserves R (m ≫= k).
Proof.
  intros Hm Hk s. unfold mbind, M_bind, bind.
  specialize (Hm s). destruct (m s) as [[a|e] s']; simpl in *.
  - eapply R_trans; [exact Hm | apply Hk].
  - exact Hm.
Qed.

Lemma preserves_fmap {A B} (f : A -> B) (m : M St A) :
  preserves R m -> preserves R (f <$> m).
Proof.
  intros Hm. apply (preserves_bind m (fun a => ret (f a))); [exact Hm|].
  intros a. apply preserves_ret.
Qed.

Lemma preserves_try_finally {A} (body : M St A) (cleanup : M St unit) :
  preserves R body -> preserves R cleanup -> preserves R (try_finally body cleanup).
Proof.
  intros Hb Hc s. unfold try_finally.
  specialize (Hb s). destruct (body s) as [res s']; simpl in *.
  specialize (Hc s'). destruct (cleanup s') as [[u|e] s''];
    simpl in *; eapply R_trans; eauto.
Qed.

Lemma preserves_try_except {A} (body : M St A) (handler : exn -> option (M St A)) :
  preserves R body ->
  (forall e h, handler e = Some h -> preserves R h) ->
  preserves R (try_except body handler).
Proof.
  intros Hb Hh s. unfold try_except.
  specialize (Hb s). destruct (body s) as [[a|e] s']; simpl in *.
  - exact Hb.
  - destruct (handler e) as [h|] eqn:E; [|exact Hb].
    eapply R_trans; [exact Hb | apply (Hh e h E)].
Qed.

Lemma preserves_for_each {A} (l : list A) (body : A -> M St unit) :
  (forall x, preserves R (body x)) -> preserves R (for_each l body).
Proof.
  intros Hb. induction l as [|x l IH]; simpl.
  - apply preserves_ret.
  - apply (preserves_bind (body x) (fun _ => for_each l body)); auto.
Qed.

End Preserves.

Lemma preserves_self {O} (R : O * World -> O * World -> Prop) :
  (forall s, R s s) -> preserves R self.
Proof. intros H s. apply H. Qed.

(** Breaks a goal on [preserves] down along the structure of the
    method; [leaf] is tried first on every part. *)
Ltac preserve R_refl R_trans leaf :=
  repeat first
    [ leaf
    | apply (preserves_bind _ R_trans); [|intros]
    | apply (preserves_fmap _ R_refl R_trans)
    | apply (preserves_ret _ R_refl)
    | apply (preserves_mret _ R_refl)
    | apply (preserves_raise _ R_refl)
    | apply (preserves_self _ R_refl)
    | apply (preserves_or_raise _ R_refl)
    | apply (preserves_index _ R_refl)
    | apply (preserves_lift_result _ R_refl)
    | apply (preserves_try_finally _ R_trans)
    | apply (preserves_try_except _ R_trans)
    | apply (preserves_for_each _ R_refl R_trans); intros
    | match goal with
      | |- preserves _ (match ?x with _ => _ end) => destruct x
      | |- preserves _ (let '(_, _) := ?x in _) => destruct x
      end ].

Lemma appends_refl (P : event -> Prop) (w : World) : appends P w w.
Proof. split; [reflexivity|]. exists []. rewrite app_nil_r. auto. Qed.

Lemma appends_trans (P : event -> Prop) (a b c : World) :
  appends P a b -> appends P b c -> appends P a c.
Proof.
  intros [H1 (e1 & L1 & F1)] [H2 (e2 & L2 & F2)]. split; [congruence|].
  exists (e1 ++ e2). rewrite L2, L1, app_assoc. split; [reflexivity|].
  apply Forall_app; auto.
Qed.

Lemma appends_mono (P Q : event -> Prop) (w w' : World) :
  (forall e, P e -> Q e) -> appends P w w' -> appends Q w w'.
Proof.
  intros H [H1 (evs & L & F)]. split; [exact H1|]. exists evs. split; [exact L|].
  eapply Forall_impl; eauto.
Qed.

Lemma appends_logged (P : event -> Prop) (evs : list event) (w : World) :
  Forall P evs -> appends P w (logged evs w).
Proof. intros H. split; [reflexivity|]. exists evs. auto. Qed.

Lemma preserves_log (P : event -> Prop) (e : event) :
  P e -> preserves (appends P) (Sys.log e).
Proof. intros H w. apply (appends_logged P [e] w). auto. Qed.

Lemma preserves_ask {A} (P : event -> Prop) (f : Platform -> result A) :
  preserves (appends P) (Sys.ask f).
Proof. intros w. apply appends_refl. Qed.

Lemma preserves_time (P : event -> Prop) : preserves (appends P) Sys.time.
Proof. intros w. split; [reflexivity|]. exists []. simpl. rewrite app_nil_r. auto. Qed.

(** The calls of the operating system, given that their events are in
    [P]. *)
Ltac preserve_sys P :=
  unfold Sys.open, Sys.seek, Sys.read, Sys.readlines, Sys.readline, Sys.close,
    Sys.kill, Sys.getpid, Sys.sysconf_clk_tck, Sys.spawn_ps, Sys.wait,
    Sys.re_search, Sys.logger_error, Sys.emit_value;
  preserve (appends_refl P) (appends_trans P)
    ltac:(first [ apply preserves_time | apply preserves_ask
                | apply preserves_log; simpl; auto ]).

(* ===================================================================== *)
(** * What a reader does to its surroundings *)
(* ===================================================================== *)

Lemma reader_trace_refl (id : string) (s : RSt) : reader_trace id s s.
Proof. intros H. split; [exact H | apply appends_refl]. Qed.

Lemma reader_trace_trans (id : string) (a b c : RSt) :
  reader_trace id a b -> reader_trace id b c -> reader_trace id a c.
Proof.
  intros Hab Hbc Ha. destruct (Hab Ha) as [Hb Wab]. destruct (Hbc Hb) as [Hc Wbc].
  split; [exact Hc | eapply appends_trans; eauto].
Qed.

Lemma reader_trace_world {A} (id : string) (m : M World A) :
  preserves (appends (reader_event id)) m -> preserves (reader_trace id) (world m).
Proof.
  intros Hm [r w] Hid. unfold world. simpl in *. specialize (Hm w).
  destruct (m w) as [res w']. simpl in *. auto.
Qed.

Lemma reader_trace_update (id : string) (f : Reader -> Reader) :
  (forall r, _id (f r) = _id r) -> preserves (reader_trace id) (update f).
Proof.
  intros Hf [r w] Hid. simpl in *. split; [rewrite Hf; exact Hid | apply appends_refl].
Qed.

Lemma reader_trace_print_sample (id metric_name : string) (v : value)
    (type_value : option string) :
  preserves (reader_trace id) (print_sample metric_name v type_value).
Proof.
  intros [r w] Hid. rewrite print_sample_ok. simpl in *. split; [exact Hid|].
  apply appends_logged. constructor; [|constructor].
  unfold sample. simpl. subst id.
  destruct type_value; [rewrite lookup_insert_ne by discriminate|];
    apply lookup_singleton_eq.
Qed.

Ltac reader_leaf id :=
  first [ apply reader_trace_print_sample
        | apply reader_trace_world; preserve_sys (reader_event id)
        | apply reader_trace_update; intros; reflexivity ].

Lemma gather_sample_trace (id : string) (f : handle) :
  preserves (reader_trace id) (gather_sample f).
Proof.
  unfold gather_sample, stat_gather_sample, status_gather_sample,
    io_gather_sample, io_line, calculate_time_cs, calculate_time_ms,
    calculate_time, get_uptime_ms.
  cbv zeta.
  preserve (reader_trace_refl id) (reader_trace_trans id) ltac:(reader_leaf id).
Qed.

Lemma run_single_cycle_trace (id : string) :
  preserves (reader_trace id) run_single_cycle.
Proof.
  unfold run_single_cycle.
  preserve (reader_trace_refl id) (reader_trace_trans id)
    ltac:(first [ apply gather_sample_trace | reader_leaf id ]).
  intros e h He. destruct e; try discriminate He. injection He as <-.
  preserve (reader_trace_refl id) (reader_trace_trans id) ltac:(reader_leaf id).
Qed.

Lemma close_trace (id : string) : preserves (reader_trace id) close.
Proof.
  unfold close.
  preserve (reader_trace_refl id) (reader_trace_trans id) ltac:(reader_leaf id).
Qed.

(* ===================================================================== *)
(** * The file a reader holds *)
(* ===================================================================== *)

(** A cycle of a reader that has not failed, case by case. *)
Lemma run_single_cycle_live (r : Reader) (w : World) (filename : string) :
  _failed r = false ->
  format (_file_pattern r) (_pid r) = Ok filename ->
  run_single_cycle (r, w)
  = let r1 := with_timestamp (Some (cycle_time w)) r in
    let w1 := ticked w in
    match _file r with
    | Some f => (world (Sys.seek f);; gather_sample f) (r1, w1)
    | None =>
        match os_open (w_os w) filename with
        | Ok f =>
            (world (Sys.seek f);; gather_sample f)
              (with_file (Some f) r1, logged [EvOpen filename] w1)
        | Raise e =>
            match e with
            | IOError errno =>
                if errno =? 13
                then (Ok tt, disabled_by filename (permission_message filename) r w)
                else if errno =? 2
                then (Ok tt, disabled_by filename (unsupported_message filename) r w)
                else (Raise e, (r1, logged [EvOpen filename] w1))
            | _ => (Raise e, (r1, logged [EvOpen filename] w1))
            end
        end
    end.
Proof.
  intros Hf Hfmt.
  unfold run_single_cycle, Sys.time, Sys.open, Sys.logger_error, Sys.log, Sys.ask.
  unfold_monad. simpl. rewrite Hf, Hfmt.
  destruct (_file r) as [f|] eqn:Hfile; simpl; rewrite ?Hfile; [reflexivity|].
  destruct (os_open (w_os w) filename) as [f|e]; simpl; [reflexivity|].
  destruct e as [errno| | | | | | | |]; simpl; rewrite ?Hfile; try reflexivity.
  destruct (errno =? 13); simpl; rewrite ?Hfile.
  { unfold disabled_by, logged, with_log, ticked, cycle_time. simpl.
    rewrite <- app_assoc. reflexivity. }
  destruct (errno =? 2); simpl; rewrite ?Hfile; [|reflexivity].
  unfold disabled_by, logged, with_log, ticked, cycle_time. simpl.
  rewrite <- app_assoc. reflexivity.
Qed.

Lemma run_single_cycle_no_name (r : Reader) (w : World) (e : exn) :
  _failed r = false ->
  format (_file_pattern r) (_pid r) = Raise e ->
  run_single_cycle (r, w)
  = (Raise e, (with_timestamp (Some (cycle_time w)) r, ticked w)).
Proof.
  intros Hf Hfmt. unfold run_single_cycle, Sys.time. unfold_monad. simpl.
  rewrite Hf, Hfmt. reflexivity.
Qed.

Lemma same_handle_refl (r : Reader) : same_handle r r.
Proof. split; reflexivity. Qed.

Lemma same_handle_trans (a b c : Reader) :
  same_handle a b -> same_handle b c -> same_handle a c.
Proof. unfold same_handle. intuition congruence. Qed.

(** Sampling leaves the file and the failed flag of the reader alone,
    whether it returns or raises. *)
Lemma gather_sample_same_handle (f : handle) : keeps same_handle (gather_sample f).
Proof.
  unfold gather_sample, stat_gather_sample, status_gather_sample,
    io_gather_sample, io_line, calculate_time_cs, calculate_time_ms,
    calculate_time, get_uptime_ms, print_sample.
  cbv zeta.
  frame same_handle_refl same_handle_trans.
Qed.

Lemma seek_gather_same_handle (f : handle) :
  keeps same_handle (world (Sys.seek f);; gather_sample f).
Proof.
  apply (keeps_bind _ same_handle_trans).
  - apply (keeps_world _ same_handle_refl).
  - intros _. apply gather_sample_same_handle.
Qed.

Lemma call_method_idle (c : reader_call) (r : Reader) (w : World) :
  idle_when_failed r -> idle_when_failed (fst (snd (call_method c (r, w)))).
Proof.
  intros Hinv. destruct c; simpl.
  - destruct (_failed r) eqn:Hf.
    { rewrite run_single_cycle_failed by exact Hf. simpl. exact (fun _ => Hinv Hf). }
    destruct (format (_file_pattern r) (_pid r)) as [filename|e] eqn:Hfmt.
    2:{ rewrite (run_single_cycle_no_name r w e Hf Hfmt). simpl.
        intros H. simpl in H. congruence. }
    rewrite (run_single_cycle_live r w filename Hf Hfmt). cbv zeta.
    destruct (_file r) as [f|] eqn:Hfile.
    { destruct (seek_gather_same_handle f
                  (with_timestamp (Some (cycle_time w)) r) (ticked w)) as [_ H2].
      intros H. unfold RSt in *. rewrite H2 in H. simpl in H. congruence. }
    destruct (os_open (w_os w) filename) as [f|e].
    { destruct (seek_gather_same_handle f
                  (with_file (Some f) (with_timestamp (Some (cycle_time w)) r))
                  (logged [EvOpen filename] (ticked w))) as [_ H2].
      intros H. unfold RSt in *. rewrite H2 in H. simpl in H. congruence. }
    destruct e as [errno| | | | | | | |];
      try (intros H; simpl in H; congruence).
    destruct (errno =? 13); [intros _; exact Hfile|].
    destruct (errno =? 2); [intros _; exact Hfile|].
    intros H; simpl in H; congruence.
  - rewrite close_outcome.
    destruct (_file r) as [f|]; [destruct (os_close (w_os w) f)|];
      intros _; reflexivity.
Qed.

(** X1: a reader whose failed flag is set holds no open file, and this
    is kept by every sequence of [run_single_cycle] and [close] calls,
    whatever the platform answers and whether the calls return or
    raise. *)
Theorem failed_reader_holds_no_file (calls : list (reader_call * Platform)) :
  forall s : RSt,
    idle_when_failed (fst s) -> idle_when_failed (fst (run_calls calls s)).
Proof.
  induction calls as [|[c os] rest IH]; intros [r w] Hinv; [exact Hinv|].
  simpl. apply IH.
  destruct (call_method c (r, with_os os w)) as [res [r' w']] eqn:E.
  pose proof (call_method_idle c r (with_os os w) Hinv) as H.
  rewrite E in H. exact H.
Qed.

Lemma failed_reader_holds_no_file_witness :
  idle_when_failed
    (fst (run_calls [(CallRunSingleCycle, Scenario.platform);
                     (CallClose, Scenario.platform);
                     (CallRunSingleCycle, Scenario.platform)]
            (new_reader IoReader 1 "init" "/proc/%ld/io", Scenario.world0))).
Proof.
  apply (failed_reader_holds_no_file
           [(CallRunSingleCycle, Scenario.platform);
            (CallClose, Scenario.platform);
            (CallRunSingleCycle, Scenario.platform)]
           (new_reader IoReader 1 "init" "/proc/%ld/io", Scenario.world0)).
  intros H. simpl in H. discriminate H.
Defined.

(** X2: the statistic file is opened once.  When the first cycle of a
    reader opens its file, the handle stays on the reader whether the
    sampling of that cycle returns or raises, and the next cycle opens
    nothing: it stamps the time, seeks to the start of that handle and
    samples it. *)
Theorem handle_opened_once (r : Reader) (w : World) (filename : string)
    (h : handle) (os : Platform) :
  _failed r = false ->
  _file r = None ->
  format (_file_pattern r) (_pid r) = Ok filename ->
  os_open (w_os w) filename = Ok h ->
  let s1 := snd (run_single_cycle (r, w)) in
  let w2 := with_os os (snd s1) in
  _file (fst s1) = Some h
  /\ _failed (fst s1) = false
  /\ run_single_cycle (fst s1, w2)
     = (world (Sys.seek h);; gather_sample h)
         (with_timestamp (Some (cycle_time w2)) (fst s1), ticked w2).
Proof.
  intros Hf Hfile Hfmt Hopen s1 w2.
  assert (H1 : _file (fst s1) = Some h /\ _failed (fst s1) = false).
  { subst s1. rewrite (run_single_cycle_live r w filename Hf Hfmt). cbv zeta.
    rewrite Hfile, Hopen.
    destruct (seek_gather_same_handle h
                (with_file (Some h) (with_timestamp (Some (cycle_time w)) r))
                (logged [EvOpen filename] (ticked w))) as [H1 H2].
    unfold RSt in *. simpl in *. rewrite H1, H2. auto. }
  destruct H1 as [H1 H2]. split; [exact H1|]. split; [exact H2|].
  assert (Hsame : same_reader r (fst s1)) by apply run_single_cycle_keeps.
  destruct Hsame as (_ & Hpid & _ & Hpat & _).
  rewrite (run_single_cycle_live (fst s1) w2 filename H2) by congruence.
  cbv zeta. rewrite H1. reflexivity.
Qed.

Lemma handle_opened_once_witness :
  _file (fst (snd (run_single_cycle (io_reader, Scenario.world0)))) = Some 3%nat
  /\ _failed (fst (snd (run_single_cycle (io_reader, Scenario.world0)))) = false.
Proof.
  destruct (handle_opened_once io_reader Scenario.world0 "/proc/42/io" 3%nat
              Scenario.platform eq_refl eq_refl eq_refl eq_refl) as (H1 & H2 & _).
  split; [exact H1 | exact H2].
Defined.

(** X3: [close] closes a handle once.  After a call of [close],
    returning or raising, a second call returns normally without
    touching the platform, and leaves the reader without a file and with
    its failed flag false. *)
Theorem close_twice (r : Reader) (w : World) (os : Platform) :
  let s1 := snd (close (r, w)) in
  let out := close (fst s1, with_os os (snd s1)) in
  fst out = Ok tt
  /\ snd (snd out) = with_os os (snd s1)
  /\ _file (fst (snd out)) = None
  /\ _failed (fst (snd out)) = false.
Proof.
  intros s1 out.
  assert (H : _file (fst s1) = None).
  { subst s1. rewrite close_outcome.
    destruct (_file r) as [f|]; [destruct (os_close (w_os w) f)|]; reflexivity. }
  subst out. rewrite close_outcome, H. simpl. auto.
Qed.

(* ===================================================================== *)
(** * The boot time of a StatReader *)
(* ===================================================================== *)

Lemma bind_inv {St A B} (m : M St A) (k : A -> M St B) (s s' : St) (b : B) :
  (m ≫= k) s = (Ok b, s') ->
  exists a s1, m s = (Ok a, s1) /\ k a s1 = (Ok b, s').
Proof.
  unfold mbind, M_bind, bind. destruct (m s) as [[a|e] s1]; intros H.
  - exists a, s1. auto.
  - discriminate H.
Qed.

(** With the boot time in hand [__get_uptime_ms] reads the clock and
    nothing else. *)
Lemma get_uptime_ms_cached (r : Reader) (w : World) (b : Z) :
  _boot_time_ms r = Some b ->
  get_uptime_ms (r, w) = (Ok (cycle_time w * 1000 - b), (r, ticked w)).
Proof.
  intros Hb. unfold get_uptime_ms, Sys.time. unfold_monad. simpl.
  rewrite Hb. simpl. rewrite Hb. reflexivity.
Qed.

(** X4: the boot time is computed once per reader.  When
    [__get_uptime_ms] returns, the reader holds a boot time, and every
    later call on that reader opens no file: it reads the clock and
    returns the milliseconds since that boot time, leaving the reader as
    it is. *)
Theorem boot_time_computed_once (r : Reader) (w : World) (up : Z) :
  fst (get_uptime_ms (r, w)) = Ok up ->
  let r' := fst (snd (get_uptime_ms (r, w))) in
  exists b,
    _boot_time_ms r' = Some b
    /\ forall w2,
         get_uptime_ms (r', w2) = (Ok (cycle_time w2 * 1000 - b), (r', ticked w2)).
Proof.
  intros Hok r'. subst r'.
  destruct (get_uptime_ms (r, w)) as [res [r' w']] eqn:E. simpl in *. subst res.
  unfold get_uptime_ms in E.
  apply bind_inv in E. destruct E as (r0 & s0 & _ & E).
  apply bind_inv in E. destruct E as ([] & [r1 w1] & _ & E).
  revert E. unfold Sys.time. unfold_monad. simpl.
  destruct (_boot_time_ms r1) as [b|] eqn:Hb; [|discriminate].
  intros E. injection E as _ <- _.
  exists b. split; [exact Hb|]. intros w2. apply get_uptime_ms_cached. exact Hb.
Qed.

Lemma boot_time_computed_once_witness :
  exists b,
    _boot_time_ms
      (fst (snd (get_uptime_ms (Scenario.stat_reader 100, Scenario.world0))))
    = Some b.
Proof.
  destruct (boot_time_computed_once (Scenario.stat_reader 100) Scenario.world0
              351250 eq_refl) as (b & Hb & _).
  exists b. exact Hb.
Defined.

(** X5: the uptime file does not leak.  When [__get_uptime_ms] has to
    compute the boot time and /proc/uptime opens, the file is read once
    and closed before the method ends, whether it returns or raises
    (read error, empty file, a first token that is no number); when the
    open call raises, the exception is that of the method and nothing
    else is done. *)
Theorem uptime_file_closed (r : Reader) (w : World) :
  _boot_time_ms r = None ->
  match os_open (w_os w) "/proc/uptime" with
  | Ok h =>
      w_log (snd (snd (get_uptime_ms (r, w))))
      = w_log w ++ [EvOpen "/proc/uptime"; EvRead h; EvClose h]
  | Raise e =>
      get_uptime_ms (r, w) = (Raise e, (r, logged [EvOpen "/proc/uptime"] w))
  end.
Proof.
  intros Hb.
  destruct (os_open (w_os w) "/proc/uptime") as [h|e] eqn:Hopen;
    unfold get_uptime_ms, Sys.open, Sys.time, Sys.readline, Sys.read,
      Sys.close, Sys.log, Sys.ask;
    unfold_monad; cbv beta iota delta [fst snd]; simpl; rewrite Hb, Hopen; simpl;
    [|reflexivity].
  destruct (os_read (w_os w) h) as [text|e]; simpl;
    [destruct (Py.split (default "" (head (Py.lines text))) !! 0%nat) as [tok|];
     simpl;
     [destruct (PyFloat.of_string tok) as [x|]; simpl;
      [destruct (PyFloat.to_int _) as [n|e]; simpl|]|]|];
    destruct (os_close (w_os w) h); simpl;
    rewrite <- !app_assoc; reflexivity.
Qed.

Lemma uptime_file_closed_witness :
  w_log (snd (snd (get_uptime_ms (Scenario.stat_reader 100, Scenario.world0))))
  = [EvOpen "/proc/uptime"; EvRead 2%nat; EvClose 2%nat].
Proof.
  exact (uptime_file_closed (Scenario.stat_reader 100) Scenario.world0 eq_refl).
Defined.

(* ===================================================================== *)
(** * The status parser *)
(* ===================================================================== *)

Lemma span_spec (p : ascii -> bool) (s : string) :
  forall a b, span p s = (a, b) ->
    s = a +:+ b /\ all_chars p a = true /\ starts_with p b = false.
Proof.
  induction s as [|c s IH]; intros a b; simpl.
  - intros [= <- <-]. auto.
  - destruct (p c) eqn:Hc.
    + destruct (span p s) as [a' b'] eqn:E. intros [= <- <-].
      destruct (IH a' b' eq_refl) as (-> & Ha & Hb). simpl. rewrite Hc. auto.
    + intros [= <- <-]. simpl. auto.
Qed.

Lemma span_unique (p : ascii -> bool) (a b : string) :
  all_chars p a = true -> starts_with p b = false -> span p (a +:+ b) = (a, b).
Proof.
  intros Ha Hb. induction a as [|c a IH].
  - change ("" +:+ b) with b. destruct b as [|c b]; simpl in *; [reflexivity|].
    rewrite Hb. reflexivity.
  - change (String c a +:+ b) with (String c (a +:+ b)). simpl in *.
    apply andb_true_iff in Ha. destruct Ha as [Hc Ha].
    rewrite Hc, (IH Ha). reflexivity.
Qed.

Lemma all_space_all_chars (s : string) : all_space s = all_chars Py.is_space s.
Proof. induction s as [|c s IH]; simpl; congruence. Qed.

Lemma is_empty_false (s : string) : Py.is_empty s = false <-> s <> "".
Proof. destruct s; simpl; split; congruence. Qed.

Lemma digit_not_space (c : ascii) : Py.is_digit c = true -> Py.is_space c = false.
Proof.
  unfold Py.is_digit, Py.is_space. intros H.
  apply andb_true_iff in H. destruct H as [H1 H2].
  apply Nat.leb_le in H1. apply Nat.leb_le in H2.
  apply orb_false_iff. split.
  - apply Nat.eqb_neq. lia.
  - apply andb_false_iff. right. apply Nat.leb_gt. lia.
Qed.

(** The groups of a match: the line is the name, a colon, blanks, the
    number and a rest that does not go on with a digit. *)
Lemma status_search_groups (line name num : string) :
  status_search line = Some (name, num) ->
  name <> "" /\ all_chars is_word name = true
  /\ num <> "" /\ all_chars Py.is_digit num = true
  /\ exists ws rest,
       all_space ws = true
       /\ starts_with Py.is_digit rest = false
       /\ line = name +:+ ":" +:+ ws +:+ num +:+ rest.
Proof.
  unfold status_search.
  destruct (span is_word line) as [n r1] eqn:E1.
  destruct (span_spec _ _ _ _ E1) as (-> & Hn & _).
  destruct (Py.is_empty n) eqn:En; [discriminate|].
  destruct r1 as [|c r1]; [discriminate|].
  destruct (Ascii.eqb_spec c ":") as [->|Hc].
  2:{ destruct c as [[] [] [] [] [] [] [] []]; try discriminate;
      exfalso; apply Hc; reflexivity. }
  destruct (span Py.is_space r1) as [ws r2] eqn:E2.
  destruct (span_spec _ _ _ _ E2) as (-> & Hws & _).
  destruct (span Py.is_digit r2) as [d rest] eqn:E3.
  destruct (span_spec _ _ _ _ E3) as (-> & Hd & Hrest).
  destruct (Py.is_empty d) eqn:Ed; [discriminate|].
  intros [= <- <-].
  apply is_empty_false in En. apply is_empty_false in Ed.
  repeat split; auto. exists ws, rest.
  rewrite all_space_all_chars. auto.
Qed.

(** X6: [status_search] is the search of the pattern
    [^(\w+):\s*(\d+)]: it finds the groups [name] and [num] in a line
    exactly when the line is [name], a colon, blanks, [num] and a rest
    that does not go on with a digit, [name] being a non-empty run of
    word characters and [num] a non-empty run of digits. *)
Theorem status_search_matches (line name num : string) :
  status_search line = Some (name, num)
  <-> name <> "" /\ all_chars is_word name = true
      /\ num <> "" /\ all_chars Py.is_digit num = true
      /\ exists ws rest,
           all_space ws = true
           /\ starts_with Py.is_digit rest = false
           /\ line = name +:+ ":" +:+ ws +:+ num +:+ rest.
Proof.
  split; [apply status_search_groups|]. unfold status_search.
  intros (Hn & Hwn & Hd & Hnum & ws & rest & Hws & Hrest & ->).
  rewrite (span_unique is_word name (":" +:+ ws +:+ num +:+ rest) Hwn eq_refl).
  apply is_empty_false in Hn. rewrite Hn.
  change (":" +:+ ws +:+ num +:+ rest) with (String ":" (ws +:+ num +:+ rest)).
  cbv beta iota. rewrite all_space_all_chars in Hws.
  rewrite (span_unique Py.is_space ws (num +:+ rest) Hws).
  2:{ destruct num as [|c num]; [congruence|].
      change (String c num +:+ rest) with (String c (num +:+ rest)).
      simpl in *. apply andb_true_iff in Hnum. apply digit_not_space, Hnum. }
  rewrite (span_unique Py.is_digit num rest Hnum Hrest).
  apply is_empty_false in Hd. rewrite Hd. reflexivity.
Qed.

Lemma status_search_matches_witness :
  status_search "VmRSS:	   256 kB" = Some ("VmRSS", "256").
Proof.
  apply (proj2 (status_search_matches "VmRSS:	   256 kB" "VmRSS" "256")).
  repeat split; try discriminate.
  exists "	   ", " kB". repeat split.
Defined.

(* ===================================================================== *)
(** * Integers and their decimal text *)
(* ===================================================================== *)

Lemma rev_app_rev_app (s a b : string) :
  String.rev_app (String.rev_app s a) b = String.rev_app a (s +:+ b).
Proof.
  revert a b. induction s as [|c s IH]; intros a b; simpl; [reflexivity|].
  rewrite IH. reflexivity.
Qed.

Lemma app_empty_r (s : string) : s +:+ "" = s.
Proof. induction s as [|c s IH]; [reflexivity|]. change (String c s +:+ "") with (String c (s +:+ "")). congruence. Qed.

Lemma rev_involutive (s : string) : String.rev (String.rev s) = s.
Proof. unfold String.rev. rewrite rev_app_rev_app. simpl. apply app_empty_r. Qed.

Lemma all_chars_rev_app (p : ascii -> bool) (s a : string) :
  all_chars p (String.rev_app s a) = (all_chars p s && all_chars p a)%bool.
Proof.
  revert a. induction s as [|c s IH]; intros a; simpl; [reflexivity|].
  rewrite IH. simpl. destruct (p c), (all_chars p s); reflexivity.
Qed.

Lemma all_chars_impl (p q : ascii -> bool) (s : string) :
  (forall c, p c = true -> q c = true) ->
  all_chars p s = true -> all_chars q s = true.
Proof.
  intros H. induction s as [|c s IH]; simpl; [auto|].
  intros Hs. apply andb_true_iff in Hs. destruct Hs as [Hc Hs].
  rewrite (H c Hc), (IH Hs). reflexivity.
Qed.

Lemma lstrip_id (s : string) : starts_with Py.is_space s = false -> Py.lstrip s = s.
Proof. destruct s as [|c s]; simpl; [reflexivity|]. intros ->. reflexivity. Qed.

Lemma no_space_start (s : string) :
  all_chars (fun c => negb (Py.is_space c)) s = true ->
  starts_with Py.is_space s = false.
Proof.
  destruct s as [|c s]; simpl; [reflexivity|]. intros H.
  apply andb_true_iff in H. destruct H as [H _]. apply negb_true_iff in H. exact H.
Qed.

(** A text without blanks is its own [strip()]. *)
Lemma strip_id (s : string) :
  all_chars (fun c => negb (Py.is_space c)) s = true -> Py.strip s = s.
Proof.
  intros H. unfold Py.strip, Py.rstrip.
  rewrite (lstrip_id s (no_space_start s H)).
  rewrite lstrip_id; [apply rev_involutive|].
  apply no_space_start. unfold String.rev. rewrite all_chars_rev_app, H. reflexivity.
Qed.

Lemma digits_no_space (s : string) :
  all_chars Py.is_digit s = true ->
  all_chars (fun c => negb (Py.is_space c)) s = true.
Proof.
  apply all_chars_impl. intros c Hc. rewrite (digit_not_space c Hc). reflexivity.
Qed.

Lemma digits_from_total (s : string) :
  all_chars Py.is_digit s = true ->
  forall acc, 0 <= acc -> exists n, Py.digits_from acc s = Some n /\ 0 <= n.
Proof.
  induction s as [|c s IH]; simpl; intros Hs acc Hacc.
  - exists acc. auto.
  - apply andb_true_iff in Hs. destruct Hs as [Hc Hs]. rewrite Hc.
    apply IH; [exact Hs|].
    unfold Py.is_digit in Hc. apply andb_true_iff in Hc. destruct Hc as [Hc _].
    apply Nat.leb_le in Hc. unfold Py.digit_val. lia.
Qed.

(** [int()] of a non-empty run of digits is the number it spells. *)
Lemma int_of_digits (s : string) :
  s <> "" -> all_chars Py.is_digit s = true ->
  Py.int s = Py.digits_from 0 s.
Proof.
  intros Hne Hs. unfold Py.int. rewrite (strip_id s (digits_no_space s Hs)).
  destruct s as [|c s]; [congruence|]. simpl in Hs.
  apply andb_true_iff in Hs. destruct Hs as [Hc _].
  destruct c as [[] [] [] [] [] [] [] []]; try discriminate Hc; reflexivity.
Qed.

Lemma digits_from_uint_acc (d : Decimal.uint) :
  forall acc : positive,
    Py.digits_from (Zpos acc) (NilEmpty.string_of_uint d)
    = Some (Zpos (Pos.of_uint_acc d acc)).
Proof.
  induction d; intros acc; simpl; [reflexivity| | | | | | | | | |];
    match goal with
    | |- Py.digits_from ?a _ = Some (Zpos (Pos.of_uint_acc _ ?b)) =>
        replace a with (Zpos b)
          by (unfold Py.digit_val;
              match goal with
              | |- context [nat_of_ascii ?c] =>
                  let v := eval cbv in (nat_of_ascii c) in
                  change (nat_of_ascii c) with v
              end; lia)
    end; apply IHd.
Qed.

Lemma digits_from_uint (d : Decimal.uint) :
  Py.digits_from 0 (NilEmpty.string_of_uint d) = Some (Z.of_N (Pos.of_uint d)).
Proof.
  induction d; simpl; [reflexivity|exact IHd| | | | | | | | |];
    match goal with
    | |- Py.digits_from ?a _ = Some (Zpos (Pos.of_uint_acc _ ?b)) =>
        change a with (Zpos b)
    end; apply digits_from_uint_acc.
Qed.

Lemma uint_all_digits (d : Decimal.uint) :
  all_chars Py.is_digit (NilEmpty.string_of_uint d) = true.
Proof. induction d; simpl; auto. Qed.

Lemma uint_text_nonempty (d : Decimal.uint) :
  d <> Decimal.Nil -> NilEmpty.string_of_uint d <> "".
Proof. destruct d; simpl; congruence. Qed.

Lemma nilzero_uint (d : Decimal.uint) :
  d <> Decimal.Nil -> NilZero.string_of_uint d = NilEmpty.string_of_uint d.
Proof. destruct d; [congruence | reflexivity ..]. Qed.

(** The text of a positive integer: digits only, and read back by
    [int()]. *)
Lemma str_of_pos (p : positive) :
  let s := NilEmpty.string_of_uint (Pos.to_uint p) in
  Py.str_of_int (Zpos p) = s /\ Py.str_of_int (Zneg p) = String "-" s
  /\ s <> "" /\ all_chars Py.is_digit s = true
  /\ Py.digits_from 0 s = Some (Zpos p).
Proof.
  intros s. subst s.
  pose proof (DecimalPos.Unsigned.to_uint_nonnil p) as Hnil.
  unfold Py.str_of_int, NilZero.string_of_int. simpl.
  rewrite (nilzero_uint _ Hnil).
  split; [reflexivity|]. split; [reflexivity|].
  split; [apply uint_text_nonempty, Hnil|].
  split; [apply uint_all_digits|].
  rewrite digits_from_uint, DecimalPos.Unsigned.of_to. reflexivity.
Qed.

(** [int(str(n))] is [n]. *)
Lemma int_str_of_int (n : Z) : Py.int (Py.str_of_int n) = Some n.
Proof.
  destruct n as [|p|p]; [reflexivity| |].
  - destruct (str_of_pos p) as (-> & _ & Hne & Hd & Hv).
    rewrite (int_of_digits _ Hne Hd). exact Hv.
  - destruct (str_of_pos p) as (_ & -> & Hne & Hd & Hv).
    unfold Py.int. rewrite strip_id.
    2:{ simpl. apply digits_no_space, Hd. }
    unfold Py.digits.
    destruct (NilEmpty.string_of_uint (Pos.to_uint p)) as [|c s]; [congruence|].
    rewrite Hv. reflexivity.
Qed.

(* ===================================================================== *)
(** * The status file, and empty files *)
(* ===================================================================== *)

(** The number group of a match is a non-empty run of digits, which
    [int()] accepts. *)
Lemma status_search_int (line name num : string) :
  status_search line = Some (name, num) ->
  exists n, Py.int num = Some n /\ 0 <= n.
Proof.
  intros H. apply status_search_groups in H.
  destruct H as (_ & _ & Hne & Hd & _).
  rewrite (int_of_digits num Hne Hd). apply digits_from_total; [exact Hd | lia].
Qed.

Lemma status_line_run (line : string) (r : Reader) (w : World) :
  match status_search line with
  | None => ret tt
  | Some (field_name, digits) =>
      int_value ← or_raise ValueError (Py.int digits);
      if String.eqb field_name "VmSize" then
        print_sample "app.mem.bytes" (VInt (int_value * 1024)) (Some "vmsize")
      else if String.eqb field_name "VmPeak" then
        print_sample "app.mem.bytes" (VInt (int_value * 1024)) (Some "peak_vmsize")
      else if String.eqb field_name "VmRSS" then
        print_sample "app.mem.bytes" (VInt (int_value * 1024)) (Some "resident")
      else if String.eqb field_name "VmHWM" then
        print_sample "app.mem.bytes" (VInt (int_value * 1024)) (Some "peak_resident")
      else ret tt
  end (r, w)
  = (Ok tt, (r, logged (option_list (status_sample (_id r) line)) w)).
Proof.
  unfold status_sample, status_key.
  destruct (status_search line) as [[name num]|] eqn:E.
  2:{ simpl. rewrite logged_nil. reflexivity. }
  destruct (status_search_int line name num E) as (n & Hn & _).
  rewrite Hn. unfold mbind, M_bind, bind. simpl.
  destruct (String.eqb name "VmSize"); [apply print_sample_ok|].
  destruct (String.eqb name "VmPeak"); [apply print_sample_ok|].
  destruct (String.eqb name "VmRSS"); [apply print_sample_ok|].
  destruct (String.eqb name "VmHWM"); [apply print_sample_ok|].
  simpl. rewrite logged_nil. reflexivity.
Qed.

(** X7: the status parser raises on no file content.  Once the file is
    read, [StatusReader.gather_sample] returns normally and leaves the
    reader as it is; it emits, in the order of the file, one
    app.mem.bytes metric for each line on which the pattern finds one
    of the fields VmSize, VmPeak, VmRSS and VmHWM, with 1024 times the
    number as the value, and passes over every other line. *)
Theorem status_parser_total (h : handle) (text : string) (r : Reader) (w : World) :
  os_read (w_os w) h = Ok text ->
  status_gather_sample h (r, w)
  = (Ok tt, (r, logged (EvRead h :: omap (status_sample (_id r)) (Py.lines text)) w)).
Proof.
  intros Hread. unfold status_gather_sample.
  rewrite (bind_ok _ _ _ _ _ (readlines_ok h text r w Hread)).
  change (EvRead h :: omap (status_sample (_id r)) (Py.lines text))
    with ([EvRead h] ++ omap (status_sample (_id r)) (Py.lines text)).
  rewrite <- logged_logged. generalize (logged [EvRead h] w) as w1.
  induction (Py.lines text) as [|line rest IH]; intros w1; simpl.
  - rewrite logged_nil. reflexivity.
  - unfold bind. rewrite status_line_run. rewrite IH, logged_logged.
    destruct (status_sample (_id r) line); reflexivity.
Qed.

Lemma status_parser_total_witness :
  status_gather_sample 7%nat
    (new_StatusReader 42 "tomcat",
     {| w_os := reading status_text; w_tick := 0; w_log := [] |})
  = (Ok tt,
     (new_StatusReader 42 "tomcat",
      {| w_os := reading status_text; w_tick := 0;
         w_log := [EvRead 7%nat;
                   sample "tomcat" "app.mem.bytes" (VInt 2097152) (Some "peak_vmsize");
                   sample "tomcat" "app.mem.bytes" (VInt 1048576) (Some "vmsize");
                   sample "tomcat" "app.mem.bytes" (VInt 262144) (Some "resident")] |})).
Proof.
  exact (status_parser_total 7%nat status_text (new_StatusReader 42 "tomcat")
           {| w_os := reading status_text; w_tick := 0; w_log := [] |} eq_refl).
Defined.

(** X8: an empty statistic file.  [StatReader.gather_sample] raises
    IndexError on it before it emits anything; the parsers of the
    status and of the io file return normally without a metric.  The
    reader is left as it is in each case. *)
Theorem gather_sample_empty_file (h : handle) (r : Reader) (w : World) :
  os_read (w_os w) h = Ok "" ->
  gather_sample h (r, w)
  = match class_of r with
    | BaseReader => (Ok tt, (r, w))
    | StatReader => (Raise IndexError, (r, logged [EvRead h] w))
    | StatusReader | IoReader => (Ok tt, (r, logged [EvRead h] w))
    end.
Proof.
  intros Hread. unfold gather_sample. unfold mbind at 1. unfold M_bind, bind, self.
  simpl. destruct (class_of r).
  - reflexivity.
  - unfold stat_gather_sample.
    rewrite (bind_ok _ _ _ _ _ (readlines_ok h "" r w Hread)). reflexivity.
  - unfold status_gather_sample.
    rewrite (bind_ok _ _ _ _ _ (readlines_ok h "" r w Hread)). reflexivity.
  - unfold io_gather_sample.
    rewrite (bind_ok _ _ _ _ _ (readlines_ok h "" r w Hread)). simpl.
    reflexivity.
Qed.

Lemma gather_sample_empty_file_witness :
  gather_sample 7%nat
    (Scenario.stat_reader 100, {| w_os := reading ""; w_tick := 0; w_log := [] |})
  = (Raise IndexError,
     (Scenario.stat_reader 100,
      {| w_os := reading ""; w_tick := 0; w_log := [EvRead 7%nat] |})).
Proof.
  exact (gather_sample_empty_file 7%nat (Scenario.stat_reader 100)
           {| w_os := reading ""; w_tick := 0; w_log := [] |} eq_refl).
Defined.

(* ===================================================================== *)
(** * Binding the monitor to a process *)
(* ===================================================================== *)

Ltac run_monad := unfold_monad; cbv beta iota delta [fst snd]; simpl.

Lemma set_process_unbound (pid : option Z) (m : ProcessMonitor) (w : World) :
  __pid m = None ->
  set_process pid (m, w)
  = (Ok tt, (with_process pid (readers_for pid (__id m) (w_os w)) m, w)).
Proof.
  intros Hpid. unfold set_process, append_gather, new_StatReader,
    Sys.sysconf_clk_tck, Sys.ask.
  run_monad. rewrite Hpid. simpl. destruct pid; reflexivity.
Qed.

Lemma set_process_bound (pid : option Z) (m : ProcessMonitor) (w : World) (p : Z) :
  __pid m = Some p ->
  set_process pid (m, w)
  = match run_readers close (__gathers m) w with
    | (Ok _, (_, w')) =>
        (Ok tt, (with_process pid (readers_for pid (__id m) (w_os w')) m, w'))
    | (Raise e, (gathers, w')) => (Raise e, (with_gathers gathers m, w'))
    end.
Proof.
  intros Hpid. unfold set_process, append_gather, new_StatReader, each_gather,
    Sys.sysconf_clk_tck, Sys.ask.
  run_monad. rewrite Hpid. simpl.
  destruct (run_readers close (__gathers m) w) as [[[]|e] [g w']]; simpl;
    [|reflexivity].
  destruct pid; reflexivity.
Qed.

Lemma run_readers_app (method : M RSt unit) (before after : list Reader) :
  forall w,
    run_readers method (before ++ after) w
    = match run_readers method before w with
      | (Ok _, (before', w')) =>
          match run_readers method after w' with
          | (res, (after', w'')) => (res, (before' ++ after', w''))
          end
      | (Raise e, (before', w')) => (Raise e, (before' ++ after, w'))
      end.
Proof.
  induction before as [|r rest IH]; intros w; simpl.
  - destruct (run_readers method after w) as [res [after' w'']]. reflexivity.
  - destruct (method (r, w)) as [[[]|e] [r' w']]; [|reflexivity].
    rewrite IH.
    destruct (run_readers method rest w') as [[[]|e] [rest' w'']]; [|reflexivity].
    destruct (run_readers method after w'') as [res [after' w3]]. reflexivity.
Qed.

(** Closing readers whose handles all close. *)
Lemma run_readers_close (gathers : list Reader) :
  forall w,
    Forall (fun h => os_close (w_os w) h = Ok tt) (open_handles gathers) ->
    run_readers close gathers w
    = (Ok tt, (map closed gathers, logged (map EvClose (open_handles gathers)) w)).
Proof.
  induction gathers as [|r rest IH]; intros w Hok; simpl.
  - rewrite logged_nil. reflexivity.
  - rewrite close_outcome. unfold open_handles in *. simpl in *.
    destruct (_file r) as [f|]; simpl in *.
    + inversion Hok as [|? ? Hf Hrest]; subst. rewrite Hf.
      rewrite (IH (logged [EvClose f] w) Hrest), logged_logged. reflexivity.
    + rewrite (IH w Hok). reflexivity.
Qed.

(** X9: rebinding closes the files of the old binding.  When every
    handle closes, [__set_process] on a bound monitor closes each open
    file of its readers once, in the order of the readers, and only
    then replaces the process id and the readers; the new readers are
    those of the new process, or none. *)
Theorem set_process_closes (pid : option Z) (m : ProcessMonitor) (w : World) (p : Z) :
  __pid m = Some p ->
  Forall (fun h => os_close (w_os w) h = Ok tt) (open_handles (__gathers m)) ->
  set_process pid (m, w)
  = (Ok tt,
     (with_process pid (readers_for pid (__id m) (w_os w)) m,
      logged (map EvClose (open_handles (__gathers m))) w)).
Proof.
  intros Hpid Hok. rewrite (set_process_bound pid m w p Hpid).
  rewrite (run_readers_close _ w Hok). reflexivity.
Qed.

(** X10: a handle that fails to close stops the rebinding.  When the
    close of the file of a reader raises, after the files of the readers
    before it closed, [__set_process] raises that exception; the monitor
    stays bound to its process, the readers up to that one have lost
    their files, and the readers after it are not closed. *)
Theorem set_process_close_raises (pid : option Z) (m : ProcessMonitor) (w : World)
    (p : Z) (before after : list Reader) (r : Reader) (h : handle) (e : exn) :
  __pid m = Some p ->
  __gathers m = before ++ r :: after ->
  Forall (fun h => os_close (w_os w) h = Ok tt) (open_handles before) ->
  _file r = Some h ->
  os_close (w_os w) h = Raise e ->
  set_process pid (m, w)
  = (Raise e,
     (with_gathers (map closed before ++ with_file None (with_failed true r) :: after) m,
      logged (map EvClose (open_handles before) ++ [EvClose h]) w)).
Proof.
  intros Hpid Hg Hok Hfile Hclose. rewrite (set_process_bound pid m w p Hpid), Hg.
  rewrite run_readers_app, (run_readers_close _ w Hok). simpl.
  rewrite close_outcome, Hfile. simpl. rewrite Hclose, logged_logged. reflexivity.
Qed.

Lemma set_process_closes_witness :
  set_process None (tomcat_monitor, Scenario.world0)
  = (Ok tt,
     (with_process None [] tomcat_monitor,
      logged [EvClose 1%nat; EvClose 3%nat] Scenario.world0)).
Proof.
  apply (set_process_closes None tomcat_monitor Scenario.world0 42 eq_refl).
  repeat constructor.
Defined.

Lemma set_process_close_raises_witness :
  __pid (fst (snd (set_process None
                     (tomcat_monitor, with_os stuck_handle Scenario.world0))))
  = Some 42.
Proof.
  rewrite (set_process_close_raises None tomcat_monitor
             (with_os stuck_handle Scenario.world0) 42
             [with_file (Some 1%nat) (Scenario.stat_reader 100);
              new_StatusReader 42 "tomcat"]
             [] (with_file (Some 3%nat) io_reader) 3%nat (IOError 5)
             eq_refl eq_refl ltac:(repeat constructor) eq_refl eq_refl).
  reflexivity.
Defined.

(* ===================================================================== *)
(** * What a cycle of the monitor keeps *)
(* ===================================================================== *)

Lemma same_config_refl (m : ProcessMonitor) : same_config m m.
Proof. unfold same_config. auto. Qed.

Lemma same_config_with_process (pid : option Z) (gathers : list Reader)
    (m : ProcessMonitor) :
  same_config m (with_process pid gathers m).
Proof. unfold same_config. simpl. auto. Qed.

Lemma monitor_trace_refl (s : MSt) : monitor_trace s s.
Proof. intros H. split; [exact H|]. split; [apply same_config_refl | apply appends_refl]. Qed.

Lemma monitor_trace_trans (a b c : MSt) :
  monitor_trace a b -> monitor_trace b c -> monitor_trace a c.
Proof.
  intros Hab Hbc Ha. destruct (Hab Ha) as (Hb & (I1 & C1 & T1) & W1).
  destruct (Hbc Hb) as (Hc & (I2 & C2 & T2) & W2).
  split; [exact Hc|]. split; [unfold same_config; repeat split; congruence|].
  rewrite I1 in W2. eapply appends_trans; eauto.
Qed.

Lemma no_metric_tagged (id : string) (e : event) : no_metric e -> tagged id e.
Proof. destruct e; simpl; tauto. Qed.

Lemma reader_event_tagged (id : string) (e : event) : reader_event id e -> tagged id e.
Proof. destruct e; simpl; tauto. Qed.

(** A call of the operating system that emits no metric. *)
Lemma monitor_trace_world {A} (m : M World A) :
  preserves (appends no_metric) m -> preserves monitor_trace (world m).
Proof.
  intros Hm [o w] Hinv. unfold world. simpl in *. specialize (Hm w).
  destruct (m w) as [res w']. simpl in *.
  split; [exact Hinv|]. split; [apply same_config_refl|].
  eapply appends_mono; [apply no_metric_tagged | exact Hm].
Qed.

Ltac monitor_leaf :=
  apply monitor_trace_world; preserve_sys no_metric.

Lemma is_running_trace : preserves monitor_trace is_running.
Proof.
  unfold is_running.
  preserve monitor_trace_refl monitor_trace_trans ltac:(monitor_leaf).
  intros e h He. destruct e; try discriminate He. injection He as <-.
  preserve monitor_trace_refl monitor_trace_trans ltac:(monitor_leaf).
Qed.

Lemma match_commandline_trace (matcher : string) (output : list string) :
  preserves monitor_trace (match_commandline matcher output).
Proof.
  induction output as [|line rest IH]; simpl.
  - apply (preserves_ret _ monitor_trace_refl).
  - preserve monitor_trace_refl monitor_trace_trans
      ltac:(first [ exact IH | monitor_leaf ]).
Qed.

Lemma select_process_trace : preserves monitor_trace select_process.
Proof.
  unfold select_process.
  preserve monitor_trace_refl monitor_trace_trans
    ltac:(first [ apply match_commandline_trace | monitor_leaf ]).
  intros e h He. destruct e; try discriminate He. injection He as <-.
  preserve monitor_trace_refl monitor_trace_trans ltac:(monitor_leaf).
Qed.

(** The loop over the readers adds the events of the readers. *)
Lemma run_readers_trace (id : string) (method : M RSt unit) :
  preserves (reader_trace id) method ->
  forall gathers w,
    Forall (fun r => _id r = id) gathers ->
    appends (reader_event id) w (snd (snd (run_readers method gathers w))).
Proof.
  intros Hm. induction gathers as [|r rest IH]; intros w Hid; simpl.
  - apply appends_refl.
  - inversion Hid as [|? ? Hr Hrest]; subst.
    destruct (Hm (r, w) eq_refl) as [_ Hw].
    destruct (method (r, w)) as [[[]|e] [r' w']]; simpl in *; [|exact Hw].
    specialize (IH w' Hrest).
    destruct (run_readers method rest w') as [res [rest' w'']]; simpl in *.
    eapply appends_trans; eauto.
Qed.

Lemma bound_readers_ids (m : ProcessMonitor) :
  bound_readers m -> Forall (fun r => _id r = __id m) (__gathers m).
Proof.
  unfold bound_readers. destruct (__pid m).
  - intros [_ H]. eapply Forall_impl; [exact H|]. simpl. tauto.
  - intros ->. constructor.
Qed.

Lemma bound_readers_with_gathers (m : ProcessMonitor) (gathers : list Reader) :
  bound_readers m ->
  Forall2 same_reader (__gathers m) gathers ->
  bound_readers (with_gathers gathers m).
Proof.
  unfold bound_readers, with_gathers. simpl. destruct (__pid m) as [p|].
  - intros [Hc Hb] H2. split.
    + rewrite <- Hc. clear Hc Hb. induction H2 as [|a b la lb Hab _ IH]; simpl;
        [reflexivity|]. destruct Hab as (-> & _). rewrite IH. reflexivity.
    + clear Hc. induction H2 as [|a b la lb Hab _ IH]; [constructor|].
      inversion Hb as [|? ? [Ha1 Ha2] Hla]; subst.
      destruct Hab as (_ & H1 & H3 & _). constructor; [split; congruence | auto].
  - intros -> H2. inversion H2. reflexivity.
Qed.

Lemma bound_readers_fresh (pid : option Z) (m : ProcessMonitor) (os : Platform) :
  bound_readers (with_process pid (readers_for pid (__id m) os) m).
Proof.
  unfold bound_readers. destruct pid as [p|]; simpl; [|reflexivity].
  split; [reflexivity|]. repeat constructor.
Qed.

Lemma same_binding_reader (r r' : Reader) : same_binding r r' -> same_reader r r'.
Proof. unfold same_binding, same_reader. tauto. Qed.

Lemma each_gather_trace (method : M RSt unit) :
  keeps same_reader method ->
  (forall id, preserves (reader_trace id) method) ->
  preserves monitor_trace (each_gather method).
Proof.
  intros Hk Ht [m w] Hinv. unfold each_gather. simpl in *.
  pose proof (run_readers_keeps same_reader method same_reader_refl Hk
                (__gathers m) w) as H2.
  pose proof (run_readers_trace (__id m) method (Ht (__id m)) (__gathers m) w
                (bound_readers_ids m Hinv)) as Hw.
  destruct (run_readers method (__gathers m) w) as [res [g w']]. simpl in *.
  split; [apply bound_readers_with_gathers; assumption|].
  split; [apply same_config_with_process|].
  eapply appends_mono; [apply reader_event_tagged | exact Hw].
Qed.

Lemma close_keeps_reader : keeps same_reader close.
Proof. intros r w. apply same_binding_reader, close_keeps_binding. Qed.

Lemma set_process_trace (pid : option Z) : preserves monitor_trace (set_process pid).
Proof.
  intros [m w] Hinv. simpl in *. destruct (__pid m) as [p|] eqn:Hpid.
  - rewrite (set_process_bound pid m w p Hpid).
    pose proof (each_gather_trace close close_keeps_reader close_trace (m, w) Hinv)
      as H.
    unfold each_gather in H. simpl in H.
    destruct (run_readers close (__gathers m) w) as [[[]|e] [g w']]; simpl in *.
    + destruct H as (_ & _ & Hw).
      split; [apply bound_readers_fresh|].
      split; [apply same_config_with_process | exact Hw].
    + exact H.
  - rewrite (set_process_unbound pid m w Hpid). simpl.
    split; [apply bound_readers_fresh|].
    split; [apply same_config_with_process | apply appends_refl].
Qed.

(** A cycle of the monitor, returning or raising, keeps the
    configuration, leaves readers that belong to the binding, and emits
    metrics of the monitor only. *)
Lemma monitor_gather_sample_trace : preserves monitor_trace monitor_gather_sample.
Proof.
  unfold monitor_gather_sample.
  preserve monitor_trace_refl monitor_trace_trans
    ltac:(first [ apply is_running_trace
                | apply set_process_trace
                | apply select_process_trace
                | apply (each_gather_trace run_single_cycle
                           run_single_cycle_keeps run_single_cycle_trace) ]).
Qed.

(* ===================================================================== *)
(** * Cycles of the monitor *)
(* ===================================================================== *)

Lemma initialize_unbound (config : gmap string json) (m : ProcessMonitor) :
  _initialize config = Ok m -> __pid m = None /\ __gathers m = [].
Proof.
  unfold _initialize.
  destruct (config_get config "id" true) as [[id|]|]; try discriminate.
  destruct (config_get config "commandline" false) as [c|]; try discriminate.
  destruct (config_get config "pid" false) as [t|]; try discriminate.
  destruct c, t; try discriminate; intros [= <-]; auto.
Qed.

Lemma run_monitor_cycles_trace (platforms : list Platform) :
  forall s : MSt,
    bound_readers (fst s) ->
    let s' := run_monitor_cycles platforms s in
    bound_readers (fst s')
    /\ same_config (fst s) (fst s')
    /\ exists evs,
         w_log (snd s') = w_log (snd s) ++ evs
         /\ Forall (tagged (__id (fst s))) evs.
Proof.
  induction platforms as [|os rest IH]; intros [m w] Hinv; simpl.
  - split; [exact Hinv|]. split; [apply same_config_refl|].
    exists []. rewrite app_nil_r. auto.
  - destruct (monitor_gather_sample_trace (m, with_os os w) Hinv)
      as (H1 & H2 & _ & evs1 & L1 & F1).
    destruct (monitor_gather_sample (m, with_os os w)) as [res [m1 w1]].
    simpl in *. destruct (IH (m1, w1) H1) as (H3 & H4 & evs2 & L2 & F2).
    simpl in *. split; [exact H3|].
    destruct H2 as (I1 & C1 & T1). destruct H4 as (I2 & C2 & T2).
    split; [unfold same_config; repeat split; congruence|].
    exists (evs1 ++ evs2). rewrite L2, L1, app_assoc. split; [reflexivity|].
    apply Forall_app. split; [exact F1|]. rewrite I1 in F2. exact F2.
Qed.

(** X11: the readers of a monitor belong to its binding.  From its
    initialization on and through every sequence of [gather_sample]
    calls, whatever the platform answers and whether the calls return or
    raise, a monitor without a process has no reader, a bound monitor
    has a StatReader, a StatusReader and an IoReader that carry its
    process id and its id, and the id and the target of the monitor are
    those of the configuration. *)
Theorem monitor_binding_kept (config : gmap string json) (m : ProcessMonitor)
    (platforms : list Platform) (w : World) :
  _initialize config = Ok m ->
  let s' := run_monitor_cycles platforms (m, w) in
  bound_readers (fst s') /\ same_config m (fst s').
Proof.
  intros Hinit s'. destruct (initialize_unbound config m Hinit) as [Hpid Hg].
  assert (Hinv : bound_readers m) by (unfold bound_readers; rewrite Hpid; exact Hg).
  destruct (run_monitor_cycles_trace platforms (m, w) Hinv) as (H1 & H2 & _).
  auto.
Qed.

Lemma monitor_binding_kept_witness :
  bound_readers
    (fst (run_monitor_cycles [Scenario.platform; stuck_handle]
            (monitor_of "42", Scenario.world0))).
Proof.
  apply (monitor_binding_kept {[ "id" := JStr "agent"; "pid" := JStr "42" ]}
           (monitor_of "42") [Scenario.platform; stuck_handle] Scenario.world0).
  reflexivity.
Defined.

(** X12: every metric of a monitor carries its id.  Over every sequence
    of [gather_sample] calls of a monitor whose readers belong to its
    binding, each metric that is emitted has the id of the monitor in
    its [app] field. *)
Theorem monitor_metrics_tagged (platforms : list Platform) (s : MSt) :
  bound_readers (fst s) ->
  exists evs,
    w_log (snd (run_monitor_cycles platforms s)) = w_log (snd s) ++ evs
    /\ Forall (tagged (__id (fst s))) evs.
Proof.
  intros Hinv. destruct (run_monitor_cycles_trace platforms s Hinv) as (_ & _ & H).
  exact H.
Qed.

Lemma monitor_metrics_tagged_witness :
  exists evs,
    w_log (snd (run_monitor_cycles [Scenario.platform]
                  (tomcat_monitor, Scenario.world0)))
    = evs
    /\ Forall (tagged "tomcat") evs.
Proof.
  apply (monitor_metrics_tagged [Scenario.platform] (tomcat_monitor, Scenario.world0)).
  split; [reflexivity | repeat constructor].
Defined.

(** X19: what a cycle of a reader does to its surroundings.  Returning
    or raising, [run_single_cycle] leaves the platform as it is and adds
    to the log only file operations, error messages and metrics that
    carry the id of the reader; it sends no signal and starts no
    process. *)
Theorem reader_cycle_events (r : Reader) (w : World) :
  appends (reader_event (_id r)) w (snd (snd (run_single_cycle (r, w)))).
Proof. exact (proj2 (run_single_cycle_trace (_id r) (r, w) eq_refl)). Qed.

(* ===================================================================== *)
(** * Losing and finding the process *)
(* ===================================================================== *)

Lemma match_commandline_pure (matcher : string) (output : list string) (s : MSt) :
  snd (match_commandline matcher output s) = s.
Proof.
  induction output as [|line rest IH]; simpl; [reflexivity|].
  destruct (0 <? Py.find (Py.strip line) " "); [|exact IH].
  unfold Sys.re_search, Sys.ask. run_monad.
  destruct (Py.int _) as [pid|]; simpl; [|destruct s; reflexivity].
  destruct (os_re_search _ _ _) as [[]|e]; simpl; try (destruct s; reflexivity).
  destruct s as [m w]. exact IH.
Qed.

(** Selection leaves the monitor as it is. *)
Lemma select_process_keeps (m : ProcessMonitor) (w : World) :
  fst (snd (select_process (m, w))) = m.
Proof.
  cut (keeps eq select_process); [intros H; symmetry; apply H|].
  unfold select_process.
  frame (@eq_refl ProcessMonitor) (@eq_trans ProcessMonitor).
  - intros o w0. rewrite match_commandline_pure. reflexivity.
  - intros e h He. destruct e; try discriminate He. injection He as <-.
    frame (@eq_refl ProcessMonitor) (@eq_trans ProcessMonitor).
Qed.

Lemma each_gather_nil (method : M RSt unit) (m : ProcessMonitor) (w : World) :
  __gathers m = [] ->
  each_gather method (m, w) = (Ok tt, (with_gathers [] m, w)).
Proof. intros H. unfold each_gather. simpl. rewrite H. reflexivity. Qed.

(** The cycle of a monitor without a process is the selection, the
    binding to what it found and the loop over the readers. *)
Lemma monitor_gather_sample_unbound (m : ProcessMonitor) (w : World) :
  __pid m = None ->
  monitor_gather_sample (m, w)
  = match select_process (m, w) with
    | (Ok pid, (_, w')) =>
        each_gather run_single_cycle
          (with_process pid (readers_for pid (__id m) (w_os w')) m, w')
    | (Raise e, s') => (Raise e, s')
    end.
Proof.
  intros Hpid. unfold monitor_gather_sample.
  unfold mbind at 1 2 3 4. unfold M_bind, bind, self, ret. simpl.
  rewrite Hpid. cbv beta iota delta [fst snd]. rewrite Hpid.
  unfold mbind at 1. unfold M_bind, bind.
  pose proof (select_process_keeps m w) as Hm.
  destruct (select_process (m, w)) as [[pid|e] [m' w']]; simpl in *; subst m';
    [|reflexivity].
  rewrite (set_process_unbound pid m w' Hpid). reflexivity.
Qed.

(** X14: a cycle of a monitor without a process.  The target is
    resolved in every such cycle.  When a process is found the monitor
    binds to it, builds its three readers and runs them in that same
    cycle; when none is found the cycle returns and the monitor stays
    without a process and without readers. *)
Theorem unbound_cycle (m : ProcessMonitor) (w : World) (pid : option Z) (w' : World) :
  __pid m = None ->
  select_process (m, w) = (Ok pid, (m, w')) ->
  monitor_gather_sample (m, w)
  = each_gather run_single_cycle
      (with_process pid (readers_for pid (__id m) (w_os w')) m, w')
  /\ (pid = None ->
      monitor_gather_sample (m, w) = (Ok tt, (with_process None [] m, w'))).
Proof.
  intros Hpid Hsel.
  rewrite (monitor_gather_sample_unbound m w Hpid), Hsel.
  split; [reflexivity|]. intros ->. reflexivity.
Qed.

Lemma unbound_cycle_witness :
  __pid (fst (snd (monitor_gather_sample (monitor_of "$$", Scenario.world0))))
  = Some 42.
Proof.
  rewrite (proj1 (unbound_cycle (monitor_of "$$") Scenario.world0 (Some 42)
                    (logged [EvKill 42] Scenario.world0) eq_refl eq_refl)).
  apply (proj1 (each_gather_keeps_binding
                  (with_process (Some 42)
                     (readers_for (Some 42) "agent" Scenario.platform)
                     (monitor_of "$$"))
                  (logged [EvKill 42] Scenario.world0))).
Defined.

(** X13: a process that is gone.  When the probe of a bound monitor
    fails with errno 3 and the files of the readers close, the cycle
    closes each open file, drops the process id and the readers, and
    goes on at once as the cycle of a monitor without a process: the
    target is resolved again in the same call of [gather_sample]. *)
Theorem dead_process_unbinds (m : ProcessMonitor) (w : World) (p : Z) :
  __pid m = Some p ->
  os_kill (w_os w) p = Raise (OSError 3) ->
  Forall (fun h => os_close (w_os w) h = Ok tt) (open_handles (__gathers m)) ->
  monitor_gather_sample (m, w)
  = monitor_gather_sample
      (with_process None [] m,
       logged (EvKill p :: map EvClose (open_handles (__gathers m))) w).
Proof.
  intros Hpid Hkill Hclose.
  rewrite (monitor_gather_sample_unbound (with_process None [] m) _ eq_refl).
  unfold monitor_gather_sample at 1.
  unfold mbind at 1 2 3 4. unfold M_bind, bind, self, ret. simpl.
  rewrite Hpid. unfold mbind at 1. unfold M_bind, bind.
  rewrite (is_running_kill m w p Hpid), Hkill. simpl.
  rewrite (set_process_bound None m (logged [EvKill p] w) p Hpid).
  rewrite (run_readers_close _ (logged [EvKill p] w) Hclose).
  rewrite logged_logged. cbv beta iota delta [fst snd]. simpl.
  unfold mbind at 1. unfold M_bind, bind.
  match goal with
  | |- context [select_process (?m1, ?w1)] =>
      pose proof (select_process_keeps m1 w1) as Hm;
      destruct (select_process (m1, w1)) as [[pid|e] [m' w']]
  end; simpl in *; subst m'; [|reflexivity].
  rewrite (set_process_unbound pid (with_process None [] m) w' eq_refl).
  reflexivity.
Qed.

Lemma dead_process_unbinds_witness :
  monitor_gather_sample (gone_monitor, Scenario.world0)
  = (Ok tt,
     (with_process None [] gone_monitor,
      logged [EvKill 7; EvKill 7] Scenario.world0)).
Proof.
  rewrite (dead_process_unbinds gone_monitor Scenario.world0 7 eq_refl eq_refl);
    [reflexivity | repeat constructor].
Defined.

(** X15: an exception of a reader ends the cycle.  When the process of
    a bound monitor is found alive and [run_single_cycle] of one of the
    readers raises, after the readers before it returned, the cycle of
    the monitor raises that exception and the readers after it are not
    run in that cycle. *)
Theorem reader_exception_ends_cycle (m : ProcessMonitor) (w w' w'' : World) (p : Z)
    (before before' after : list Reader) (r r' : Reader) (e : exn) :
  __pid m = Some p ->
  os_kill (w_os w) p = Ok tt ->
  __gathers m = before ++ r :: after ->
  run_readers run_single_cycle before (logged [EvKill p] w) = (Ok tt, (before', w')) ->
  run_single_cycle (r, w') = (Raise e, (r', w'')) ->
  monitor_gather_sample (m, w)
  = (Raise e, (with_gathers (before' ++ r' :: after) m, w'')).
Proof.
  intros Hpid Hkill Hg Hbefore Hr.
  rewrite (gather_sample_of_running m w (logged [EvKill p] w) p Hpid).
  2:{ rewrite (is_running_kill m w p Hpid), Hkill. reflexivity. }
  unfold each_gather. simpl. rewrite Hg, run_readers_app, Hbefore. simpl.
  rewrite Hr. reflexivity.
Qed.

Lemma reader_exception_ends_cycle_witness :
  fst (monitor_gather_sample
         (tomcat_monitor, {| w_os := reading ""; w_tick := 0; w_log := [] |}))
  = Raise IndexError.
Proof.
  rewrite (reader_exception_ends_cycle tomcat_monitor
             {| w_os := reading ""; w_tick := 0; w_log := [] |}
             {| w_os := reading ""; w_tick := 0; w_log := [EvKill 42] |}
             {| w_os := reading ""; w_tick := 1;
                w_log := [EvKill 42; EvSeek 1%nat; EvRead 1%nat] |}
             42 [] []
             [new_StatusReader 42 "tomcat"; with_file (Some 3%nat) io_reader]
             (with_file (Some 1%nat) (Scenario.stat_reader 100))
             (with_timestamp (Some 1000)
                (with_file (Some 1%nat) (Scenario.stat_reader 100)))
             IndexError eq_refl eq_refl eq_refl eq_refl eq_refl).
  reflexivity.
Defined.

(* ===================================================================== *)
(** * Selection by the command line *)
(* ===================================================================== *)

Lemma no_space_first_occurrence (a b : string) :
  all_chars (fun c => negb (Py.is_space c)) a = true ->
  first_occurrence " " a (a +:+ " " +:+ b) b.
Proof.
  intros Ha. split; [reflexivity|].
  induction a as [|c a IH]; intros p r Hp; simpl; [lia|].
  simpl in Ha. apply andb_true_iff in Ha. destruct Ha as [Hc Ha].
  change (String c a +:+ " " +:+ b) with (String c (a +:+ " " +:+ b)) in Hp.
  destruct p as [|d p].
  - change ("" +:+ " " +:+ r) with (String " " r) in Hp.
    injection Hp as -> _. discriminate Hc.
  - change (String d p +:+ " " +:+ r) with (String d (p +:+ " " +:+ r)) in Hp.
    injection Hp as _ Hp. specialize (IH Ha p r Hp). simpl. lia.
Qed.

Lemma str_of_int_shape (n : Z) :
  Py.str_of_int n <> ""
  /\ all_chars (fun c => negb (Py.is_space c)) (Py.str_of_int n) = true.
Proof.
  destruct n as [|p|p].
  - split; [discriminate | reflexivity].
  - destruct (str_of_pos p) as (-> & _ & Hne & Hd & _).
    split; [exact Hne | apply digits_no_space, Hd].
  - destruct (str_of_pos p) as (_ & -> & _ & Hd & _).
    split; [discriminate|]. simpl. apply digits_no_space, Hd.
Qed.

(** The loop of the selection on a row of the table. *)
Lemma match_commandline_row (matcher : string) (row : Z * string) (line : string)
    (rest : list string) (m : ProcessMonitor) (w : World) :
  ps_row row line ->
  match_commandline matcher (line :: rest) (m, w)
  = match os_re_search (w_os w) matcher (snd row) with
    | Ok true => (Ok (Some (fst row)), (m, w))
    | Ok false => match_commandline matcher rest (m, w)
    | Raise e => (Raise e, (m, w))
    end.
Proof.
  unfold ps_row. destruct row as [pid cmd]. simpl. intros ->.
  destruct (str_of_int_shape pid) as [Hne Hns].
  pose proof (no_space_first_occurrence (Py.str_of_int pid) cmd Hns) as Hfirst.
  pose proof (find_first_occurrence _ _ _ _ Hfirst) as Hfind.
  pose proof (slice_after_first_occurrence _ _ _ _ Hfirst) as Hcmd.
  simpl String.length in Hcmd. change (Z.of_nat 1) with 1 in Hcmd.
  rewrite Hcmd, Hfind.
  assert (Hlen : (0 < String.length (Py.str_of_int pid))%nat).
  { destruct (Py.str_of_int pid); [congruence | simpl; lia]. }
  replace (0 <? Z.of_nat (String.length (Py.str_of_int pid))) with true
    by (symmetry; apply Z.ltb_lt; lia).
  assert (Hpid : Py.slice_to (Z.of_nat (String.length (Py.str_of_int pid)))
                   (Py.str_of_int pid +:+ " " +:+ cmd) = Py.str_of_int pid).
  { unfold Py.slice_to, Py.slice_index. rewrite length_app.
    replace (Z.of_nat (String.length (Py.str_of_int pid)) <? 0) with false
      by (symmetry; apply Z.ltb_ge; lia).
    rewrite Z.min_l by lia. rewrite Nat2Z.id. apply take_app. }
  rewrite Hpid, int_str_of_int.
  unfold Sys.re_search, Sys.ask. run_monad.
  destruct (os_re_search (w_os w) matcher cmd) as [[]|e]; reflexivity.
Qed.

Lemma match_commandline_rows (matcher : string) (matches : string -> bool)
    (m : ProcessMonitor) (w : World) :
  (forall cmd, os_re_search (w_os w) matcher cmd = Ok (matches cmd)) ->
  forall rows lines,
    Forall2 ps_row rows lines ->
    match_commandline matcher lines (m, w)
    = (Ok (fst <$> List.find (fun row => matches (snd row)) rows), (m, w)).
Proof.
  intros Hre rows lines H. induction H as [|row line rows lines Hrow _ IH].
  - reflexivity.
  - rewrite (match_commandline_row matcher row line lines m w Hrow), Hre.
    simpl. destruct (matches (snd row)); [reflexivity | exact IH].
Qed.

(** X16: selection by the command line takes the first match.  On a
    process table whose rows after the header show a process id and a
    command line each, and with a pattern the search decides on every
    command line, [__select_process] returns the process id of the
    first row, in the order of the table, whose command line matches,
    and none when no row matches; the header is never a candidate, and
    the subprocess is waited for. *)
Theorem select_process_first_match (m : ProcessMonitor) (w : World)
    (matcher header : string) (lines : list string) (rows : list (Z * string))
    (matches : string -> bool) :
  __commandline_matcher m = Some matcher ->
  os_ps (w_os w) = Ok (header :: lines) ->
  Forall2 ps_row rows lines ->
  (forall cmd, os_re_search (w_os w) matcher cmd = Ok (matches cmd)) ->
  select_process (m, w)
  = (Ok (fst <$> List.find (fun row => matches (snd row)) rows),
     (m, logged [EvSpawnPs; EvWait] w)).
Proof.
  intros Hc Hps Hrows Hre.
  pose proof (match_commandline_rows matcher matches m (logged [EvSpawnPs] w)
                Hre rows lines Hrows) as Hscan.
  unfold select_process, Sys.spawn_ps, Sys.wait, Sys.ask, Sys.log.
  run_monad. rewrite Hc. simpl. rewrite Hps. simpl.
  change (with_log (w_log w ++ [EvSpawnPs]) w) with (logged [EvSpawnPs] w).
  rewrite Hscan. unfold logged, with_log. simpl. rewrite <- app_assoc. reflexivity.
Qed.

Lemma select_process_first_match_witness :
  select_process (pattern_monitor, Scenario.world0)
  = (Ok (Some 42), (pattern_monitor, logged [EvSpawnPs; EvWait] Scenario.world0)).
Proof.
  apply (select_process_first_match pattern_monitor Scenario.world0
           "java.*tomcat" "  PID COMMAND" ["    1 /sbin/init"; "   42 java tomcat"]
           [(1, "/sbin/init"); (42, "java tomcat")]
           (fun text => String.eqb text "java tomcat") eq_refl eq_refl).
  - repeat constructor.
  - intros cmd. reflexivity.
Defined.

(** X17: the subprocess of the selection is always waited for.  In
    command-line mode, once [ps] has started, [__select_process] waits
    for it before it ends, whether the scan of the table returns or
    raises (a row whose first token is no integer, a pattern the search
    rejects), and does nothing else to the platform; when [ps] cannot
    be started, the exception is that of the method and nothing is
    waited for.  The monitor is left as it is. *)
Theorem ps_always_waited_for (m : ProcessMonitor) (w : World) (matcher : string) :
  __commandline_matcher m = Some matcher ->
  match os_ps (w_os w) with
  | Ok _ => snd (select_process (m, w)) = (m, logged [EvSpawnPs; EvWait] w)
  | Raise e => select_process (m, w) = (Raise e, (m, logged [EvSpawnPs] w))
  end.
Proof.
  intros Hc.
  destruct (os_ps (w_os w)) as [out|e] eqn:Hps;
    unfold select_process, Sys.spawn_ps, Sys.wait, Sys.ask, Sys.log;
    run_monad; rewrite Hc; simpl; rewrite Hps; simpl; [|reflexivity].
  match goal with
  | |- context [match_commandline ?a ?b ?s] =>
      pose proof (match_commandline_pure a b s) as Hpure;
      destruct (match_commandline a b s) as [res s']
  end.
  simpl in *. subst s'. simpl.
  unfold logged, with_log. simpl. rewrite <- app_assoc. reflexivity.
Qed.

Lemma ps_always_waited_for_witness :
  snd (select_process (pattern_monitor, with_os odd_table Scenario.world0))
  = (pattern_monitor, logged [EvSpawnPs; EvWait] (with_os odd_table Scenario.world0)).
Proof.
  exact (ps_always_waited_for pattern_monitor
           (with_os odd_table Scenario.world0) "java.*tomcat" eq_refl).
Defined.

(* ===================================================================== *)
(** * From the configuration to the files *)
(* ===================================================================== *)

Lemma digit_not_dollar (c : ascii) : Py.is_digit c = true -> Ascii.eqb c "$" = false.
Proof. destruct c as [[] [] [] [] [] [] [] []]; try discriminate; reflexivity. Qed.

(** The text of an integer is never the sentinel of the agent's own
    process. *)
Lemma str_not_sentinel (n : Z) : String.eqb (Py.str_of_int n) "$$" = false.
Proof.
  destruct n as [|p|p]; [reflexivity| |].
  - destruct (str_of_pos p) as (-> & _ & Hne & Hd & _).
    destruct (NilEmpty.string_of_uint (Pos.to_uint p)) as [|c s]; [congruence|].
    simpl in Hd. apply andb_true_iff in Hd. destruct Hd as [Hc _].
    simpl. rewrite (digit_not_dollar c Hc). reflexivity.
  - destruct (str_of_pos p) as (_ & -> & _). reflexivity.
Qed.

(** X18: a process id given as a number.  A configuration with an id,
    no command line and an integer [pid] is accepted, and the monitor it
    gives probes exactly that process: the number is printed by the
    conversion of the option and read back by [int()] without loss, and
    its text is never taken for the sentinel [$$]. *)
Theorem configured_pid_is_probed (config : gmap string json) (idv : json) (n : Z)
    (w : World) :
  config !! "id" = Some idv ->
  config !! "commandline" = None ->
  config !! "pid" = Some (JInt n) ->
  exists m,
    _initialize config = Ok m
    /\ select_process (m, w)
       = match os_kill (w_os w) n with
         | Ok _ => (Ok (Some n), (m, logged [EvKill n] w))
         | Raise (OSError _) => (Ok None, (m, logged [EvKill n] w))
         | Raise e => (Raise e, (m, logged [EvKill n] w))
         end.
Proof.
  intros Hid Hc Hp.
  exists {| __pid := None; __gathers := []; __id := convert_to_str idv;
            __commandline_matcher := None;
            __target_pid := Some (Py.str_of_int n) |}.
  split.
  - unfold _initialize, config_get. rewrite Hid, Hc, Hp. reflexivity.
  - apply (select_process_kill _ w (Py.str_of_int n) n); [reflexivity ..|].
    unfold resolve_target. rewrite str_not_sentinel. apply int_str_of_int.
Qed.

Lemma configured_pid_is_probed_witness :
  exists m,
    _initialize {[ "id" := JStr "tomcat"; "pid" := JInt 42 ]} = Ok m
    /\ select_process (m, Scenario.world0)
       = (Ok (Some 42), (m, logged [EvKill 42] Scenario.world0)).
Proof.
  exact (configured_pid_is_probed {[ "id" := JStr "tomcat"; "pid" := JInt 42 ]}
           (JStr "tomcat") 42 Scenario.world0 eq_refl eq_refl eq_refl).
Defined.

Lemma seek_gather_trace (id : string) (f : handle) :
  preserves (reader_trace id) (world (Sys.seek f);; gather_sample f).
Proof.
  apply (preserves_bind _ (reader_trace_trans id)).
  - apply reader_trace_world. preserve_sys (reader_event id).
  - intros _. apply gather_sample_trace.
Qed.

(** The first thing a cycle of a new reader does is to open its file. *)
Lemma first_cycle_opens (r : Reader) (w : World) (filename : string) :
  _failed r = false ->
  _file r = None ->
  format (_file_pattern r) (_pid r) = Ok filename ->
  exists evs,
    w_log (snd (snd (run_single_cycle (r, w)))) = w_log w ++ EvOpen filename :: evs.
Proof.
  intros Hf Hfile Hfmt. rewrite (run_single_cycle_live r w filename Hf Hfmt).
  cbv zeta. rewrite Hfile.
  destruct (os_open (w_os w) filename) as [f|e].
  - destruct (seek_gather_trace (_id r) f
                (with_file (Some f) (with_timestamp (Some (cycle_time w)) r),
                 logged [EvOpen filename] (ticked w)) eq_refl)
      as (_ & _ & evs & L & _).
    exists evs. unfold RSt in *. rewrite L. simpl. rewrite <- app_assoc. reflexivity.
  - destruct e as [errno| | | | | | | |]; try (exists []; reflexivity).
    destruct (errno =? 13); [eexists; reflexivity|].
    destruct (errno =? 2); [eexists; reflexivity|]. exists []. reflexivity.
Qed.

(** X20: the files of a binding.  The first thing each of the three
    readers built for the process [p] does in its first cycle is to
    open /proc/p/stat, /proc/p/status and /proc/p/io, in this order of
    the readers, [p] being printed in decimal. *)
Theorem fresh_readers_open (p : Z) (id : string) (os : Platform) (w : World) :
  Forall2
    (fun r name =>
       exists evs,
         w_log (snd (snd (run_single_cycle (r, w))))
         = w_log w ++ EvOpen ("/proc/" +:+ Py.str_of_int p +:+ name) :: evs)
    (readers_for (Some p) id os) ["/stat"; "/status"; "/io"].
Proof.
  repeat constructor; apply first_cycle_opens; reflexivity.
Qed.

(* ===================================================================== *)
(** * Tick counters *)
(* ===================================================================== *)

(** X21: the conversions keep the order of tick counts.  Within the 53
    bits on which the doubles are exact, a tick count that is not below
    another is converted to a number of centiseconds, and of
    milliseconds, that is not below that of the other: a counter that
    does not decrease is reported as one that does not decrease. *)
Theorem calculate_time_monotone (t1 t2 : Z) (r : Reader) (w : World) :
  0 < _jiffies_per_sec r < 2 ^ 53 ->
  Z.abs t1 * 1000 < 2 ^ 53 ->
  Z.abs t2 * 1000 < 2 ^ 53 ->
  t1 <= t2 ->
  exists c1 c2 m1 m2,
    calculate_time_cs t1 (r, w) = (Ok c1, (r, w))
    /\ calculate_time_cs t2 (r, w) = (Ok c2, (r, w))
    /\ calculate_time_ms t1 (r, w) = (Ok m1, (r, w))
    /\ calculate_time_ms t2 (r, w) = (Ok m2, (r, w))
    /\ c1 <= c2 /\ m1 <= m2.
Proof.
  intros Hhz H1 H2 Hle.
  exists (Z.quot (t1 * 100) (_jiffies_per_sec r)),
         (Z.quot (t2 * 100) (_jiffies_per_sec r)),
         (Z.quot (t1 * 1000) (_jiffies_per_sec r)),
         (Z.quot (t2 * 1000) (_jiffies_per_sec r)).
  unfold calculate_time_cs, calculate_time_ms.
  rewrite !(calculate_time_exact 100), !(calculate_time_exact 1000) by lia.
  repeat split; apply Z.quot_le_mono; lia.
Qed.

Lemma calculate_time_monotone_witness :
  exists c1 c2,
    calculate_time_cs 130 (Scenario.stat_reader 100, Scenario.world0)
    = (Ok c1, (Scenario.stat_reader 100, Scenario.world0))
    /\ calculate_time_cs 250 (Scenario.stat_reader 100, Scenario.world0)
       = (Ok c2, (Scenario.stat_reader 100, Scenario.world0))
    /\ c1 <= c2.
Proof.
  destruct (calculate_time_monotone 130 250 (Scenario.stat_reader 100)
              Scenario.world0) as (c1 & c2 & _ & _ & E1 & E2 & _ & _ & Hc & _);
    [simpl; lia | lia | lia | lia |].
  exists c1, c2. auto.
Defined.

(** X22: a clock rate of zero.  On a reader whose clock rate is zero,
    the conversion of every tick count a double can hold raises
    ZeroDivisionError, and a tick count beyond the doubles raises
    OverflowError; the reader and the world are left as they are. *)
Theorem calculate_time_zero_rate (scale : PyFloat.float) (t : Z) (r : Reader)
    (w : World) :
  _jiffies_per_sec r = 0 ->
  calculate_time scale t (r, w)
  = (match PyFloat.of_int t with
     | Ok _ => Raise ZeroDivisionError
     | Raise e => Raise e
     end, (r, w)).
Proof.
  intros Hhz. rewrite calculate_time_conversion, Hhz. unfold conversion.
  destruct (PyFloat.of_int t) as [ticks|e]; reflexivity.
Qed.

Lemma calculate_time_zero_rate_witness :
  calculate_time_cs 250 (Scenario.stat_reader 0, Scenario.world0)
  = (Raise ZeroDivisionError, (Scenario.stat_reader 0, Scenario.world0)).
Proof.
  exact (calculate_time_zero_rate (PyFloat.literal 100) 250
           (Scenario.stat_reader 0) Scenario.world0 eq_refl).
Defined.

(* ===================================================================== *)
(** * The sockstat parser *)
(* ===================================================================== *)

Lemma sockstat_match_digits (s name num : string) :
  sockstat_match s = Some (name, num) ->
  name <> "" /\ all_chars is_word name = true
  /\ num <> "" /\ all_chars Py.is_digit num = true
  /\ exists rest,
       starts_with Py.is_digit rest = false
       /\ s = name +:+ ": inuse " +:+ num +:+ rest.
Proof.
  unfold sockstat_match.
  destruct (span is_word s) as [n r1] eqn:E1.
  destruct (span_spec _ _ _ _ E1) as (-> & Hn & _).
  destruct (Py.is_empty n) eqn:En; [discriminate|].
  destruct (String.prefix ": inuse " r1) eqn:Ep; [|discriminate].
  apply prefix_app in Ep. destruct Ep as [r2 ->].
  change (Py.drop 8 (": inuse " +:+ r2)) with r2.
  destruct (span Py.is_digit r2) as [d rest] eqn:E3.
  destruct (span_spec _ _ _ _ E3) as (-> & Hd & Hrest).
  destruct (Py.is_empty d) eqn:Ed; [discriminate|].
  intros [= <- <-].
  apply is_empty_false in En. apply is_empty_false in Ed.
  repeat split; auto. exists rest. auto.
Qed.

Lemma sockstat_search_digits (line name num : string) :
  sockstat_search line = Some (name, num) ->
  num <> "" /\ all_chars Py.is_digit num = true.
Proof.
  induction line as [|c line IH]; [discriminate|].
  cbn [sockstat_search].
  destruct (sockstat_match (String c line)) as [[a b]|] eqn:E; [|exact IH].
  intros [= -> ->]. apply sockstat_match_digits in E. tauto.
Qed.

Lemma sockstat_line_run (line : string) (r : Reader) (w : World) :
  match sockstat_search line with
  | Some (name, digits) =>
      n ← or_raise ValueError (Py.int digits);
      print_sample "app.net.sockets_in_use" (VInt n) (Some (PyFloat.lower name))
  | None => ret tt
  end (r, w)
  = (Ok tt, (r, logged (option_list (sockstat_sample (_id r) line)) w)).
Proof.
  unfold sockstat_sample.
  destruct (sockstat_search line) as [[name num]|] eqn:E.
  2:{ simpl. rewrite logged_nil. reflexivity. }
  destruct (sockstat_search_digits line name num E) as [Hne Hd].
  rewrite (int_of_digits num Hne Hd).
  destruct (digits_from_total num Hd 0 ltac:(lia)) as (n & -> & _).
  unfold mbind, M_bind, bind. simpl. apply print_sample_ok.
Qed.

(** X23: the sockstat parser raises on no file content.  Once the file
    is read, [SockStatReader.gather_sample] returns normally and leaves
    the reader as it is; it emits, in the order of the file, one
    app.net.sockets_in_use metric for each line in which the pattern
    [(\w+): inuse (\d+)] is found, with the number as the value and the
    name in lower case as the type. *)
Theorem sockstat_parser_total (h : handle) (text : string) (r : Reader) (w : World) :
  os_read (w_os w) h = Ok text ->
  sockstat_gather_sample h (r, w)
  = (Ok tt,
     (r, logged (EvRead h :: omap (sockstat_sample (_id r)) (Py.lines text)) w)).
Proof.
  intros Hread. unfold sockstat_gather_sample.
  rewrite (bind_ok _ _ _ _ _ (readlines_ok h text r w Hread)).
  change (EvRead h :: omap (sockstat_sample (_id r)) (Py.lines text))
    with ([EvRead h] ++ omap (sockstat_sample (_id r)) (Py.lines text)).
  rewrite <- logged_logged. generalize (logged [EvRead h] w) as w1.
  induction (Py.lines text) as [|line rest IH]; intros w1; simpl.
  - rewrite logged_nil. reflexivity.
  - unfold bind. rewrite sockstat_line_run. rewrite IH, logged_logged.
    destruct (sockstat_sample (_id r) line); reflexivity.
Qed.

Lemma sockstat_parser_total_witness :
  sockstat_gather_sample 7%nat
    (new_reader BaseReader 42 "tomcat" "/proc/%ld/net/sockstat",
     {| w_os := reading sockstat_text; w_tick := 0; w_log := [] |})
  = (Ok tt,
     (new_reader BaseReader 42 "tomcat" "/proc/%ld/net/sockstat",
      {| w_os := reading sockstat_text; w_tick := 0;
         w_log := [EvRead 7%nat;
                   sample "tomcat" "app.net.sockets_in_use" (VInt 5) (Some "tcp");
                   sample "tomcat" "app.net.sockets_in_use" (VInt 3) (Some "udp");
                   sample "tomcat" "app.net.sockets_in_use" (VInt 0) (Some "frag")] |})).
Proof.
  exact (sockstat_parser_total 7%nat sockstat_text
           (new_reader BaseReader 42 "tomcat" "/proc/%ld/net/sockstat")
           {| w_os := reading sockstat_text; w_tick := 0; w_log := [] |} eq_refl).
Defined.

Lemma sockstat_match_head (name num rest : string) :
  name <> "" -> all_chars is_word name = true ->
  num <> "" -> all_chars Py.is_digit num = true ->
  starts_with Py.is_digit rest = false ->
  sockstat_match (name +:+ ": inuse " +:+ num +:+ rest) = Some (name, num).
Proof.
  intros Hn Hwn Hd Hnum Hrest. unfold sockstat_match.
  rewrite (span_unique is_word name (": inuse " +:+ num +:+ rest) Hwn eq_refl).
  apply is_empty_false in Hn. rewrite Hn.
  rewrite app_prefix.
  change (Py.drop 8 (": inuse " +:+ num +:+ rest)) with (num +:+ rest).
  rewrite (span_unique Py.is_digit num rest Hnum Hrest).
  apply is_empty_false in Hd. rewrite Hd. reflexivity.
Qed.

(** X24: what the search of [(\w+): inuse (\d+)] finds.  The groups
    it returns stand in the line as a non-empty run of word characters,
    the text [: inuse ], and a non-empty run of digits that no digit
    follows; and a line that begins in this way yields these two
    groups. *)
Theorem sockstat_search_groups (line name num : string) :
  (sockstat_search line = Some (name, num) ->
   name <> "" /\ all_chars is_word name = true
   /\ num <> "" /\ all_chars Py.is_digit num = true
   /\ exists pre rest,
        starts_with Py.is_digit rest = false
        /\ line = pre +:+ name +:+ ": inuse " +:+ num +:+ rest)
  /\ (name <> "" -> all_chars is_word name = true ->
      num <> "" -> all_chars Py.is_digit num = true ->
      forall rest,
        starts_with Py.is_digit rest = false ->
        sockstat_search (name +:+ ": inuse " +:+ num +:+ rest) = Some (name, num)).
Proof.
  split.
  - induction line as [|c line IH]; [discriminate|].
    cbn [sockstat_search].
    destruct (sockstat_match (String c line)) as [[a b]|] eqn:E.
    + intros [= -> ->]. apply sockstat_match_digits in E.
      destruct E as (H1 & H2 & H3 & H4 & rest & H5 & H6).
      repeat split; auto. exists "", rest. auto.
    + intros H. destruct (IH H) as (H1 & H2 & H3 & H4 & pre & rest & H5 & ->).
      repeat split; auto. exists (String c pre), rest. auto.
  - intros Hn Hwn Hd Hnum rest Hrest.
    pose proof (sockstat_match_head name num rest Hn Hwn Hd Hnum Hrest) as H.
    destruct (name +:+ ": inuse " +:+ num +:+ rest); cbn [sockstat_search];
      rewrite H; reflexivity.
Qed.

Lemma sockstat_search_groups_witness :
  sockstat_search "TCP: inuse 5 orphan 0" = Some ("TCP", "5").
Proof.
  apply (proj2 (sockstat_search_groups "TCP: inuse 5 orphan 0" "TCP" "5"));
    try discriminate; reflexivity.
Defined.

(* ===================================================================== *)
(** * The status page of Apache *)
(* ===================================================================== *)

Lemma prefix_nil (s : string) : String.prefix "" s = true.
Proof. destruct s; reflexivity. Qed.

Lemma prefix_cons (c d : ascii) (a s : string) :
  String.prefix (String c a) (String d s) = true <-> c = d /\ String.prefix a s = true.
Proof.
  simpl. destruct (ascii_dec c d) as [->|Hne]; [tauto|].
  split; [discriminate | tauto].
Qed.

(** Two texts a line starts with: one starts with the other. *)
Lemma prefix_comparable (line : string) :
  forall a b,
    String.prefix a line = true -> String.prefix b line = true ->
    String.prefix a b = true \/ String.prefix b a = true.
Proof.
  induction line as [|d line IH]; intros a b Ha Hb.
  - destruct a; [|discriminate Ha]. left. apply prefix_nil.
  - destruct a as [|c a]; [left; apply prefix_nil|].
    destruct b as [|c' b]; [right; reflexivity|].
    apply prefix_cons in Ha. apply prefix_cons in Hb.
    destruct Ha as [-> Ha]. destruct Hb as [-> Hb].
    destruct (IH a b Ha Hb) as [H|H]; [left | right];
      apply prefix_cons; auto.
Qed.

Lemma fields_keys_apart : keys_apart Apache.fields = true.
Proof. vm_compute. reflexivity. Qed.

(** A line starts with one key of [fields] at most. *)
Lemma keys_exclusive (line : string) (a b : string * string) :
  List.In a Apache.fields -> List.In b Apache.fields ->
  starts_with_key line a = true -> starts_with_key line b = true ->
  a = b.
Proof.
  intros Ia Ib Ha Hb. unfold starts_with_key in *.
  pose proof fields_keys_apart as T. unfold keys_apart in T.
  rewrite forallb_forall in T.
  assert (Hab : forall x y, List.In x Apache.fields -> List.In y Apache.fields ->
                  String.prefix (fst x) (fst y) = true -> x = y).
  { intros x y Ix Iy Hp. specialize (T x Ix). rewrite forallb_forall in T.
    specialize (T y Iy). rewrite Hp in T. simpl in T.
    apply andb_true_iff in T. destruct T as [T1 T2].
    apply String.eqb_eq in T1. apply String.eqb_eq in T2.
    destruct x, y; simpl in *; congruence. }
  destruct (prefix_comparable line (fst a) (fst b) Ha Hb) as [H|H].
  - apply Hab; assumption.
  - symmetry. apply Hab; assumption.
Qed.

Lemma fields_NoDup : List.NoDup Apache.fields.
Proof.
  unfold Apache.fields.
  repeat (constructor; [simpl; intuition discriminate|]). constructor.
Qed.

Lemma filter_Permutation' {A} (f : A -> bool) (l l' : list A) :
  Permutation l l' -> Permutation (List.filter f l) (List.filter f l').
Proof.
  induction 1 as [|x l l' _ IH|x y l|l l' l'' _ IH1 _ IH2]; simpl.
  - constructor.
  - destruct (f x); [constructor|]; exact IH.
  - destruct (f x), (f y); try reflexivity. constructor.
  - etransitivity; eauto.
Qed.

Lemma filter_at_most_one {A} (f : A -> bool) (l : list A) :
  List.NoDup l ->
  (forall x y, List.In x l -> List.In y l -> f x = true -> f y = true -> x = y) ->
  (length (List.filter f l) <= 1)%nat.
Proof.
  induction 1 as [|x l Hx Hnd IH]; intros Hex; simpl; [lia|].
  assert (IH' : (length (List.filter f l) <= 1)%nat).
  { apply IH. intros a b Ia Ib. apply Hex; right; assumption. }
  destruct (f x) eqn:Hfx; [|exact IH'].
  destruct (List.filter f l) as [|y rest] eqn:E; [simpl; lia|].
  exfalso. assert (Hy : List.In y (List.filter f l)) by (rewrite E; left; reflexivity).
  apply filter_In in Hy. destruct Hy as [Iy Hfy].
  apply Hx. rewrite (Hex x y); auto; [left; reflexivity | right; exact Iy].
Qed.

Lemma short_Permutation {A} (l l' : list A) :
  Permutation l l' -> (length l <= 1)%nat -> l = l'.
Proof.
  intros H Hlen. destruct l as [|a [|b l]]; simpl in Hlen; try lia.
  - apply Permutation_nil in H. congruence.
  - apply Permutation_length_1_inv in H. congruence.
Qed.

(** The keys the line does not start with do nothing. *)
Lemma scan_keys_filter (line : string) (order : list (string * string)) :
  forall acc,
    Apache.scan_keys order line acc
    = Apache.scan_keys (List.filter (starts_with_key line) order) line acc.
Proof.
  induction order as [|[key name] rest IH]; intros acc; [reflexivity|].
  simpl. unfold starts_with_key at 1. simpl fst.
  destruct (String.prefix key line) eqn:Hp; [|apply IH].
  simpl. rewrite Hp. destruct (Py.split line !! 1%nat); [apply IH | reflexivity].
Qed.

Lemma filter_fields (line : string) (order : list (string * string)) :
  Permutation order Apache.fields ->
  List.filter (starts_with_key line) order
  = List.filter (starts_with_key line) Apache.fields.
Proof.
  intros H. symmetry. apply short_Permutation.
  - apply filter_Permutation'. symmetry. exact H.
  - apply filter_at_most_one; [apply fields_NoDup|].
    intros x y. apply keys_exclusive.
Qed.

Lemma scan_keys_order (line : string) (order : list (string * string))
    (acc : gmap string string) :
  Permutation order Apache.fields ->
  Apache.scan_keys order line acc = Apache.scan_keys Apache.fields line acc.
Proof.
  intros H. rewrite scan_keys_filter, (filter_fields line order H).
  symmetry. apply scan_keys_filter.
Qed.

(** X26: the order of the dict does not matter.  No line starts with
    two keys of [fields], so [_parse_data] returns the same dict, or
    raises the same exception, in whatever order the loop over
    [fields] meets the keys. *)
Theorem parse_data_order_irrelevant (order : list (string * string)) (data : string) :
  Permutation order Apache.fields ->
  Apache._parse_data_in order data = Apache._parse_data data.
Proof.
  intros H. unfold Apache._parse_data, Apache._parse_data_in.
  destruct (Apache.skip_blank (Apache.splitlines data)) as [lines|e]; [|reflexivity].
  generalize (∅ : gmap string string) as acc.
  induction lines as [|line rest IH]; intros acc; [reflexivity|].
  cbn [Apache.scan_lines]. rewrite (scan_keys_order line order acc H).
  destruct (Apache.scan_keys Apache.fields line acc); [apply IH | reflexivity].
Qed.

Lemma parse_data_order_irrelevant_witness :
  Apache._parse_data_in (rev Apache.fields) Apache.page
  = Apache._parse_data Apache.page.
Proof.
  apply (parse_data_order_irrelevant (rev Apache.fields) Apache.page).
  symmetry. apply Permutation_rev.
Defined.

Lemma splitlines_blank (s : string) :
  all_chars is_line_end s = true ->
  Forall (fun l => l = "") (Apache.splitlines_from "" s).
Proof.
  induction s as [|c s IH]; intros Hs; [constructor|].
  simpl in Hs. apply andb_true_iff in Hs. destruct Hs as [Hc Hs].
  specialize (IH Hs). cbn [Apache.splitlines_from]. unfold is_line_end in Hc.
  destruct (Ascii.eqb c "010"%char); [constructor; auto|].
  destruct (Ascii.eqb c "013"%char); [|discriminate Hc].
  destruct s as [|d s]; [constructor; auto|].
  destruct (Ascii.eqb_spec d "010"%char) as [->|Hd].
  - exact IH.
  - destruct d as [[] [] [] [] [] [] [] []];
      try (constructor; [reflexivity | exact IH]).
    exfalso. apply Hd. reflexivity.
Qed.

Lemma skip_blank_empty (lines : list string) :
  Forall (fun l => l = "") lines -> Apache.skip_blank lines = Raise IndexError.
Proof. induction 1 as [|l rest -> _ IH]; [reflexivity | exact IH]. Qed.

(** X25: a page without a line that is not empty.  On the empty page,
    and on a page that consists of line ends only, the loop that skips
    the blank lines runs past the last line and [_parse_data] raises
    IndexError, in whatever order the keys are met. *)
Theorem parse_data_blank_page (order : list (string * string)) (data : string) :
  all_chars is_line_end data = true ->
  Apache._parse_data_in order data = Raise IndexError.
Proof.
  intros H. unfold Apache._parse_data_in, Apache.splitlines.
  rewrite (skip_blank_empty _ (splitlines_blank data H)). reflexivity.
Qed.

Lemma parse_data_blank_page_witness :
  Apache._parse_data "" = Raise IndexError
  /\ Apache._parse_data (String "013"%char (String "010"%char (String "010"%char "")))
     = Raise IndexError.
Proof.
  split.
  - apply (parse_data_blank_page Apache.fields ""). reflexivity.
  - apply (parse_data_blank_page Apache.fields). reflexivity.
Defined.

(** The one key a line starts with. *)
Lemma scan_keys_line (line : string) (entry : string * string)
    (acc : gmap string string) :
  List.In entry Apache.fields ->
  starts_with_key line entry = true ->
  Apache.scan_keys Apache.fields line acc
  = match Py.split line !! 1%nat with
    | Some v => Ok (<[ snd entry := v ]> acc)
    | None => Raise IndexError
    end.
Proof.
  intros Hin Hp. rewrite scan_keys_filter.
  assert (Hf : List.filter (starts_with_key line) Apache.fields = [entry]).
  { pose proof (filter_at_most_one (starts_with_key line) Apache.fields
                  fields_NoDup (fun x y => keys_exclusive line x y)) as Hlen.
    assert (Hin' : List.In entry (List.filter (starts_with_key line) Apache.fields))
      by (apply filter_In; auto).
    destruct (List.filter (starts_with_key line) Apache.fields) as [|x [|y l]];
      simpl in *; try lia; try tauto.
    destruct Hin' as [->|[]]. reflexivity. }
  rewrite Hf. destruct entry as [key name]. unfold starts_with_key in Hp.
  simpl in *. rewrite Hp. destruct (Py.split line !! 1%nat); reflexivity.
Qed.

Lemma scan_keys_no_key (line : string) (acc : gmap string string) :
  Forall (fun entry => starts_with_key line entry = false) Apache.fields ->
  Apache.scan_keys Apache.fields line acc = Ok acc.
Proof.
  intros H. rewrite scan_keys_filter.
  replace (List.filter (starts_with_key line) Apache.fields) with (@nil (string * string));
    [reflexivity|].
  symmetry. clear acc. induction H as [|x l Hx _ IH]; [reflexivity|].
  simpl. rewrite Hx. exact IH.
Qed.

(** X27: what a line of the page does to the result.  A line that
    starts with a key of [fields] stores under the name of that key the
    second blank-separated token of the line, over what was stored
    there, and raises IndexError when the line has no second token; a
    line that starts with no key leaves the result as it is.  This holds
    in whatever order the keys are met. *)
Theorem parse_line_value (order : list (string * string)) (line : string)
    (acc : gmap string string) :
  Permutation order Apache.fields ->
  (forall key name,
     List.In (key, name) Apache.fields ->
     String.prefix key line = true ->
     Apache.scan_keys order line acc
     = match Py.split line !! 1%nat with
       | Some v => Ok (<[ name := v ]> acc)
       | None => Raise IndexError
       end)
  /\ (Forall (fun entry => String.prefix (fst entry) line = false) Apache.fields ->
      Apache.scan_keys order line acc = Ok acc).
Proof.
  intros H. rewrite (scan_keys_order line order acc H). split.
  - intros key name Hin Hp. apply (scan_keys_line line (key, name) acc Hin Hp).
  - apply scan_keys_no_key.
Qed.

Lemma parse_line_value_witness :
  Apache.scan_keys Apache.fields "BusyWorkers: 3" ∅
  = Ok (<[ "busy_workers" := "3" ]> ∅)
  /\ Apache.scan_keys Apache.fields "BusyWorkers:3" ∅ = Raise IndexError.
Proof.
  split.
  - apply (proj1 (parse_line_value Apache.fields "BusyWorkers: 3" ∅
                    (Permutation_refl _)) "BusyWorkers:" "busy_workers").
    + simpl. tauto.
    + reflexivity.
  - apply (proj1 (parse_line_value Apache.fields "BusyWorkers:3" ∅
                    (Permutation_refl _)) "BusyWorkers:" "busy_workers").
    + simpl. tauto.
    + reflexivity.
Defined.

Lemma app_snoc (cur a : string) (c : ascii) :
  Py.snoc cur c +:+ a = cur +:+ String c a.
Proof.
  unfold Py.snoc. induction cur as [|d cur IH]; [reflexivity|].
  change (String d ((cur +:+ String c "") +:+ a) = String d (cur +:+ String c a)).
  f_equal. exact IH.
Qed.

(** A run without blanks goes to the token being read. *)
Lemma split_from_word (a : string) :
  all_chars (fun c => negb (Py.is_space c)) a = true ->
  forall cur rest, Py.split_from cur (a +:+ rest) = Py.split_from (cur +:+ a) rest.
Proof.
  induction a as [|c a IH]; intros Ha cur rest.
  - rewrite app_empty_r. reflexivity.
  - simpl in Ha. apply andb_true_iff in Ha. destruct Ha as [Hc Ha].
    apply negb_true_iff in Hc.
    change (String c a +:+ rest) with (String c (a +:+ rest)).
    cbn [Py.split_from]. rewrite Hc, (IH Ha), app_snoc. reflexivity.
Qed.

Lemma second_token (first second rest : string) :
  first <> "" ->
  all_chars (fun c => negb (Py.is_space c)) first = true ->
  second <> "" ->
  all_chars (fun c => negb (Py.is_space c)) second = true ->
  starts_with (fun c => negb (Py.is_space c)) rest = false ->
  Py.split (first +:+ " " +:+ second +:+ rest) !! 1%nat = Some second.
Proof.
  intros Hf1 Hf Hs1 Hs Hrest. unfold Py.split.
  rewrite (split_from_word first Hf).
  change ("" +:+ first) with first.
  change (" " +:+ second +:+ rest) with (String " " (second +:+ rest)).
  cbn [Py.split_from]. change (Py.is_space " ") with true. cbv beta iota.
  apply is_empty_false in Hf1. rewrite Hf1.
  rewrite (split_from_word second Hs). change ("" +:+ second) with second.
  apply is_empty_false in Hs1.
  destruct rest as [|c rest]; simpl in *.
  - rewrite Hs1. reflexivity.
  - apply negb_false_iff in Hrest. rewrite Hrest, Hs1. reflexivity.
Qed.

(** X28: the keys of two words.  For a line that starts with
    [Total Accesses:] or [Total kBytes:] and goes on with a blank or
    ends there, the value [_parse_data] stores is the second word of
    the key, [Accesses:] or [kBytes:], and not the number that follows
    it on the line. *)
Theorem two_word_keys (order : list (string * string)) (rest : string)
    (acc : gmap string string) :
  Permutation order Apache.fields ->
  starts_with (fun c => negb (Py.is_space c)) rest = false ->
  Apache.scan_keys order ("Total Accesses:" +:+ rest) acc
  = Ok (<[ "total_accesses" := "Accesses:" ]> acc)
  /\ Apache.scan_keys order ("Total kBytes:" +:+ rest) acc
     = Ok (<[ "total_kbytes_sent" := "kBytes:" ]> acc).
Proof.
  intros H Hrest. rewrite !(scan_keys_order _ order acc H). split.
  - rewrite (scan_keys_line _ ("Total Accesses:", "total_accesses"));
      [|simpl; tauto | apply app_prefix].
    change ("Total Accesses:" +:+ rest) with ("Total" +:+ " " +:+ "Accesses:" +:+ rest).
    rewrite second_token; try reflexivity; try discriminate; exact Hrest.
  - rewrite (scan_keys_line _ ("Total kBytes:", "total_kbytes_sent"));
      [|simpl; tauto | apply app_prefix].
    change ("Total kBytes:" +:+ rest) with ("Total" +:+ " " +:+ "kBytes:" +:+ rest).
    rewrite second_token; try reflexivity; try discriminate; exact Hrest.
Qed.

Lemma two_word_keys_witness :
  Apache.scan_keys Apache.fields "Total Accesses: 16" ∅
  = Ok (<[ "total_accesses" := "Accesses:" ]> ∅).
Proof.
  apply (proj1 (two_word_keys Apache.fields " 16" ∅ (Permutation_refl _) eq_refl)).
Defined.

Lemma apache_entry_run (data : gmap string string) (entry : string * string)
    (w : World) :
  (forall v, data !! fst entry = Some v -> is_Some (Py.int v)) ->
  (let '(key, name) := entry in
   match data !! key with
   | Some v =>
       n ← or_raise ValueError (Py.int v);
       Sys.emit_value name (VInt n) ∅
   | None => ret tt
   end) w
  = (Ok tt, logged (option_list (apache_sample data entry)) w).
Proof.
  destruct entry as [key name]. unfold apache_sample. simpl. intros Hint.
  destruct (data !! key) as [v|].
  - destruct (Hint v eq_refl) as [n Hn]. rewrite Hn. reflexivity.
  - simpl. rewrite logged_nil. reflexivity.
Qed.

(** X29: the metrics of the page.  When [_get_status] returned no
    data, [gather_sample] logs the error [No data returned.] and emits
    nothing.  When it returned a dict in which the values of the keys
    of [samplesToEmit] are integers, [gather_sample] returns normally
    and emits, for each of these keys that is in the dict and in the
    order the loop meets them, one metric of the name the key stands
    for with the integer as its value; no other key of the dict is
    emitted. *)
Theorem apache_gather_sample_emits (order : list (string * string))
    (data : gmap string string) (w : World) :
  (forall entry v,
     List.In entry order -> data !! fst entry = Some v -> is_Some (Py.int v)) ->
  Apache.gather_sample_in order None w
  = (Ok tt, logged [EvError "No data returned."] w)
  /\ Apache.gather_sample_in order (Some data) w
     = (Ok tt, logged (omap (apache_sample data) order) w).
Proof.
  intros Hint. split; [reflexivity|]. unfold Apache.gather_sample_in.
  revert w. induction order as [|entry rest IH]; intros w.
  - simpl. rewrite logged_nil. reflexivity.
  - cbn [for_each]. unfold bind.
    rewrite (apache_entry_run data entry w (fun v => Hint entry v (or_introl eq_refl))).
    rewrite (IH (fun e v Hin => Hint e v (or_intror Hin))), logged_logged.
    cbn [omap list_omap]. destruct (apache_sample data entry); reflexivity.
Qed.

Lemma apache_gather_sample_emits_witness :
  Apache.gather_sample (Some page_data) Scenario.world0
  = (Ok tt,
     logged [EvEmit "apache.workers.active" (VInt 3) ∅;
             EvEmit "apache.workers.idle" (VInt 5) ∅;
             EvEmit "apache.connections.active" (VInt 2) ∅] Scenario.world0).
Proof.
  refine (proj2 (apache_gather_sample_emits Apache.samplesToEmit page_data
                   Scenario.world0 _)).
  intros entry v Hin Hv. simpl in Hin.
  repeat (destruct Hin as [<-|Hin];
          [vm_compute in Hv; try discriminate Hv; injection Hv as <-;
           eexists; reflexivity|]).
  contradiction.
Defined.

(* ===================================================================== *)
(** * A target that is no process id *)
(* ===================================================================== *)

(** X30: a target that is no number.  In explicit-id mode, when the
    configured pid is neither the sentinel [$$] nor a text [int()]
    accepts, [__select_process] raises ValueError without probing any
    process, since only OSError is caught; a monitor without a process
    then raises ValueError from every call of [gather_sample] and stays
    as it is. *)
Theorem target_not_a_number (m : ProcessMonitor) (w : World) (target : string) :
  __pid m = None ->
  __commandline_matcher m = None ->
  __target_pid m = Some target ->
  resolve_target target w = None ->
  select_process (m, w) = (Raise ValueError, (m, w))
  /\ monitor_gather_sample (m, w) = (Raise ValueError, (m, w)).
Proof.
  intros Hpid Hc Ht Hr.
  assert (Hsel : select_process (m, w) = (Raise ValueError, (m, w))).
  { unfold select_process, resolve_target in *.
    unfold Sys.kill, Sys.getpid, Sys.ask, Sys.log. unfold_monad. simpl.
    rewrite Hc, Ht. destruct (String.eqb target "$$"); [discriminate Hr|].
    rewrite Hr. reflexivity. }
  split; [exact Hsel|].
  rewrite (monitor_gather_sample_unbound m w Hpid), Hsel. reflexivity.
Qed.

Lemma target_not_a_number_witness :
  monitor_gather_sample (monitor_of "tomcat", Scenario.world0)
  = (Raise ValueError, (monitor_of "tomcat", Scenario.world0)).
Proof.
  apply (target_not_a_number (monitor_of "tomcat") Scenario.world0 "tomcat");
    reflexivity.
Defined.
